(** * gp plotting engine (plot.c): shallow embedding and checked properties

    The development follows plot.c function by function.  The engine state
    [plot_t] is threaded explicitly; arrays are lists indexed by the C [int]
    index; loops over the rows of a dataset take a [fuel] argument and
    return [None] when it runs out.

    Numbers.  plot.h (with the typedef of [fval_t]) is not part of the
    sources at hand.  [fval_t] and [double] are modelled by exact rational
    arithmetic extended with one non-finite value ([None], standing for NaN
    and the infinities alike); every finite result is kept in lowest terms.
    Rounding of binary floating point is therefore outside the model. *)

From Stdlib Require Import ZArith QArith Lia Lqa List String Sorted.
From stdpp Require Import base option list.

Open Scope Z_scope.

(** ** Floating point values *)

Definition double := option Q.
Definition fval_t := double.

Definition fp_nan : double := None.
Definition FP_NAN : double := fp_nan.

Definition fp_isfinite (x : double) : bool :=
  match x with Some _ => true | None => false end.

Definition fval_of_int (n : Z) : double := Some (inject_Z n).
Definition fval_of_Q (q : Q) : double := Some (Qred q).

Definition fop2 (f : Q -> Q -> Q) (a b : double) : double :=
  match a, b with
  | Some x, Some y => Some (Qred (f x y))
  | _, _ => None
  end.

Definition fadd : double -> double -> double := fop2 Qplus.
Definition fsub : double -> double -> double := fop2 Qminus.
Definition fmul : double -> double -> double := fop2 Qmult.

Definition fdiv (a b : double) : double :=
  match a, b with
  | Some x, Some y => if Qeq_bool y 0 then None else Some (Qred (x / y))
  | _, _ => None
  end.

Definition fneg (a : double) : double :=
  match a with Some x => Some (Qred (- x)) | None => None end.

(** Comparisons are false as soon as one side is not finite, as for NaN. *)
Definition fcmp (r : comparison -> bool) (a b : double) : bool :=
  match a, b with
  | Some x, Some y => r (x ?= y)%Q
  | _, _ => false
  end.

Definition flt : double -> double -> bool :=
  fcmp (fun c => match c with Lt => true | _ => false end).
Definition fgt : double -> double -> bool :=
  fcmp (fun c => match c with Gt => true | _ => false end).
Definition fle : double -> double -> bool :=
  fcmp (fun c => match c with Gt => false | _ => true end).
Definition fge : double -> double -> bool :=
  fcmp (fun c => match c with Lt => false | _ => true end).
Definition feq : double -> double -> bool :=
  fcmp (fun c => match c with Eq => true | _ => false end).

Declare Scope fval_scope.
Delimit Scope fval_scope with F.
Infix "+" := fadd : fval_scope.
Infix "-" := fsub : fval_scope.
Infix "*" := fmul : fval_scope.
Infix "/" := fdiv : fval_scope.
Infix "<?" := flt : fval_scope.
Infix ">?" := fgt : fval_scope.
Infix "<=?" := fle : fval_scope.
Infix ">=?" := fge : fval_scope.

(** ** C integers and arrays *)

(** Conversion to a 32 bit [int], wrap-around written out. *)
Definition to_int (z : Z) : Z := (z + 2 ^ 31) mod 2 ^ 32 - 2 ^ 31.

(** [a[i]]: reads outside the array are undefined in C; the model yields the
    default element there and drops such writes. *)
Definition aget {A} `{Inhabited A} (l : list A) (i : Z) : A :=
  if decide (0 <= i) then l !!! Z.to_nat i else inhabitant.

Definition aset {A} (l : list A) (i : Z) (x : A) : list A :=
  if decide (0 <= i) then <[Z.to_nat i := x]> l else l.

Definition aupd {A} `{Inhabited A} (l : list A) (i : Z) (f : A -> A) : list A :=
  aset l i (f (aget l i)).

#[global] Instance string_inhabited : Inhabited string := populate EmptyString.

(** [for (N = from; N < from + cnt; ++N) if (p N) { r = N; break; }] with
    [r] preset to [-1]. *)
Fixpoint first_index (p : Z -> bool) (from : Z) (cnt : nat) : Z :=
  match cnt with
  | O => -1
  | S n => if p from then from else first_index p (from + 1) n
  end.

(** [for (N = from; N < to; ++N) s = body N s]. *)
Definition for_range {S} (from to : Z) (body : Z -> S -> S) (s : S) : S :=
  foldl (fun s N => body N s) s (seqZ from (to - from)).

(** ** Constants of plot.h and external collaborators *)

Class plot_h := {
  PLOT_DATASET_MAX : Z;
  PLOT_CHUNK_SIZE : Z;
  PLOT_CHUNK_MAX : Z;
  PLOT_CHUNK_CACHE : Z;
  PLOT_RCACHE_SIZE : Z;
  PLOT_AXES_MAX : Z;
  PLOT_FIGURE_MAX : Z;
  PLOT_SUBTRACT : Z;
  PLOT_GROUP_MAX : Z;
  PLOT_SKETCH_CHUNK_SIZE : Z;
  PLOT_SKETCH_MAX : Z;
  sizeof_fval_t : Z;
}.

(** The codec (lz4.h), libm and the rasterizer (draw.h) are external.

    Modelled from the spec: draw.c is not part of the sources; section 6 of
    the specification describes [trialLine] and [trialDot] as returning
    whether the primitive intersects the current viewport, so both are
    functions of their arguments alone and [drawClearTrial] has no effect
    they could observe. *)
Record clipBox_t := {
  min_x : Z;
  max_x : Z;
  min_y : Z;
  max_y : Z;
}.

Class extern_h := {
  sqrt : double -> double;
  LZ4_compressBound : Z -> Z;
  (* [None] stands for a returned length [<= 0] *)
  LZ4_compress_default : list fval_t -> Z -> Z -> option (list Z);
  (* [None] stands for a returned length other than the capacity asked for *)
  LZ4_decompress_safe : list Z -> Z -> Z -> option (list fval_t);
  drawLineTrial : clipBox_t -> double -> double -> double -> double -> Z -> Z -> Z;
  drawDotTrial : clipBox_t -> double -> double -> Z -> Z -> Z -> Z;
}.

(** ** The engine state *)

(** [pl->data[dN].sub[sN]]: the [busy] tag together with the member of the
    [op] union it selects. *)
Inductive binary_t :=
| SUBTRACT_BINARY_SUBTRACTION
| SUBTRACT_BINARY_ADDITION
| SUBTRACT_BINARY_MULTIPLICATION
| SUBTRACT_BINARY_HYPOTENUSE.

Inductive filter_t :=
| SUBTRACT_FILTER_DIFFERENCE
| SUBTRACT_FILTER_CUMULATIVE
| SUBTRACT_FILTER_BITMASK
| SUBTRACT_FILTER_LOW_PASS.

Inductive subtract_t :=
| SUBTRACT_FREE
| SUBTRACT_TIME_UNWRAP (column_1 : Z) (unwrap prev prev2 : double)
| SUBTRACT_SCALE (column_1 : Z) (scale offset : double)
| SUBTRACT_BINARY (busy : binary_t) (column_1 column_2 : Z)
| SUBTRACT_FILTER (busy : filter_t) (column_1 : Z) (arg_1 arg_2 state : double)
| SUBTRACT_RESAMPLE (column_X column_in_X column_in_Y in_data_N : Z)
| SUBTRACT_POLYFIT (column_X column_Y poly_N : Z) (coefs : list double).

#[global] Instance subtract_inhabited : Inhabited subtract_t := populate SUBTRACT_FREE.

(** [pl->data[dN].raw[kN]] is a pointer: null, a buffer of the dataset's own
    (plotDataChunkAlloc), or the buffer held by a node of the chunk cache
    (plotDataCacheFetch), which it then aliases. *)
Inductive raw_t :=
| NULL
| Own (buf : list fval_t)
| Cached (xN : Z).

#[global] Instance raw_inhabited : Inhabited raw_t := populate NULL.

Module Cache.
Record t := {
  raw : option (list fval_t);
  chunk_N : Z;
  dirty : Z;
}.
Definition set_raw (v : option (list fval_t)) (r : t) : t :=
  Build_t v (chunk_N r) (dirty r).
Definition set_chunk_N (v : Z) (r : t) : t :=
  Build_t (raw r) v (dirty r).
Definition set_dirty (v : Z) (r : t) : t :=
  Build_t (raw r) (chunk_N r) v.
Definition zero : t := {| raw := None; chunk_N := 0; dirty := 0 |}.
End Cache.

#[global] Instance cache_inhabited : Inhabited Cache.t := populate Cache.zero.

Module Compress.
Record t := {
  raw : option (list Z);
  length : Z;
}.
Definition set_raw (v : option (list Z)) (r : t) : t :=
  Build_t v (length r).
Definition set_length (v : Z) (r : t) : t :=
  Build_t (raw r) v.
Definition zero : t := {| raw := None; length := 0 |}.
End Compress.

#[global] Instance compress_inhabited : Inhabited Compress.t := populate Compress.zero.

Module Data.
Record t := {
  column_N : Z;
  length_N : Z;
  head_N : Z;
  tail_N : Z;
  id_N : Z;
  sub_N : Z;
  chunk_SHIFT : Z;
  chunk_MASK : Z;
  chunk_bSIZE : Z;
  raw : list raw_t;
  cache : list Cache.t;
  cache_ID : Z;
  compress : list Compress.t;
  sub : list subtract_t;
  (* [map[c]] for [c] from [-1] on is kept at index [c + 1]; [None] is the
     null pointer *)
  map : option (list Z);
}.
Definition set_column_N (v : Z) (r : t) : t :=
  Build_t v (length_N r) (head_N r) (tail_N r) (id_N r) (sub_N r) (chunk_SHIFT r) (chunk_MASK r) (chunk_bSIZE r) (raw r) (cache r) (cache_ID r) (compress r) (sub r) (map r).
Definition set_length_N (v : Z) (r : t) : t :=
  Build_t (column_N r) v (head_N r) (tail_N r) (id_N r) (sub_N r) (chunk_SHIFT r) (chunk_MASK r) (chunk_bSIZE r) (raw r) (cache r) (cache_ID r) (compress r) (sub r) (map r).
Definition set_head_N (v : Z) (r : t) : t :=
  Build_t (column_N r) (length_N r) v (tail_N r) (id_N r) (sub_N r) (chunk_SHIFT r) (chunk_MASK r) (chunk_bSIZE r) (raw r) (cache r) (cache_ID r) (compress r) (sub r) (map r).
Definition set_tail_N (v : Z) (r : t) : t :=
  Build_t (column_N r) (length_N r) (head_N r) v (id_N r) (sub_N r) (chunk_SHIFT r) (chunk_MASK r) (chunk_bSIZE r) (raw r) (cache r) (cache_ID r) (compress r) (sub r) (map r).
Definition set_id_N (v : Z) (r : t) : t :=
  Build_t (column_N r) (length_N r) (head_N r) (tail_N r) v (sub_N r) (chunk_SHIFT r) (chunk_MASK r) (chunk_bSIZE r) (raw r) (cache r) (cache_ID r) (compress r) (sub r) (map r).
Definition set_sub_N (v : Z) (r : t) : t :=
  Build_t (column_N r) (length_N r) (head_N r) (tail_N r) (id_N r) v (chunk_SHIFT r) (chunk_MASK r) (chunk_bSIZE r) (raw r) (cache r) (cache_ID r) (compress r) (sub r) (map r).
Definition set_chunk_SHIFT (v : Z) (r : t) : t :=
  Build_t (column_N r) (length_N r) (head_N r) (tail_N r) (id_N r) (sub_N r) v (chunk_MASK r) (chunk_bSIZE r) (raw r) (cache r) (cache_ID r) (compress r) (sub r) (map r).
Definition set_chunk_MASK (v : Z) (r : t) : t :=
  Build_t (column_N r) (length_N r) (head_N r) (tail_N r) (id_N r) (sub_N r) (chunk_SHIFT r) v (chunk_bSIZE r) (raw r) (cache r) (cache_ID r) (compress r) (sub r) (map r).
Definition set_chunk_bSIZE (v : Z) (r : t) : t :=
  Build_t (column_N r) (length_N r) (head_N r) (tail_N r) (id_N r) (sub_N r) (chunk_SHIFT r) (chunk_MASK r) v (raw r) (cache r) (cache_ID r) (compress r) (sub r) (map r).
Definition set_raw (v : list raw_t) (r : t) : t :=
  Build_t (column_N r) (length_N r) (head_N r) (tail_N r) (id_N r) (sub_N r) (chunk_SHIFT r) (chunk_MASK r) (chunk_bSIZE r) v (cache r) (cache_ID r) (compress r) (sub r) (map r).
Definition set_cache (v : list Cache.t) (r : t) : t :=
  Build_t (column_N r) (length_N r) (head_N r) (tail_N r) (id_N r) (sub_N r) (chunk_SHIFT r) (chunk_MASK r) (chunk_bSIZE r) (raw r) v (cache_ID r) (compress r) (sub r) (map r).
Definition set_cache_ID (v : Z) (r : t) : t :=
  Build_t (column_N r) (length_N r) (head_N r) (tail_N r) (id_N r) (sub_N r) (chunk_SHIFT r) (chunk_MASK r) (chunk_bSIZE r) (raw r) (cache r) v (compress r) (sub r) (map r).
Definition set_compress (v : list Compress.t) (r : t) : t :=
  Build_t (column_N r) (length_N r) (head_N r) (tail_N r) (id_N r) (sub_N r) (chunk_SHIFT r) (chunk_MASK r) (chunk_bSIZE r) (raw r) (cache r) (cache_ID r) v (sub r) (map r).
Definition set_sub (v : list subtract_t) (r : t) : t :=
  Build_t (column_N r) (length_N r) (head_N r) (tail_N r) (id_N r) (sub_N r) (chunk_SHIFT r) (chunk_MASK r) (chunk_bSIZE r) (raw r) (cache r) (cache_ID r) (compress r) v (map r).
Definition set_map (v : option (list Z)) (r : t) : t :=
  Build_t (column_N r) (length_N r) (head_N r) (tail_N r) (id_N r) (sub_N r) (chunk_SHIFT r) (chunk_MASK r) (chunk_bSIZE r) (raw r) (cache r) (cache_ID r) (compress r) (sub r) v.
Definition zero : t :=
  {| column_N := 0; length_N := 0; head_N := 0; tail_N := 0; id_N := 0; sub_N := 0;
     chunk_SHIFT := 0; chunk_MASK := 0; chunk_bSIZE := 0; raw := []; cache := [];
     cache_ID := 0; compress := []; sub := []; map := None |}.
End Data.

#[global] Instance data_inhabited : Inhabited Data.t := populate Data.zero.

(** [pl->rcache[xN].chunk[kN]] *)
Module RChunk.
Record t := {
  computed : Z;
  finite : Z;
  fmin : fval_t;
  fmax : fval_t;
}.
Definition set_computed (v : Z) (r : t) : t :=
  Build_t v (finite r) (fmin r) (fmax r).
Definition set_finite (v : Z) (r : t) : t :=
  Build_t (computed r) v (fmin r) (fmax r).
Definition set_fmin (v : fval_t) (r : t) : t :=
  Build_t (computed r) (finite r) v (fmax r).
Definition set_fmax (v : fval_t) (r : t) : t :=
  Build_t (computed r) (finite r) (fmin r) v.
Definition zero : t :=
  {| computed := 0; finite := 0; fmin := Some 0%Q; fmax := Some 0%Q |}.
End RChunk.

#[global] Instance rchunk_inhabited : Inhabited RChunk.t := populate RChunk.zero.

(** [pl->rcache[xN]] *)
Module RCache.
Record t := {
  busy : Z;
  data_N : Z;
  column_N : Z;
  cached : Z;
  chunk : list RChunk.t;
  fmin : fval_t;
  fmax : fval_t;
}.
Definition set_busy (v : Z) (r : t) : t :=
  Build_t v (data_N r) (column_N r) (cached r) (chunk r) (fmin r) (fmax r).
Definition set_data_N (v : Z) (r : t) : t :=
  Build_t (busy r) v (column_N r) (cached r) (chunk r) (fmin r) (fmax r).
Definition set_column_N (v : Z) (r : t) : t :=
  Build_t (busy r) (data_N r) v (cached r) (chunk r) (fmin r) (fmax r).
Definition set_cached (v : Z) (r : t) : t :=
  Build_t (busy r) (data_N r) (column_N r) v (chunk r) (fmin r) (fmax r).
Definition set_chunk (v : list RChunk.t) (r : t) : t :=
  Build_t (busy r) (data_N r) (column_N r) (cached r) v (fmin r) (fmax r).
Definition set_fmin (v : fval_t) (r : t) : t :=
  Build_t (busy r) (data_N r) (column_N r) (cached r) (chunk r) v (fmax r).
Definition set_fmax (v : fval_t) (r : t) : t :=
  Build_t (busy r) (data_N r) (column_N r) (cached r) (chunk r) (fmin r) v.
Definition zero : t :=
  {| busy := 0; data_N := 0; column_N := 0; cached := 0; chunk := []; fmin := Some 0%Q; fmax := Some 0%Q |}.
End RCache.

#[global] Instance rcache_inhabited : Inhabited RCache.t := populate RCache.zero.

Inductive axis_busy_t := AXIS_FREE | AXIS_BUSY_X | AXIS_BUSY_Y.

Inductive axis_slave_t := AXIS_SLAVE_DISABLE | AXIS_SLAVE_ENABLE | AXIS_SLAVE_HOLD_AS_IS.

Inductive drawing_t := FIGURE_DRAWING_LINE | FIGURE_DRAWING_DASH | FIGURE_DRAWING_DOT.

Inductive sketch_state_t := SKETCH_STARTED | SKETCH_INTERRUPTED | SKETCH_FINISHED.

#[global] Instance axis_busy_eq_dec : EqDecision axis_busy_t.
Proof. solve_decision. Defined.
#[global] Instance axis_slave_eq_dec : EqDecision axis_slave_t.
Proof. solve_decision. Defined.
#[global] Instance drawing_eq_dec : EqDecision drawing_t.
Proof. solve_decision. Defined.
#[global] Instance sketch_state_eq_dec : EqDecision sketch_state_t.
Proof. solve_decision. Defined.

(** [pl->axis[aN]] *)
Module Axis.
Record t := {
  busy : axis_busy_t;
  slave : Z;
  slave_N : Z;
  scale : double;
  offset : double;
  lock_scale : Z;
  label : string;
  expen : Z;
  compact : Z;
}.
Definition set_busy (v : axis_busy_t) (r : t) : t :=
  Build_t v (slave r) (slave_N r) (scale r) (offset r) (lock_scale r) (label r) (expen r) (compact r).
Definition set_slave (v : Z) (r : t) : t :=
  Build_t (busy r) v (slave_N r) (scale r) (offset r) (lock_scale r) (label r) (expen r) (compact r).
Definition set_slave_N (v : Z) (r : t) : t :=
  Build_t (busy r) (slave r) v (scale r) (offset r) (lock_scale r) (label r) (expen r) (compact r).
Definition set_scale (v : double) (r : t) : t :=
  Build_t (busy r) (slave r) (slave_N r) v (offset r) (lock_scale r) (label r) (expen r) (compact r).
Definition set_offset (v : double) (r : t) : t :=
  Build_t (busy r) (slave r) (slave_N r) (scale r) v (lock_scale r) (label r) (expen r) (compact r).
Definition set_lock_scale (v : Z) (r : t) : t :=
  Build_t (busy r) (slave r) (slave_N r) (scale r) (offset r) v (label r) (expen r) (compact r).
Definition set_label (v : string) (r : t) : t :=
  Build_t (busy r) (slave r) (slave_N r) (scale r) (offset r) (lock_scale r) v (expen r) (compact r).
Definition set_expen (v : Z) (r : t) : t :=
  Build_t (busy r) (slave r) (slave_N r) (scale r) (offset r) (lock_scale r) (label r) v (compact r).
Definition set_compact (v : Z) (r : t) : t :=
  Build_t (busy r) (slave r) (slave_N r) (scale r) (offset r) (lock_scale r) (label r) (expen r) v.
Definition zero : t :=
  {| busy := AXIS_FREE; slave := 0; slave_N := 0; scale := Some 0%Q; offset := Some 0%Q; lock_scale := 0; label := EmptyString; expen := 0; compact := 0 |}.
End Axis.

#[global] Instance axis_inhabited : Inhabited Axis.t := populate Axis.zero.

(** [pl->figure[fN]] *)
Module Figure.
Record t := {
  busy : Z;
  hidden : Z;
  drawing : drawing_t;
  width : Z;
  data_N : Z;
  column_X : Z;
  column_Y : Z;
  axis_X : Z;
  axis_Y : Z;
  label : string;
}.
Definition set_busy (v : Z) (r : t) : t :=
  Build_t v (hidden r) (drawing r) (width r) (data_N r) (column_X r) (column_Y r) (axis_X r) (axis_Y r) (label r).
Definition set_hidden (v : Z) (r : t) : t :=
  Build_t (busy r) v (drawing r) (width r) (data_N r) (column_X r) (column_Y r) (axis_X r) (axis_Y r) (label r).
Definition set_drawing (v : drawing_t) (r : t) : t :=
  Build_t (busy r) (hidden r) v (width r) (data_N r) (column_X r) (column_Y r) (axis_X r) (axis_Y r) (label r).
Definition set_width (v : Z) (r : t) : t :=
  Build_t (busy r) (hidden r) (drawing r) v (data_N r) (column_X r) (column_Y r) (axis_X r) (axis_Y r) (label r).
Definition set_data_N (v : Z) (r : t) : t :=
  Build_t (busy r) (hidden r) (drawing r) (width r) v (column_X r) (column_Y r) (axis_X r) (axis_Y r) (label r).
Definition set_column_X (v : Z) (r : t) : t :=
  Build_t (busy r) (hidden r) (drawing r) (width r) (data_N r) v (column_Y r) (axis_X r) (axis_Y r) (label r).
Definition set_column_Y (v : Z) (r : t) : t :=
  Build_t (busy r) (hidden r) (drawing r) (width r) (data_N r) (column_X r) v (axis_X r) (axis_Y r) (label r).
Definition set_axis_X (v : Z) (r : t) : t :=
  Build_t (busy r) (hidden r) (drawing r) (width r) (data_N r) (column_X r) (column_Y r) v (axis_Y r) (label r).
Definition set_axis_Y (v : Z) (r : t) : t :=
  Build_t (busy r) (hidden r) (drawing r) (width r) (data_N r) (column_X r) (column_Y r) (axis_X r) v (label r).
Definition set_label (v : string) (r : t) : t :=
  Build_t (busy r) (hidden r) (drawing r) (width r) (data_N r) (column_X r) (column_Y r) (axis_X r) (axis_Y r) v.
Definition zero : t :=
  {| busy := 0; hidden := 0; drawing := FIGURE_DRAWING_LINE; width := 0; data_N := 0; column_X := 0; column_Y := 0; axis_X := 0; axis_Y := 0; label := EmptyString |}.
End Figure.

#[global] Instance figure_inhabited : Inhabited Figure.t := populate Figure.zero.

(** [pl->draw[fN]] *)
Module Draw.
Record t := {
  sketch : sketch_state_t;
  rN : Z;
  id_N : Z;
  skipped : Z;
  line : Z;
  last_X : double;
  last_Y : double;
  list_self : Z;
}.
Definition set_sketch (v : sketch_state_t) (r : t) : t :=
  Build_t v (rN r) (id_N r) (skipped r) (line r) (last_X r) (last_Y r) (list_self r).
Definition set_rN (v : Z) (r : t) : t :=
  Build_t (sketch r) v (id_N r) (skipped r) (line r) (last_X r) (last_Y r) (list_self r).
Definition set_id_N (v : Z) (r : t) : t :=
  Build_t (sketch r) (rN r) v (skipped r) (line r) (last_X r) (last_Y r) (list_self r).
Definition set_skipped (v : Z) (r : t) : t :=
  Build_t (sketch r) (rN r) (id_N r) v (line r) (last_X r) (last_Y r) (list_self r).
Definition set_line (v : Z) (r : t) : t :=
  Build_t (sketch r) (rN r) (id_N r) (skipped r) v (last_X r) (last_Y r) (list_self r).
Definition set_last_X (v : double) (r : t) : t :=
  Build_t (sketch r) (rN r) (id_N r) (skipped r) (line r) v (last_Y r) (list_self r).
Definition set_last_Y (v : double) (r : t) : t :=
  Build_t (sketch r) (rN r) (id_N r) (skipped r) (line r) (last_X r) v (list_self r).
Definition set_list_self (v : Z) (r : t) : t :=
  Build_t (sketch r) (rN r) (id_N r) (skipped r) (line r) (last_X r) (last_Y r) v.
Definition zero : t :=
  {| sketch := SKETCH_FINISHED; rN := 0; id_N := 0; skipped := 0; line := 0; last_X := Some 0%Q; last_Y := Some 0%Q; list_self := 0 |}.
End Draw.

#[global] Instance draw_inhabited : Inhabited Draw.t := populate Draw.zero.

(** [pl->sketch[hN]] *)
Module Sketch.
Record t := {
  figure_N : Z;
  drawing : drawing_t;
  width : Z;
  chunk : option (list double);
  length : Z;
  linked : Z;
}.
Definition set_figure_N (v : Z) (r : t) : t :=
  Build_t v (drawing r) (width r) (chunk r) (length r) (linked r).
Definition set_drawing (v : drawing_t) (r : t) : t :=
  Build_t (figure_N r) v (width r) (chunk r) (length r) (linked r).
Definition set_width (v : Z) (r : t) : t :=
  Build_t (figure_N r) (drawing r) v (chunk r) (length r) (linked r).
Definition set_chunk (v : option (list double)) (r : t) : t :=
  Build_t (figure_N r) (drawing r) (width r) v (length r) (linked r).
Definition set_length (v : Z) (r : t) : t :=
  Build_t (figure_N r) (drawing r) (width r) (chunk r) v (linked r).
Definition set_linked (v : Z) (r : t) : t :=
  Build_t (figure_N r) (drawing r) (width r) (chunk r) (length r) v.
Definition zero : t :=
  {| figure_N := 0; drawing := FIGURE_DRAWING_LINE; width := 0; chunk := None; length := 0; linked := 0 |}.
End Sketch.

#[global] Instance sketch_inhabited : Inhabited Sketch.t := populate Sketch.zero.

(** [plot_t], restricted to the members the functions below touch.  Two
    members stand for the environment: [stderr] collects the messages of the
    [ERROR] macro, and [malloc_script] lists the outcome of the [malloc]
    calls to come ([false]: the call returns the null pointer; once the list
    is used up every call succeeds). *)
Record plot_t := {
  data : list Data.t;
  rcache : list RCache.t;
  rcache_ID : Z;
  rcache_wipe_data_N : Z;
  rcache_wipe_chunk_N : Z;
  lz4_compress : Z;
  viewport : clipBox_t;
  axis : list Axis.t;
  figure : list Figure.t;
  (* [group[gN].label] *)
  group : list string;
  on_X : Z;
  on_Y : Z;
  default_drawing : drawing_t;
  default_width : Z;
  draw : list Draw.t;
  draw_in_progress : Z;
  sketch : list Sketch.t;
  sketch_list_garbage : Z;
  sketch_list_todraw : Z;
  sketch_list_current : Z;
  sketch_list_current_end : Z;
  stderr : list string;
  malloc_script : list bool;
}.

Definition set_data (v : list Data.t) (pl : plot_t) : plot_t :=
  Build_plot_t v (rcache pl) (rcache_ID pl) (rcache_wipe_data_N pl) (rcache_wipe_chunk_N pl) (lz4_compress pl) (viewport pl) (axis pl) (figure pl) (group pl) (on_X pl) (on_Y pl) (default_drawing pl) (default_width pl) (draw pl) (draw_in_progress pl) (sketch pl) (sketch_list_garbage pl) (sketch_list_todraw pl) (sketch_list_current pl) (sketch_list_current_end pl) (stderr pl) (malloc_script pl).
Definition set_rcache (v : list RCache.t) (pl : plot_t) : plot_t :=
  Build_plot_t (data pl) v (rcache_ID pl) (rcache_wipe_data_N pl) (rcache_wipe_chunk_N pl) (lz4_compress pl) (viewport pl) (axis pl) (figure pl) (group pl) (on_X pl) (on_Y pl) (default_drawing pl) (default_width pl) (draw pl) (draw_in_progress pl) (sketch pl) (sketch_list_garbage pl) (sketch_list_todraw pl) (sketch_list_current pl) (sketch_list_current_end pl) (stderr pl) (malloc_script pl).
Definition set_rcache_ID (v : Z) (pl : plot_t) : plot_t :=
  Build_plot_t (data pl) (rcache pl) v (rcache_wipe_data_N pl) (rcache_wipe_chunk_N pl) (lz4_compress pl) (viewport pl) (axis pl) (figure pl) (group pl) (on_X pl) (on_Y pl) (default_drawing pl) (default_width pl) (draw pl) (draw_in_progress pl) (sketch pl) (sketch_list_garbage pl) (sketch_list_todraw pl) (sketch_list_current pl) (sketch_list_current_end pl) (stderr pl) (malloc_script pl).
Definition set_rcache_wipe_data_N (v : Z) (pl : plot_t) : plot_t :=
  Build_plot_t (data pl) (rcache pl) (rcache_ID pl) v (rcache_wipe_chunk_N pl) (lz4_compress pl) (viewport pl) (axis pl) (figure pl) (group pl) (on_X pl) (on_Y pl) (default_drawing pl) (default_width pl) (draw pl) (draw_in_progress pl) (sketch pl) (sketch_list_garbage pl) (sketch_list_todraw pl) (sketch_list_current pl) (sketch_list_current_end pl) (stderr pl) (malloc_script pl).
Definition set_rcache_wipe_chunk_N (v : Z) (pl : plot_t) : plot_t :=
  Build_plot_t (data pl) (rcache pl) (rcache_ID pl) (rcache_wipe_data_N pl) v (lz4_compress pl) (viewport pl) (axis pl) (figure pl) (group pl) (on_X pl) (on_Y pl) (default_drawing pl) (default_width pl) (draw pl) (draw_in_progress pl) (sketch pl) (sketch_list_garbage pl) (sketch_list_todraw pl) (sketch_list_current pl) (sketch_list_current_end pl) (stderr pl) (malloc_script pl).
Definition set_viewport (v : clipBox_t) (pl : plot_t) : plot_t :=
  Build_plot_t (data pl) (rcache pl) (rcache_ID pl) (rcache_wipe_data_N pl) (rcache_wipe_chunk_N pl) (lz4_compress pl) v (axis pl) (figure pl) (group pl) (on_X pl) (on_Y pl) (default_drawing pl) (default_width pl) (draw pl) (draw_in_progress pl) (sketch pl) (sketch_list_garbage pl) (sketch_list_todraw pl) (sketch_list_current pl) (sketch_list_current_end pl) (stderr pl) (malloc_script pl).
Definition set_axis (v : list Axis.t) (pl : plot_t) : plot_t :=
  Build_plot_t (data pl) (rcache pl) (rcache_ID pl) (rcache_wipe_data_N pl) (rcache_wipe_chunk_N pl) (lz4_compress pl) (viewport pl) v (figure pl) (group pl) (on_X pl) (on_Y pl) (default_drawing pl) (default_width pl) (draw pl) (draw_in_progress pl) (sketch pl) (sketch_list_garbage pl) (sketch_list_todraw pl) (sketch_list_current pl) (sketch_list_current_end pl) (stderr pl) (malloc_script pl).
Definition set_figure (v : list Figure.t) (pl : plot_t) : plot_t :=
  Build_plot_t (data pl) (rcache pl) (rcache_ID pl) (rcache_wipe_data_N pl) (rcache_wipe_chunk_N pl) (lz4_compress pl) (viewport pl) (axis pl) v (group pl) (on_X pl) (on_Y pl) (default_drawing pl) (default_width pl) (draw pl) (draw_in_progress pl) (sketch pl) (sketch_list_garbage pl) (sketch_list_todraw pl) (sketch_list_current pl) (sketch_list_current_end pl) (stderr pl) (malloc_script pl).
Definition set_group (v : list string) (pl : plot_t) : plot_t :=
  Build_plot_t (data pl) (rcache pl) (rcache_ID pl) (rcache_wipe_data_N pl) (rcache_wipe_chunk_N pl) (lz4_compress pl) (viewport pl) (axis pl) (figure pl) v (on_X pl) (on_Y pl) (default_drawing pl) (default_width pl) (draw pl) (draw_in_progress pl) (sketch pl) (sketch_list_garbage pl) (sketch_list_todraw pl) (sketch_list_current pl) (sketch_list_current_end pl) (stderr pl) (malloc_script pl).
Definition set_on_X (v : Z) (pl : plot_t) : plot_t :=
  Build_plot_t (data pl) (rcache pl) (rcache_ID pl) (rcache_wipe_data_N pl) (rcache_wipe_chunk_N pl) (lz4_compress pl) (viewport pl) (axis pl) (figure pl) (group pl) v (on_Y pl) (default_drawing pl) (default_width pl) (draw pl) (draw_in_progress pl) (sketch pl) (sketch_list_garbage pl) (sketch_list_todraw pl) (sketch_list_current pl) (sketch_list_current_end pl) (stderr pl) (malloc_script pl).
Definition set_on_Y (v : Z) (pl : plot_t) : plot_t :=
  Build_plot_t (data pl) (rcache pl) (rcache_ID pl) (rcache_wipe_data_N pl) (rcache_wipe_chunk_N pl) (lz4_compress pl) (viewport pl) (axis pl) (figure pl) (group pl) (on_X pl) v (default_drawing pl) (default_width pl) (draw pl) (draw_in_progress pl) (sketch pl) (sketch_list_garbage pl) (sketch_list_todraw pl) (sketch_list_current pl) (sketch_list_current_end pl) (stderr pl) (malloc_script pl).
Definition set_default_drawing (v : drawing_t) (pl : plot_t) : plot_t :=
  Build_plot_t (data pl) (rcache pl) (rcache_ID pl) (rcache_wipe_data_N pl) (rcache_wipe_chunk_N pl) (lz4_compress pl) (viewport pl) (axis pl) (figure pl) (group pl) (on_X pl) (on_Y pl) v (default_width pl) (draw pl) (draw_in_progress pl) (sketch pl) (sketch_list_garbage pl) (sketch_list_todraw pl) (sketch_list_current pl) (sketch_list_current_end pl) (stderr pl) (malloc_script pl).
Definition set_default_width (v : Z) (pl : plot_t) : plot_t :=
  Build_plot_t (data pl) (rcache pl) (rcache_ID pl) (rcache_wipe_data_N pl) (rcache_wipe_chunk_N pl) (lz4_compress pl) (viewport pl) (axis pl) (figure pl) (group pl) (on_X pl) (on_Y pl) (default_drawing pl) v (draw pl) (draw_in_progress pl) (sketch pl) (sketch_list_garbage pl) (sketch_list_todraw pl) (sketch_list_current pl) (sketch_list_current_end pl) (stderr pl) (malloc_script pl).
Definition set_draw (v : list Draw.t) (pl : plot_t) : plot_t :=
  Build_plot_t (data pl) (rcache pl) (rcache_ID pl) (rcache_wipe_data_N pl) (rcache_wipe_chunk_N pl) (lz4_compress pl) (viewport pl) (axis pl) (figure pl) (group pl) (on_X pl) (on_Y pl) (default_drawing pl) (default_width pl) v (draw_in_progress pl) (sketch pl) (sketch_list_garbage pl) (sketch_list_todraw pl) (sketch_list_current pl) (sketch_list_current_end pl) (stderr pl) (malloc_script pl).
Definition set_draw_in_progress (v : Z) (pl : plot_t) : plot_t :=
  Build_plot_t (data pl) (rcache pl) (rcache_ID pl) (rcache_wipe_data_N pl) (rcache_wipe_chunk_N pl) (lz4_compress pl) (viewport pl) (axis pl) (figure pl) (group pl) (on_X pl) (on_Y pl) (default_drawing pl) (default_width pl) (draw pl) v (sketch pl) (sketch_list_garbage pl) (sketch_list_todraw pl) (sketch_list_current pl) (sketch_list_current_end pl) (stderr pl) (malloc_script pl).
Definition set_sketch (v : list Sketch.t) (pl : plot_t) : plot_t :=
  Build_plot_t (data pl) (rcache pl) (rcache_ID pl) (rcache_wipe_data_N pl) (rcache_wipe_chunk_N pl) (lz4_compress pl) (viewport pl) (axis pl) (figure pl) (group pl) (on_X pl) (on_Y pl) (default_drawing pl) (default_width pl) (draw pl) (draw_in_progress pl) v (sketch_list_garbage pl) (sketch_list_todraw pl) (sketch_list_current pl) (sketch_list_current_end pl) (stderr pl) (malloc_script pl).
Definition set_sketch_list_garbage (v : Z) (pl : plot_t) : plot_t :=
  Build_plot_t (data pl) (rcache pl) (rcache_ID pl) (rcache_wipe_data_N pl) (rcache_wipe_chunk_N pl) (lz4_compress pl) (viewport pl) (axis pl) (figure pl) (group pl) (on_X pl) (on_Y pl) (default_drawing pl) (default_width pl) (draw pl) (draw_in_progress pl) (sketch pl) v (sketch_list_todraw pl) (sketch_list_current pl) (sketch_list_current_end pl) (stderr pl) (malloc_script pl).
Definition set_sketch_list_todraw (v : Z) (pl : plot_t) : plot_t :=
  Build_plot_t (data pl) (rcache pl) (rcache_ID pl) (rcache_wipe_data_N pl) (rcache_wipe_chunk_N pl) (lz4_compress pl) (viewport pl) (axis pl) (figure pl) (group pl) (on_X pl) (on_Y pl) (default_drawing pl) (default_width pl) (draw pl) (draw_in_progress pl) (sketch pl) (sketch_list_garbage pl) v (sketch_list_current pl) (sketch_list_current_end pl) (stderr pl) (malloc_script pl).
Definition set_sketch_list_current (v : Z) (pl : plot_t) : plot_t :=
  Build_plot_t (data pl) (rcache pl) (rcache_ID pl) (rcache_wipe_data_N pl) (rcache_wipe_chunk_N pl) (lz4_compress pl) (viewport pl) (axis pl) (figure pl) (group pl) (on_X pl) (on_Y pl) (default_drawing pl) (default_width pl) (draw pl) (draw_in_progress pl) (sketch pl) (sketch_list_garbage pl) (sketch_list_todraw pl) v (sketch_list_current_end pl) (stderr pl) (malloc_script pl).
Definition set_sketch_list_current_end (v : Z) (pl : plot_t) : plot_t :=
  Build_plot_t (data pl) (rcache pl) (rcache_ID pl) (rcache_wipe_data_N pl) (rcache_wipe_chunk_N pl) (lz4_compress pl) (viewport pl) (axis pl) (figure pl) (group pl) (on_X pl) (on_Y pl) (default_drawing pl) (default_width pl) (draw pl) (draw_in_progress pl) (sketch pl) (sketch_list_garbage pl) (sketch_list_todraw pl) (sketch_list_current pl) v (stderr pl) (malloc_script pl).
Definition set_stderr (v : list string) (pl : plot_t) : plot_t :=
  Build_plot_t (data pl) (rcache pl) (rcache_ID pl) (rcache_wipe_data_N pl) (rcache_wipe_chunk_N pl) (lz4_compress pl) (viewport pl) (axis pl) (figure pl) (group pl) (on_X pl) (on_Y pl) (default_drawing pl) (default_width pl) (draw pl) (draw_in_progress pl) (sketch pl) (sketch_list_garbage pl) (sketch_list_todraw pl) (sketch_list_current pl) (sketch_list_current_end pl) v (malloc_script pl).
Definition set_malloc_script (v : list bool) (pl : plot_t) : plot_t :=
  Build_plot_t (data pl) (rcache pl) (rcache_ID pl) (rcache_wipe_data_N pl) (rcache_wipe_chunk_N pl) (lz4_compress pl) (viewport pl) (axis pl) (figure pl) (group pl) (on_X pl) (on_Y pl) (default_drawing pl) (default_width pl) (draw pl) (draw_in_progress pl) (sketch pl) (sketch_list_garbage pl) (sketch_list_todraw pl) (sketch_list_current pl) (sketch_list_current_end pl) (stderr pl) v.

(** ** Environment: the ERROR macro and malloc *)

Definition ERROR (msg : string) (pl : plot_t) : plot_t :=
  set_stderr (stderr pl ++ [msg]) pl.

(** [malloc]: [true] when a buffer is returned. *)
Definition malloc (pl : plot_t) : bool * plot_t :=
  match malloc_script pl with
  | [] => (true, pl)
  | ok :: script => (ok, set_malloc_script script pl)
  end.

Definition upd_data (dN : Z) (f : Data.t -> Data.t) (pl : plot_t) : plot_t :=
  set_data (aupd (data pl) dN f) pl.

Definition upd_rcache (xN : Z) (f : RCache.t -> RCache.t) (pl : plot_t) : plot_t :=
  set_rcache (aupd (rcache pl) xN f) pl.

Definition upd_axis (aN : Z) (f : Axis.t -> Axis.t) (pl : plot_t) : plot_t :=
  set_axis (aupd (axis pl) aN f) pl.

Definition upd_figure (fN : Z) (f : Figure.t -> Figure.t) (pl : plot_t) : plot_t :=
  set_figure (aupd (figure pl) fN f) pl.

Definition upd_draw (fN : Z) (f : Draw.t -> Draw.t) (pl : plot_t) : plot_t :=
  set_draw (aupd (draw pl) fN f) pl.

Definition upd_sketch (hN : Z) (f : Sketch.t -> Sketch.t) (pl : plot_t) : plot_t :=
  set_sketch (aupd (sketch pl) hN f) pl.

Section plot.

Context {ph : plot_h} {eh : extern_h}.

(** ** plotAlloc

    [calloc] followed by the initialisation of the sketch free list and of
    the defaults. *)

Definition data_calloc : Data.t :=
  {| Data.column_N := 0; Data.length_N := 0; Data.head_N := 0; Data.tail_N := 0;
     Data.id_N := 0; Data.sub_N := 0;
     Data.chunk_SHIFT := 0; Data.chunk_MASK := 0; Data.chunk_bSIZE := 0;
     Data.raw := replicate (Z.to_nat PLOT_CHUNK_MAX) NULL;
     Data.cache := replicate (Z.to_nat PLOT_CHUNK_CACHE) Cache.zero;
     Data.cache_ID := 0;
     Data.compress := replicate (Z.to_nat PLOT_CHUNK_MAX) Compress.zero;
     Data.sub := replicate (Z.to_nat PLOT_SUBTRACT) SUBTRACT_FREE;
     Data.map := None |}.

Definition rcache_calloc : RCache.t :=
  RCache.set_chunk (replicate (Z.to_nat PLOT_CHUNK_MAX) RChunk.zero) RCache.zero.

Definition plotAlloc : plot_t :=
  let sketch0 :=
    for_range 0 (PLOT_SKETCH_MAX - 1)
      (fun N sk => aupd sk N (Sketch.set_linked (N + 1)))
      (replicate (Z.to_nat PLOT_SKETCH_MAX) Sketch.zero) in
  let sketch1 := aupd sketch0 (PLOT_SKETCH_MAX - 1) (Sketch.set_linked (-1)) in
  {| data := replicate (Z.to_nat PLOT_DATASET_MAX) data_calloc;
     rcache := replicate (Z.to_nat PLOT_RCACHE_SIZE) rcache_calloc;
     rcache_ID := 0;
     rcache_wipe_data_N := 0;
     rcache_wipe_chunk_N := 0;
     lz4_compress := 0;
     viewport := {| min_x := 0; max_x := 0; min_y := 0; max_y := 0 |};
     axis := replicate (Z.to_nat PLOT_AXES_MAX) Axis.zero;
     figure := replicate (Z.to_nat PLOT_FIGURE_MAX) Figure.zero;
     group := replicate (Z.to_nat PLOT_GROUP_MAX) EmptyString;
     on_X := 0;
     on_Y := 0;
     default_drawing := FIGURE_DRAWING_LINE;
     default_width := 2;
     draw := replicate (Z.to_nat PLOT_FIGURE_MAX)
               (Draw.set_list_self (-1) (Draw.set_sketch SKETCH_STARTED Draw.zero));
     draw_in_progress := 0;
     sketch := sketch1;
     sketch_list_garbage := 0;
     sketch_list_todraw := -1;
     sketch_list_current := -1;
     sketch_list_current_end := -1;
     stderr := [];
     malloc_script := [] |}.

(** ** Chunked column store *)

Definition is_null (r : raw_t) : bool :=
  match r with NULL => true | _ => false end.

(** Number of [fval_t] cells of one chunk buffer. *)
Definition chunk_cells (d : Data.t) : nat :=
  Z.to_nat (Data.chunk_bSIZE d / sizeof_fval_t).

(** The first loop of plotDataChunkAlloc: allocate the chunks [N .. kN - 1]
    that are missing; on failure the length is cut to the chunks obtained. *)
Fixpoint plotDataChunkAlloc_grow (cnt : nat) (N lN dN : Z) (pl : plot_t) : Z * plot_t :=
  match cnt with
  | O => (lN, pl)
  | S cnt =>
    let d := aget (data pl) dN in
    if is_null (aget (Data.raw d) N) then
      let (ok, pl) := malloc pl in
      if ok then
        let buf := replicate (chunk_cells d) FP_NAN in
        let pl := upd_data dN (fun d => Data.set_raw (aset (Data.raw d) N (Own buf)) d) pl in
        plotDataChunkAlloc_grow cnt (N + 1) lN dN pl
      else
        (N * 2 ^ Data.chunk_SHIFT d,
         ERROR "Unable to allocate memory of %i dataset" pl)
    else plotDataChunkAlloc_grow cnt (N + 1) lN dN pl
  end.

Definition plotDataChunkAlloc (pl : plot_t) (dN lN : Z) : plot_t :=
  let d := aget (data pl) dN in
  let lSHIFT := Data.chunk_SHIFT d in
  let kN := if decide (Z.land lN (Data.chunk_MASK d) <> 0) then 1 else 0 in
  let kN := kN + Z.shiftr lN lSHIFT in
  let '(kN, lN) :=
    if decide (kN > PLOT_CHUNK_MAX)
    then (PLOT_CHUNK_MAX, PLOT_CHUNK_MAX * 2 ^ lSHIFT) else (kN, lN) in
  let '(lN, pl) :=
    if decide (lz4_compress pl <> 0) then
      (lN,
       for_range kN PLOT_CHUNK_MAX
         (fun N pl =>
            upd_data dN (fun d =>
              Data.set_compress (aupd (Data.compress d) N (Compress.set_raw None)) d) pl)
         pl)
    else
      let '(lN, pl) := plotDataChunkAlloc_grow (Z.to_nat kN) 0 lN dN pl in
      (lN,
       for_range kN PLOT_CHUNK_MAX
         (fun N pl =>
            upd_data dN (fun d => Data.set_raw (aset (Data.raw d) N NULL) d) pl)
         pl) in
  upd_data dN (Data.set_length_N lN) pl.

Definition plotDataCacheGetNode (pl : plot_t) (dN kN : Z) : Z * plot_t :=
  let d := aget (data pl) dN in
  let xN :=
    first_index (fun N => bool_decide (Cache.raw (aget (Data.cache d) N) = None))
      0 (Z.to_nat PLOT_CHUNK_CACHE) in
  if decide (xN < 0) then
    let kNOT := Z.shiftr (Data.tail_N d) (Data.chunk_SHIFT d) in
    let N := if decide (Data.cache_ID d < PLOT_CHUNK_CACHE - 1)
             then Data.cache_ID d + 1 else 0 in
    let N := if decide (Cache.chunk_N (aget (Data.cache d) N) = kNOT)
             then (if decide (N < PLOT_CHUNK_CACHE - 1) then N + 1 else 0)
             else N in
    (N, upd_data dN (Data.set_cache_ID N) pl)
  else (xN, pl).

Definition plotDataCacheFetch (pl : plot_t) (dN kN : Z) : plot_t :=
  let '(xN, pl) := plotDataCacheGetNode pl dN kN in
  let d := aget (data pl) dN in
  let node := aget (Data.cache d) xN in
  let pl :=
    match Cache.raw node with
    | Some buf =>
      let kNZ := Cache.chunk_N node in
      let pl :=
        if decide (Cache.dirty node <> 0) then
          let lzLEN := LZ4_compressBound (Data.chunk_bSIZE d) in
          let (ok, pl) := malloc pl in
          let pl := if ok then pl
                    else ERROR "Unable to allocate LZ4 memory of %i dataset" pl in
          match (if ok then LZ4_compress_default buf (Data.chunk_bSIZE d) lzLEN
                 else None) with
          | Some lz =>
            upd_data dN (fun d =>
              Data.set_compress
                (aset (Data.compress d) kNZ
                   {| Compress.raw := Some lz;
                      Compress.length := Z.of_nat (List.length lz) |}) d) pl
          | None =>
            upd_data dN (fun d =>
              Data.set_compress
                (aset (Data.compress d) kNZ
                   {| Compress.raw := None; Compress.length := 0 |}) d)
              (ERROR "Unable to compress the chunk of %i dataset" pl)
          end
        else pl in
      upd_data dN (fun d => Data.set_raw (aset (Data.raw d) kNZ NULL) d) pl
    | None =>
      let (ok, pl) := malloc pl in
      if ok then
        upd_data dN (fun d =>
          Data.set_cache
            (aupd (Data.cache d) xN
               (Cache.set_raw (Some (replicate (chunk_cells d) FP_NAN)))) d) pl
      else ERROR "Unable to allocate cache of %i dataset" pl
    end in
  let pl :=
    upd_data dN (fun d =>
      Data.set_cache
        (aupd (Data.cache d) xN (fun c => Cache.set_dirty 0 (Cache.set_chunk_N kN c))) d) pl in
  let pl :=
    upd_data dN (fun d =>
      Data.set_raw
        (aset (Data.raw d) kN
           (match Cache.raw (aget (Data.cache d) xN) with
            | Some _ => Cached xN
            | None => NULL
            end)) d) pl in
  let d := aget (data pl) dN in
  match Compress.raw (aget (Data.compress d) kN) with
  | Some lz =>
    match LZ4_decompress_safe lz (Compress.length (aget (Data.compress d) kN))
            (Data.chunk_bSIZE d) with
    | Some buf =>
      upd_data dN (fun d =>
        Data.set_cache
          (aupd (Data.cache d) xN
             (fun c => match Cache.raw c with
                       | Some _ => Cache.set_raw (Some buf) c
                       | None => c
                       end)) d) pl
    | None => ERROR "Unable to decompress the chunk of %i dataset" pl
    end
  | None => pl
  end.

Definition plotDataChunkFetch (pl : plot_t) (dN kN : Z) : plot_t :=
  let d := aget (data pl) dN in
  if is_null (aget (Data.raw d) kN) && bool_decide (Data.length_N d <> 0)
  then plotDataCacheFetch pl dN kN
  else pl.

Definition plotDataChunkWrite (pl : plot_t) (dN kN : Z) : plot_t :=
  let d := aget (data pl) dN in
  let pl :=
    if is_null (aget (Data.raw d) kN) && bool_decide (Data.length_N d <> 0)
    then plotDataCacheFetch pl dN kN
    else pl in
  let d := aget (data pl) dN in
  if is_null (aget (Data.raw d) kN) then pl
  else
    let N :=
      first_index (fun N => bool_decide (Cache.chunk_N (aget (Data.cache d) N) = kN))
        0 (Z.to_nat PLOT_CHUNK_CACHE) in
    if decide (N < 0) then pl
    else upd_data dN (fun d =>
           Data.set_cache (aupd (Data.cache d) N (Cache.set_dirty 1)) d) pl.

(** ** Range cache: node lookup and invalidation *)

Definition plotDataRangeCacheWipe (pl : plot_t) (dN kN : Z) : plot_t :=
  for_range 0 PLOT_RCACHE_SIZE
    (fun N pl =>
       let rc := aget (rcache pl) N in
       if decide (RCache.busy rc <> 0 /\ RCache.data_N rc = dN) then
         upd_rcache N (fun rc =>
           RCache.set_cached 0
             (RCache.set_chunk (aupd (RCache.chunk rc) kN (RChunk.set_computed 0)) rc)) pl
       else pl)
    pl.

Definition plotDataRangeCacheGetNode (pl : plot_t) (dN cN : Z) : Z :=
  first_index
    (fun N =>
       let rc := aget (rcache pl) N in
       bool_decide (RCache.busy rc <> 0 /\ RCache.data_N rc = dN /\ RCache.column_N rc = cN))
    0 (Z.to_nat PLOT_RCACHE_SIZE).

Definition plotDataRangeCacheClean (pl : plot_t) (dN : Z) : plot_t :=
  for_range 0 PLOT_RCACHE_SIZE
    (fun N pl =>
       if decide (RCache.data_N (aget (rcache pl) N) = dN)
       then upd_rcache N (RCache.set_busy 0) pl
       else pl)
    pl.

(** ** plotDataAlloc *)

Definition plotDataAlloc (pl : plot_t) (dN cN lN : Z) : plot_t :=
  if decide (dN < 0 \/ dN >= PLOT_DATASET_MAX) then
    ERROR "Dataset number is out of range" pl
  else if decide (cN < 1) then
    ERROR "Number of columns is too few" pl
  else if decide (lN < 1) then
    ERROR "Length of dataset is too short" pl
  else if decide (Data.column_N (aget (data pl) dN) <> 0) then
    if decide (Data.column_N (aget (data pl) dN) <> cN) then
      ERROR "Number of columns cannot be changed" pl
    else
      let pl := plotDataRangeCacheClean pl dN in
      let pl := plotDataChunkAlloc pl dN lN in
      upd_data dN (fun d =>
        Data.set_sub_N 0 (Data.set_id_N 0 (Data.set_tail_N 0 (Data.set_head_N 0 d)))) pl
  else
    let pl := upd_data dN (Data.set_column_N cN) pl in
    let bSIZE N := to_int (sizeof_fval_t * (cN + PLOT_SUBTRACT) * 2 ^ N) in
    let N := first_index (fun N => bool_decide (bSIZE N >= PLOT_CHUNK_SIZE)) 0 30 in
    let pl :=
      if decide (N < 0) then pl
      else upd_data dN (fun d =>
             Data.set_chunk_bSIZE (bSIZE N)
               (Data.set_chunk_MASK (2 ^ N - 1) (Data.set_chunk_SHIFT N d))) pl in
    let pl := plotDataChunkAlloc pl dN lN in
    let pl :=
      upd_data dN (fun d =>
        Data.set_sub (replicate (Z.to_nat PLOT_SUBTRACT) SUBTRACT_FREE)
          (Data.set_sub_N 0 (Data.set_id_N 0 (Data.set_tail_N 0 (Data.set_head_N 0
            (Data.set_cache_ID 0 d)))))) pl in
    let (ok, pl) := malloc pl in
    if ok then
      upd_data dN
        (Data.set_map (Some (replicate (Z.to_nat (cN + PLOT_SUBTRACT + 1)) (-1)))) pl
    else ERROR "No memory allocated for %i map" pl.

(** ** Row access *)

(** A row pointer: the buffer it points into (a chunk of the dataset's own,
    or the buffer of a cache node) and the offset of the row in that buffer,
    [(column_N + PLOT_SUBTRACT) * jN]. *)
Inductive buf_ptr :=
| InChunk (kN : Z)
| InCache (xN : Z).

Definition rowptr : Type := buf_ptr * Z.

(** The pointer value [raw[kN]]; [None] is the null pointer. *)
Definition raw_ptr (d : Data.t) (kN : Z) : option buf_ptr :=
  match aget (Data.raw d) kN with
  | NULL => None
  | Own _ => Some (InChunk kN)
  | Cached xN => Some (InCache xN)
  end.

Definition buf_load (d : Data.t) (p : buf_ptr) : list fval_t :=
  match p with
  | InChunk kN =>
    match aget (Data.raw d) kN with
    | Own buf => buf
    | _ => []
    end
  | InCache xN => default [] (Cache.raw (aget (Data.cache d) xN))
  end.

Definition buf_store (d : Data.t) (p : buf_ptr) (i : Z) (v : fval_t) : Data.t :=
  match p with
  | InChunk kN =>
    match aget (Data.raw d) kN with
    | Own buf => Data.set_raw (aset (Data.raw d) kN (Own (aset buf i v))) d
    | _ => d
    end
  | InCache xN =>
    Data.set_cache
      (aupd (Data.cache d) xN
         (fun c => Cache.set_raw (option_map (fun buf => aset buf i v) (Cache.raw c)) c)) d
  end.

(** [row[c]] *)
Definition row_get (pl : plot_t) (dN : Z) (row : rowptr) (c : Z) : fval_t :=
  aget (buf_load (aget (data pl) dN) (fst row)) (snd row + c).

(** [row[c] = v] *)
Definition row_set (pl : plot_t) (dN : Z) (row : rowptr) (c : Z) (v : fval_t) : plot_t :=
  upd_data dN (fun d => buf_store d (fst row) (snd row + c) v) pl.

(** [(cN < 0) ? id_N : row[cN]] *)
Definition row_val (pl : plot_t) (dN : Z) (row : rowptr) (id_N cN : Z) : fval_t :=
  if decide (cN < 0) then fval_of_int id_N else row_get pl dN row cN.

Definition plotDataGet (pl : plot_t) (dN rN : Z) : plot_t * option rowptr * Z :=
  let d := aget (data pl) dN in
  if decide (rN <> Data.tail_N d) then
    let kN := Z.shiftr rN (Data.chunk_SHIFT d) in
    let jN := Z.land rN (Data.chunk_MASK d) in
    let pl := if decide (lz4_compress pl <> 0) then plotDataChunkFetch pl dN kN else pl in
    let d := aget (data pl) dN in
    match raw_ptr d kN with
    | None => (pl, None, rN)
    | Some p =>
      let lN := Data.length_N d in
      (pl, Some (p, (Data.column_N d + PLOT_SUBTRACT) * jN),
       if decide (rN < lN - 1) then rN + 1 else 0)
    end
  else (pl, None, rN).

Definition plotDataWrite (pl : plot_t) (dN rN : Z) : plot_t * option rowptr * Z :=
  let d := aget (data pl) dN in
  if decide (rN <> Data.tail_N d) then
    let kN := Z.shiftr rN (Data.chunk_SHIFT d) in
    let jN := Z.land rN (Data.chunk_MASK d) in
    let pl := if decide (lz4_compress pl <> 0) then plotDataChunkWrite pl dN kN else pl in
    let pl :=
      if decide (rcache_wipe_data_N pl <> dN \/ rcache_wipe_chunk_N pl <> kN) then
        set_rcache_wipe_chunk_N kN
          (set_rcache_wipe_data_N dN (plotDataRangeCacheWipe pl dN kN))
      else pl in
    let d := aget (data pl) dN in
    match raw_ptr d kN with
    | None => (pl, None, rN)
    | Some p =>
      let lN := Data.length_N d in
      (pl, Some (p, (Data.column_N d + PLOT_SUBTRACT) * jN),
       if decide (rN < lN - 1) then rN + 1 else 0)
    end
  else (pl, None, rN).

(** The sums and differences of plotDataSkip are those of C [int]s; they
    are taken in [Z] here, which is the same as long as they stay within
    the range of [int], as they do for the skips plotDataChunkSkip asks
    for. *)
Definition plotDataSkip (pl : plot_t) (dN rN id_N sk_N : Z) : Z * Z :=
  let d := aget (data pl) dN in
  let lN := Data.length_N d in
  let N := rN - Data.head_N d in
  let N := if decide (N < 0) then N + lN else N in
  let tN := Data.tail_N d - Data.head_N d in
  let tN := if decide (tN < 0) then tN + lN else tN in
  let sk_N := if decide (N + sk_N < 0) then - N else sk_N in
  let sk_N := if decide (N + sk_N > tN) then tN - N else sk_N in
  let N := N + sk_N in
  let N := Data.head_N d + N in
  let N := if decide (N > lN - 1) then N - lN else N in
  (N, id_N + sk_N).

Definition plotDataChunkN (pl : plot_t) (dN rN : Z) : Z :=
  Z.shiftr rN (Data.chunk_SHIFT (aget (data pl) dN)).

Definition plotDataChunkSkip (pl : plot_t) (dN rN id_N : Z) : Z * Z :=
  let d := aget (data pl) dN in
  let skip_N := 2 ^ Data.chunk_SHIFT d - Z.land rN (Data.chunk_MASK d) in
  let wrap_N := Data.length_N d - rN in
  let skip_N := if decide (wrap_N < skip_N) then wrap_N else skip_N in
  plotDataSkip pl dN rN id_N skip_N.

Definition plotDataSpaceLeft (pl : plot_t) (dN : Z) : Z :=
  let d := aget (data pl) dN in
  let N := Data.tail_N d - Data.head_N d in
  let N := if decide (N < 0) then N + Data.length_N d else N in
  Data.length_N d - N.

(** ** plotDataInsert *)

(** [memcpy(place, row, cN * sizeof(fval_t))] *)
Definition row_copy (pl : plot_t) (dN : Z) (place : rowptr) (row : list fval_t) (cN : Z)
  : plot_t :=
  for_range 0 cN (fun c pl => row_set pl dN place c (aget row c)) pl.

Definition plotDataInsert (pl : plot_t) (dN : Z) (row : list fval_t) : plot_t :=
  let d := aget (data pl) dN in
  let cN := Data.column_N d in
  let lN := Data.length_N d in
  let hN := Data.head_N d in
  let tN := Data.tail_N d in
  let kN := Z.shiftr tN (Data.chunk_SHIFT d) in
  let jN := Z.land tN (Data.chunk_MASK d) in
  let pl := if decide (lz4_compress pl <> 0) then plotDataChunkWrite pl dN kN else pl in
  let pl :=
    if decide (rcache_wipe_data_N pl <> dN \/ rcache_wipe_chunk_N pl <> kN) then
      set_rcache_wipe_chunk_N kN
        (set_rcache_wipe_data_N dN (plotDataRangeCacheWipe pl dN kN))
    else pl in
  match raw_ptr (aget (data pl) dN) kN with
  | None => pl
  | Some p =>
    let place : rowptr := (p, (cN + PLOT_SUBTRACT) * jN) in
    let pl := row_copy pl dN place row cN in
    let tN := if decide (tN < lN - 1) then tN + 1 else 0 in
    let pl :=
      if decide (hN = tN) then
        let pl := upd_data dN (fun d => Data.set_id_N (Data.id_N d + 1) d) pl in
        let hN := if decide (hN < lN - 1) then hN + 1 else 0 in
        let pl := upd_data dN (Data.set_head_N hN) pl in
        let sN := Data.sub_N (aget (data pl) dN) in
        upd_data dN (Data.set_sub_N (if decide (sN = tN) then hN else sN)) pl
      else pl in
    upd_data dN (Data.set_tail_N tN) pl
  end.

(** ** plotDataRangeCacheFetch *)

(** The locals of plotDataRangeCacheFetch that live across iterations. *)
Record fetch_t := {
  f_rN : Z;
  f_id_N : Z;
  f_fmin : fval_t;
  f_fmax : fval_t;
  f_started : Z;
  f_finite : Z;
  f_ymin : fval_t;
  f_ymax : fval_t;
}.

(** The inner [do ... while (1)] over the rows of chunk [kN]. *)
Fixpoint plotDataRangeCacheFetch_rows (fuel : nat) (pl : plot_t) (dN cN kN : Z)
  (st : fetch_t) : option (plot_t * fetch_t) :=
  match fuel with
  | O => None
  | S fuel =>
    if decide (kN <> plotDataChunkN pl dN (f_rN st)) then Some (pl, st)
    else
      let '(pl, row, rN) := plotDataGet pl dN (f_rN st) in
      match row with
      | None => Some (pl, st)
      | Some row =>
        let fval := row_val pl dN row (f_id_N st) cN in
        let '(finite, ymin, ymax) :=
          if fp_isfinite fval then
            if decide (f_finite st <> 0) then
              (f_finite st,
               if (fval <? f_ymin st)%F then fval else f_ymin st,
               if (fval >? f_ymax st)%F then fval else f_ymax st)
            else (1, fval, fval)
          else (f_finite st, f_ymin st, f_ymax st) in
        plotDataRangeCacheFetch_rows fuel pl dN cN kN
          {| f_rN := rN; f_id_N := f_id_N st + 1;
             f_fmin := f_fmin st; f_fmax := f_fmax st; f_started := f_started st;
             f_finite := finite; f_ymin := ymin; f_ymax := ymax |}
      end
  end.

(** The outer [do ... while (1)] over the chunks from [head_N] to [tail_N]. *)
Fixpoint plotDataRangeCacheFetch_chunks (fuel : nat) (pl : plot_t) (dN cN xN : Z)
  (st : fetch_t) : option (plot_t * fetch_t) :=
  match fuel with
  | O => None
  | S fuel' =>
    let kN := plotDataChunkN pl dN (f_rN st) in
    let ch := aget (RCache.chunk (aget (rcache pl) xN)) kN in
    let '(job, st) :=
      if decide (RChunk.computed ch <> 0) then
        if decide (kN = plotDataChunkN pl dN (Data.tail_N (aget (data pl) dN))) then
          (1, {| f_rN := f_rN st; f_id_N := f_id_N st;
                 f_fmin := f_fmin st; f_fmax := f_fmax st; f_started := f_started st;
                 f_finite := RChunk.finite ch;
                 f_ymin := RChunk.fmin ch; f_ymax := RChunk.fmax ch |})
        else (0, st)
      else
        (1, {| f_rN := f_rN st; f_id_N := f_id_N st;
               f_fmin := f_fmin st; f_fmax := f_fmax st; f_started := f_started st;
               f_finite := 0; f_ymin := f_ymin st; f_ymax := f_ymax st |}) in
    r ← (if decide (job <> 0) then
           r ← plotDataRangeCacheFetch_rows fuel pl dN cN kN st;
           let '(pl, st) := r in
           let pl :=
             upd_rcache xN (fun rc =>
               RCache.set_chunk
                 (aupd (RCache.chunk rc) kN
                    (fun ch => RChunk.set_finite (f_finite st) (RChunk.set_computed 1 ch)))
                 rc) pl in
           let pl :=
             if decide (f_finite st <> 0) then
               upd_rcache xN (fun rc =>
                 RCache.set_chunk
                   (aupd (RCache.chunk rc) kN
                      (fun ch => RChunk.set_fmax (f_ymax st) (RChunk.set_fmin (f_ymin st) ch)))
                   rc) pl
             else pl in
           Some (pl, st)
         else
           let '(rN, id_N) := plotDataChunkSkip pl dN (f_rN st) (f_id_N st) in
           Some (pl, {| f_rN := rN; f_id_N := id_N;
                        f_fmin := f_fmin st; f_fmax := f_fmax st;
                        f_started := f_started st; f_finite := f_finite st;
                        f_ymin := f_ymin st; f_ymax := f_ymax st |}));
    let '(pl, st) := r in
    let ch := aget (RCache.chunk (aget (rcache pl) xN)) kN in
    let st :=
      if decide (RChunk.finite ch <> 0) then
        if decide (f_started st <> 0) then
          {| f_rN := f_rN st; f_id_N := f_id_N st;
             f_fmin := if (RChunk.fmin ch <? f_fmin st)%F then RChunk.fmin ch else f_fmin st;
             f_fmax := if (RChunk.fmax ch >? f_fmax st)%F then RChunk.fmax ch else f_fmax st;
             f_started := f_started st; f_finite := f_finite st;
             f_ymin := f_ymin st; f_ymax := f_ymax st |}
        else
          {| f_rN := f_rN st; f_id_N := f_id_N st;
             f_fmin := RChunk.fmin ch; f_fmax := RChunk.fmax ch;
             f_started := 1; f_finite := f_finite st;
             f_ymin := f_ymin st; f_ymax := f_ymax st |}
      else st in
    if decide (f_rN st = Data.tail_N (aget (data pl) dN)) then Some (pl, st)
    else plotDataRangeCacheFetch_chunks fuel' pl dN cN xN st
  end.

Definition plotDataRangeCacheFetch (fuel : nat) (pl : plot_t) (dN cN : Z)
  : option (Z * plot_t) :=
  let xN := plotDataRangeCacheGetNode pl dN cN in
  if decide (xN >= 0 /\ RCache.cached (aget (rcache pl) xN) <> 0) then Some (xN, pl)
  else
    let '(xN, pl) :=
      if decide (xN >= 0) then (xN, pl)
      else
        let xN := rcache_ID pl in
        let pl :=
          set_rcache_ID
            (if decide (rcache_ID pl < PLOT_RCACHE_SIZE - 1) then rcache_ID pl + 1 else 0)
            pl in
        (xN,
         for_range 0 PLOT_CHUNK_MAX
           (fun N pl =>
              upd_rcache xN (fun rc =>
                RCache.set_chunk (aupd (RCache.chunk rc) N (RChunk.set_computed 0)) rc) pl)
           pl) in
    let d := aget (data pl) dN in
    r ← plotDataRangeCacheFetch_chunks fuel pl dN cN xN
          {| f_rN := Data.head_N d; f_id_N := Data.id_N d;
             f_fmin := fval_of_int 0; f_fmax := fval_of_int 0; f_started := 0;
             f_finite := 0; f_ymin := FP_NAN; f_ymax := FP_NAN |};
    let '(pl, st) := r in
    let pl :=
      upd_rcache xN (fun rc =>
        RCache.set_fmax (f_fmax st)
          (RCache.set_fmin (f_fmin st)
             (RCache.set_cached 1
                (RCache.set_column_N cN (RCache.set_data_N dN (RCache.set_busy 1 rc)))))) pl in
    Some (xN, set_rcache_wipe_chunk_N (-1) (set_rcache_wipe_data_N (-1) pl)).

(** ** Derived columns: plotDataResample and plotDataSubtract *)

(** [(int) x] and [(unsigned long) x] of a finite value truncate towards
    zero; C leaves the conversion of other values undefined, the model yields
    zero for them. *)
Definition fval_trunc (x : double) : Z :=
  match x with
  | Some q => Z.quot (Qnum q) (Zpos (Qden q))
  | None => 0
  end.

(** The locals of plotDataResample read from the source dataset. *)
Record resample_t := {
  r_rN : Z;
  r_id_N : Z;
  r_X : fval_t;
  r_Y : fval_t;
  r_X_prev : fval_t;
  r_Y_prev : fval_t;
}.

(** First loop: skip to the first source row whose [X] is a number. *)
Fixpoint plotDataResample_seek (fuel : nat) (pl : plot_t) (r_dN r_cN_X r_cN_Y : Z)
  (st : resample_t) : option (plot_t * resample_t) :=
  match fuel with
  | O => None
  | S fuel =>
    let '(pl, r_row, rN) := plotDataGet pl r_dN (r_rN st) in
    match r_row with
    | None => Some (pl, st)
    | Some r_row =>
      let X := row_val pl r_dN r_row (r_id_N st) r_cN_X in
      let Y := row_val pl r_dN r_row (r_id_N st) r_cN_Y in
      let st := {| r_rN := rN; r_id_N := r_id_N st + 1; r_X := X; r_Y := Y;
                   r_X_prev := r_X_prev st; r_Y_prev := r_Y_prev st |} in
      if fp_isfinite X then Some (pl, st)
      else plotDataResample_seek fuel pl r_dN r_cN_X r_cN_Y st
    end
  end.

(** Innermost loop: advance the source until its [X] reaches [X]. *)
Fixpoint plotDataResample_advance (fuel : nat) (pl : plot_t) (r_dN r_cN_X r_cN_Y : Z)
  (X : fval_t) (st : resample_t) : option (plot_t * resample_t) :=
  match fuel with
  | O => None
  | S fuel =>
    if (r_X st >=? X)%F then Some (pl, st)
    else
      let '(pl, r_row, rN) := plotDataGet pl r_dN (r_rN st) in
      match r_row with
      | None => Some (pl, st)
      | Some r_row =>
        let '(Xp, Yp) :=
          if fp_isfinite (r_X st) then (r_X st, r_Y st)
          else (r_X_prev st, r_Y_prev st) in
        plotDataResample_advance fuel pl r_dN r_cN_X r_cN_Y X
          {| r_rN := rN; r_id_N := r_id_N st + 1;
             r_X := row_val pl r_dN r_row (r_id_N st) r_cN_X;
             r_Y := row_val pl r_dN r_row (r_id_N st) r_cN_Y;
             r_X_prev := Xp; r_Y_prev := Yp |}
      end
  end.

Fixpoint plotDataResample_rows (fuel : nat) (pl : plot_t)
  (dN cN_X cN_Y r_dN r_cN_X r_cN_Y rN id_N : Z) (st : resample_t) : option plot_t :=
  match fuel with
  | O => None
  | S fuel' =>
    let '(pl, row, rN) := plotDataWrite pl dN rN in
    match row with
    | None => Some pl
    | Some row =>
      let X := row_val pl dN row id_N cN_X in
      r ← (if fp_isfinite X then
             r ← plotDataResample_advance fuel pl r_dN r_cN_X r_cN_Y X st;
             let '(pl, st) := r in
             let Y :=
               if (r_X st >=? X)%F then
                 if (r_X_prev st <=? X)%F then
                   let Q := ((X - r_X_prev st) / (r_X st - r_X_prev st))%F in
                   (r_Y_prev st + (r_Y st - r_Y_prev st) * Q)%F
                 else r_Y_prev st
               else r_Y st in
             Some (pl, st, Y)
           else Some (pl, st, FP_NAN));
      let '(pl, st, Y) := r in
      let pl := row_set pl dN row cN_Y Y in
      plotDataResample_rows fuel' pl dN cN_X cN_Y r_dN r_cN_X r_cN_Y rN (id_N + 1) st
    end
  end.

Definition plotDataResample (fuel : nat) (pl : plot_t)
  (dN cN_X cN_Y r_dN r_cN_X r_cN_Y : Z) : option plot_t :=
  let rN := Data.head_N (aget (data pl) dN) in
  let id_N := Data.id_N (aget (data pl) dN) in
  r ← plotDataResample_seek fuel pl r_dN r_cN_X r_cN_Y
        {| r_rN := Data.head_N (aget (data pl) r_dN);
           r_id_N := Data.id_N (aget (data pl) r_dN);
           r_X := FP_NAN; r_Y := FP_NAN; r_X_prev := FP_NAN; r_Y_prev := FP_NAN |};
  let '(pl, st) := r in
  if decide (r_id_N st <> Data.id_N (aget (data pl) r_dN)) then
    plotDataResample_rows fuel pl dN cN_X cN_Y r_dN r_cN_X r_cN_Y rN id_N
      {| r_rN := r_rN st; r_id_N := r_id_N st; r_X := r_X st; r_Y := r_Y st;
         r_X_prev := r_X st; r_Y_prev := r_Y st |}
  else Some (ERROR "No data to resample in dataset %i column %i" pl).

(** The loop every other operation of plotDataSubtract runs:
    [do { row = plotDataWrite(pl, dN, &rN); if (row == NULL) break;
          step; id_N++;  } while (1)], with the operation's locals in [st]. *)
Fixpoint plotDataSubtract_rows {S} (fuel : nat)
  (step : plot_t -> rowptr -> Z -> S -> plot_t * S)
  (pl : plot_t) (dN rN id_N : Z) (st : S) : option (plot_t * S) :=
  match fuel with
  | O => None
  | S fuel =>
    let '(pl, row, rN) := plotDataWrite pl dN rN in
    match row with
    | None => Some (pl, st)
    | Some row =>
      let '(pl, st) := step pl row id_N st in
      plotDataSubtract_rows fuel step pl dN rN (id_N + 1) st
    end
  end.

Definition set_sub (dN sN : Z) (s : subtract_t) (pl : plot_t) : plot_t :=
  upd_data dN (fun d => Data.set_sub (aset (Data.sub d) sN s) d) pl.

(** The row of SUBTRACT_TIME_UNWRAP; the locals are [offset], [X_2], [X_3]. *)
Definition time_unwrap_step (dN cN cN_1 : Z) (pl : plot_t) (row : rowptr) (id_N : Z)
  (st : double * fval_t * fval_t) : plot_t * (double * fval_t * fval_t) :=
  let '(offset, X_2, X_3) := st in
  let X_1 := row_val pl dN row id_N cN_1 in
  let offset :=
    if (X_1 <? X_2)%F then
      let offset := (offset + (X_2 - X_1))%F in
      if (X_3 <? X_2)%F then (offset + (X_2 - X_3))%F else offset
    else offset in
  let pl := row_set pl dN row cN (X_1 + offset)%F in
  if fp_isfinite X_1 then (pl, (offset, X_1, X_2)) else (pl, (offset, X_2, X_3)).

Definition binary_op (busy : binary_t) (X_1 X_2 : fval_t) : fval_t :=
  match busy with
  | SUBTRACT_BINARY_SUBTRACTION => (X_1 - X_2)%F
  | SUBTRACT_BINARY_ADDITION => (X_1 + X_2)%F
  | SUBTRACT_BINARY_MULTIPLICATION => (X_1 * X_2)%F
  | SUBTRACT_BINARY_HYPOTENUSE => sqrt (X_1 * X_1 + X_2 * X_2)%F
  end.

(** [for (mask_1 = 0UL; temp_1 >= shift_1; --temp_1) mask_1 |= (1UL << temp_1)] *)
Definition bitmask (shift_1 temp_1 : Z) : Z :=
  foldl (fun m t => Z.lor m (Z.shiftl 1 t mod 2 ^ 64)) 0
    (seqZ shift_1 (temp_1 - shift_1 + 1)).

(** The row of the four filters; the local is [X_2] (the state), which
    SUBTRACT_FILTER_BITMASK leaves alone. *)
Definition filter_step (busy : filter_t) (arg_1 arg_2 : double) (dN cN cN_1 : Z)
  (pl : plot_t) (row : rowptr) (id_N : Z) (X_2 : fval_t) : plot_t * fval_t :=
  let X_1 := row_val pl dN row id_N cN_1 in
  match busy with
  | SUBTRACT_FILTER_DIFFERENCE =>
    (row_set pl dN row cN (X_1 - X_2)%F, X_1)
  | SUBTRACT_FILTER_CUMULATIVE =>
    let X_2 := if fp_isfinite X_1 then (X_2 + X_1)%F else X_2 in
    (row_set pl dN row cN X_2, X_2)
  | SUBTRACT_FILTER_BITMASK =>
    let shift_1 := to_int (fval_trunc arg_1) in
    let mask_1 := bitmask shift_1 (to_int (fval_trunc arg_2)) in
    let temp_1 := to_int (Z.shiftr (Z.land (fval_trunc X_1 mod 2 ^ 64) mask_1) shift_1) in
    (row_set pl dN row cN (fval_of_int temp_1), X_2)
  | SUBTRACT_FILTER_LOW_PASS =>
    let X_2 :=
      if fp_isfinite X_1 then
        if fp_isfinite X_2 then (X_2 + (X_1 - X_2) * arg_1)%F else X_1
      else X_2 in
    (row_set pl dN row cN X_2, X_2)
  end.

(** [X_2 = coefs[poly_N]; for (N = poly_N - 1; N >= 0; --N) X_2 = X_2 * X_1 + coefs[N]] *)
Definition polyfit_eval (coefs : list double) (poly_N : Z) (X_1 : fval_t) : fval_t :=
  foldl (fun X_2 N => (X_2 * X_1 + aget coefs N)%F) (aget coefs poly_N)
    (reverse (seqZ 0 poly_N)).

(** One turn of the [do ... while (sN < sE)] loop: slot [sN] over the rows
    from [rS] on. *)
Definition plotDataSubtract_slot (fuel : nat) (pl : plot_t) (dN sN rS : Z)
  : option plot_t :=
  let d := aget (data pl) dN in
  let cN := sN + Data.column_N d in
  let rN := rS in
  let id_S := rS - Data.head_N d in
  let id_S := if decide (id_S < 0) then id_S + Data.length_N d else id_S in
  let id_N := Data.id_N d + id_S in
  let at_head := bool_decide (rS = Data.head_N d) in
  match aget (Data.sub d) sN with
  | SUBTRACT_FREE => Some pl
  | SUBTRACT_TIME_UNWRAP cN_1 unwrap prev prev2 =>
    let '(unwrap, prev, prev2) :=
      if at_head then (fval_of_int 0, FP_NAN, FP_NAN) else (unwrap, prev, prev2) in
    let pl := set_sub dN sN (SUBTRACT_TIME_UNWRAP cN_1 unwrap prev prev2) pl in
    r ← plotDataSubtract_rows fuel (time_unwrap_step dN cN cN_1) pl dN rN id_N
          (unwrap, prev, prev2);
    let '(pl, (offset, X_2, X_3)) := r in
    Some (set_sub dN sN (SUBTRACT_TIME_UNWRAP cN_1 offset X_2 X_3) pl)
  | SUBTRACT_SCALE cN_1 scale offset =>
    r ← plotDataSubtract_rows fuel
          (fun pl row id_N (st : unit) =>
             (row_set pl dN row cN (row_val pl dN row id_N cN_1 * scale + offset)%F, st))
          pl dN rN id_N tt;
    Some (fst r)
  | SUBTRACT_BINARY busy cN_1 cN_2 =>
    r ← plotDataSubtract_rows fuel
          (fun pl row id_N (st : unit) =>
             (row_set pl dN row cN
                (binary_op busy (row_val pl dN row id_N cN_1) (row_val pl dN row id_N cN_2)),
              st))
          pl dN rN id_N tt;
    Some (fst r)
  | SUBTRACT_FILTER busy cN_1 arg_1 arg_2 state =>
    let state :=
      if at_head then
        match busy with
        | SUBTRACT_FILTER_DIFFERENCE | SUBTRACT_FILTER_LOW_PASS => FP_NAN
        | SUBTRACT_FILTER_CUMULATIVE => fval_of_int 0
        | SUBTRACT_FILTER_BITMASK => state
        end
      else state in
    let pl := set_sub dN sN (SUBTRACT_FILTER busy cN_1 arg_1 arg_2 state) pl in
    r ← plotDataSubtract_rows fuel (filter_step busy arg_1 arg_2 dN cN cN_1)
          pl dN rN id_N state;
    let '(pl, X_2) := r in
    Some (set_sub dN sN (SUBTRACT_FILTER busy cN_1 arg_1 arg_2 X_2) pl)
  | SUBTRACT_RESAMPLE cN_1 cN_2 cN_3 dN_1 =>
    if at_head then plotDataResample fuel pl dN cN_1 cN dN_1 cN_2 cN_3
    else Some pl
  | SUBTRACT_POLYFIT cN_1 _ poly_N coefs =>
    r ← plotDataSubtract_rows fuel
          (fun pl row id_N (st : unit) =>
             (row_set pl dN row cN (polyfit_eval coefs poly_N (row_val pl dN row id_N cN_1)),
              st))
          pl dN rN id_N tt;
    Some (fst r)
  end.

(** [do { ...; sN++; } while (sN < sE)]: the body runs for [sN] and then for
    the [cnt] slots that follow it below [sE]. *)
Fixpoint plotDataSubtract_slots (fuel : nat) (cnt : nat) (pl : plot_t) (dN sN rS : Z)
  : option plot_t :=
  pl ← plotDataSubtract_slot fuel pl dN sN rS;
  match cnt with
  | O => Some pl
  | S cnt => plotDataSubtract_slots fuel cnt pl dN (sN + 1) rS
  end.

Definition plotDataSubtract (fuel : nat) (pl : plot_t) (dN sN : Z) : option plot_t :=
  if decide (dN < 0 \/ dN >= PLOT_DATASET_MAX) then
    Some (ERROR "Dataset number is out of range" pl)
  else if decide (sN < -1 \/ sN >= PLOT_SUBTRACT) then
    Some (ERROR "Subtract number %i is out of range" pl)
  else if decide (sN < 0) then
    let rS := Data.sub_N (aget (data pl) dN) in
    let pl := upd_data dN (fun d => Data.set_sub_N (Data.tail_N d) d) pl in
    plotDataSubtract_slots fuel (Z.to_nat (PLOT_SUBTRACT - 1)) pl dN 0 rS
  else
    plotDataSubtract_slots fuel 0 pl dN sN (Data.head_N (aget (data pl) dN)).

(** [for (N = from; N < to; ++N)] around a body that may run out of fuel. *)
Definition for_range_opt {S} (from to : Z) (body : Z -> S -> option S) (s : S)
  : option S :=
  foldl (fun s N => s ← s; body N s) (Some s) (seqZ from (to - from)).

(** ** Axes *)

Definition plotAxisLabel (pl : plot_t) (aN : Z) (label : string) : plot_t :=
  if decide (aN < 0 \/ aN >= PLOT_AXES_MAX) then
    ERROR "Axis number is out of range" pl
  else
    match label with
    | EmptyString => pl
    | _ => upd_axis aN (Axis.set_label label) pl
    end.

Definition plotAxisScaleManual (pl : plot_t) (aN : Z) (min max : double) : plot_t :=
  if decide (aN < 0 \/ aN >= PLOT_AXES_MAX) then
    ERROR "Axis number is out of range" pl
  else if decide (Axis.busy (aget (axis pl) aN) = AXIS_FREE) then pl
  else if decide (Axis.slave (aget (axis pl) aN) <> 0) then pl
  else
    let pl := upd_axis aN (Axis.set_scale (fval_of_int 1 / (max - min))%F) pl in
    upd_axis aN (Axis.set_offset (fneg min / (max - min))%F) pl.

Definition plotAxisScaleZoom (pl : plot_t) (aN origin : Z) (zoom : double) : plot_t :=
  if decide (aN < 0 \/ aN >= PLOT_AXES_MAX) then
    ERROR "Axis number is out of range" pl
  else if decide (Axis.slave (aget (axis pl) aN) <> 0) then pl
  else
    let vp := viewport pl in
    let pl :=
      match Axis.busy (aget (axis pl) aN) with
      | AXIS_BUSY_X =>
        let pl :=
          upd_axis aN (fun a =>
            Axis.set_offset
              (Axis.offset a * zoom
               + fval_of_int (min_x vp - origin) / fval_of_int (max_x vp - min_x vp)
                 * (zoom - fval_of_int 1))%F a) pl in
        upd_axis aN (fun a => Axis.set_scale (Axis.scale a * zoom)%F a) pl
      | AXIS_BUSY_Y =>
        let pl :=
          upd_axis aN (fun a =>
            Axis.set_offset
              (Axis.offset a * zoom
               + fval_of_int (max_y vp - origin) / fval_of_int (min_y vp - max_y vp)
                 * (zoom - fval_of_int 1))%F a) pl in
        upd_axis aN (fun a => Axis.set_scale (Axis.scale a * zoom)%F a) pl
      | AXIS_FREE => pl
      end in
    upd_axis aN (Axis.set_lock_scale 0) pl.

Definition plotAxisScaleMove (pl : plot_t) (aN move : Z) : plot_t :=
  if decide (aN < 0 \/ aN >= PLOT_AXES_MAX) then
    ERROR "Axis number is out of range" pl
  else if decide (Axis.slave (aget (axis pl) aN) <> 0) then pl
  else
    let vp := viewport pl in
    let pl :=
      match Axis.busy (aget (axis pl) aN) with
      | AXIS_BUSY_X =>
        upd_axis aN (fun a =>
          Axis.set_offset
            (Axis.offset a + fval_of_int move / fval_of_int (max_x vp - min_x vp))%F a) pl
      | AXIS_BUSY_Y =>
        upd_axis aN (fun a =>
          Axis.set_offset
            (Axis.offset a + fval_of_int move / fval_of_int (min_y vp - max_y vp))%F a) pl
      | AXIS_FREE => pl
      end in
    upd_axis aN (Axis.set_lock_scale 0) pl.

Definition plotAxisConv (pl : plot_t) (aN : Z) (fval : double) : double :=
  let a := aget (axis pl) aN in
  let scale := Axis.scale a in
  let offset := Axis.offset a in
  let '(scale, offset) :=
    if decide (Axis.slave a <> 0) then
      let b := aget (axis pl) (Axis.slave_N a) in
      ((scale * Axis.scale b)%F, (offset * Axis.scale b + Axis.offset b)%F)
    else (scale, offset) in
  let vp := viewport pl in
  let '(scale, offset) :=
    match Axis.busy a with
    | AXIS_BUSY_X =>
      let temp := fval_of_int (max_x vp - min_x vp) in
      ((scale * temp)%F, (offset * temp + fval_of_int (min_x vp))%F)
    | AXIS_BUSY_Y =>
      let temp := fval_of_int (min_y vp - max_y vp) in
      ((scale * temp)%F, (offset * temp + fval_of_int (max_y vp))%F)
    | AXIS_FREE => (scale, offset)
    end in
  (fval * scale + offset)%F.

Definition plotAxisConvInv (pl : plot_t) (aN : Z) (px : double) : double :=
  let a := aget (axis pl) aN in
  let scale := Axis.scale a in
  let offset := Axis.offset a in
  let '(scale, offset) :=
    if decide (Axis.slave a <> 0) then
      let b := aget (axis pl) (Axis.slave_N a) in
      ((scale * Axis.scale b)%F, (offset * Axis.scale b + Axis.offset b)%F)
    else (scale, offset) in
  let vp := viewport pl in
  let '(scale, offset) :=
    match Axis.busy a with
    | AXIS_BUSY_X =>
      let temp := fval_of_int (max_x vp - min_x vp) in
      ((scale * temp)%F, (offset * temp + fval_of_int (min_x vp))%F)
    | AXIS_BUSY_Y =>
      let temp := fval_of_int (min_y vp - max_y vp) in
      ((scale * temp)%F, (offset * temp + fval_of_int (max_y vp))%F)
    | AXIS_FREE => (scale, offset)
    end in
  ((px - offset) / scale)%F.

Definition plotAxisSlave (pl : plot_t) (aN bN : Z) (scale offset : double)
  (action : axis_slave_t) : plot_t :=
  if decide (aN < 0 \/ aN >= PLOT_AXES_MAX) then
    ERROR "Slave axis number is out of range" pl
  else
    let bN := if decide (action = AXIS_SLAVE_DISABLE)
              then Axis.slave_N (aget (axis pl) aN) else bN in
    if decide (bN < 0 \/ bN >= PLOT_AXES_MAX) then
      ERROR "Base axis number is out of range" pl
    else if decide (bN = aN) then
      ERROR "Axes must not be the same" pl
    else if decide (Axis.slave (aget (axis pl) bN) <> 0) then
      ERROR "Base axis must not be slave" pl
    else
      let base :=
        first_index
          (fun N =>
             let a := aget (axis pl) N in
             bool_decide (Axis.busy a <> AXIS_FREE /\ Axis.slave a <> 0
                          /\ Axis.slave_N a = aN))
          0 (Z.to_nat PLOT_AXES_MAX) in
      if decide (base >= 0) then
        ERROR "The axis is base for another slave" pl
      else
        let b := aget (axis pl) bN in
        let retarget pl :=
          let pl := set_on_X (if decide (aN = on_X pl) then bN else on_X pl) pl in
          set_on_Y (if decide (aN = on_Y pl) then bN else on_Y pl) pl in
        match action with
        | AXIS_SLAVE_ENABLE =>
          if decide (Axis.slave (aget (axis pl) aN) = 0) then
            retarget
              (upd_axis aN (fun a =>
                 Axis.set_offset offset
                   (Axis.set_scale scale (Axis.set_slave_N bN (Axis.set_slave 1 a)))) pl)
          else pl
        | AXIS_SLAVE_HOLD_AS_IS =>
          if decide (Axis.slave (aget (axis pl) aN) = 0) then
            retarget
              (upd_axis aN (fun a =>
                 Axis.set_offset ((Axis.offset a - Axis.offset b) / Axis.scale b)%F
                   (Axis.set_scale (Axis.scale a / Axis.scale b)%F
                      (Axis.set_slave_N bN (Axis.set_slave 1 a)))) pl)
          else pl
        | AXIS_SLAVE_DISABLE =>
          if decide (Axis.slave (aget (axis pl) aN) <> 0) then
            upd_axis aN (fun a =>
              Axis.set_offset (Axis.offset a * Axis.scale b + Axis.offset b)%F
                (Axis.set_scale (Axis.scale a * Axis.scale b)%F (Axis.set_slave 0 a))) pl
          else pl
        end.

(** ** Derived slots of figures *)

Definition plotGetSubtractTimeUnwrapByMatch (pl : plot_t) (dN cN : Z) : Z :=
  first_index
    (fun sN =>
       match aget (Data.sub (aget (data pl) dN)) sN with
       | SUBTRACT_TIME_UNWRAP column_1 _ _ _ => bool_decide (column_1 = cN)
       | _ => false
       end)
    0 (Z.to_nat PLOT_SUBTRACT).

Definition plotGetSubtractScaleByMatch (pl : plot_t) (dN cN : Z) (scale offset : double)
  : Z :=
  first_index
    (fun sN =>
       match aget (Data.sub (aget (data pl) dN)) sN with
       | SUBTRACT_SCALE column_1 scale' offset' =>
         bool_decide (column_1 = cN) && feq scale' scale && feq offset' offset
       | _ => false
       end)
    0 (Z.to_nat PLOT_SUBTRACT).

Definition plotGetFreeSubtract (pl : plot_t) (dN : Z) : Z :=
  first_index
    (fun sN =>
       match aget (Data.sub (aget (data pl) dN)) sN with
       | SUBTRACT_FREE => true
       | _ => false
       end)
    0 (Z.to_nat PLOT_SUBTRACT).

(** The new slot takes [column_1]; plotDataSubtract, which starts at
    [head_N], sets the other members of [op.time] before it reads them. *)
Definition plotGetSubtractTimeUnwrap (fuel : nat) (pl : plot_t) (dN cN : Z)
  : option (Z * plot_t) :=
  if decide (dN < 0 \/ dN >= PLOT_DATASET_MAX) then
    Some (-1, ERROR "Dataset number is out of range" pl)
  else
    let sN := plotGetSubtractTimeUnwrapByMatch pl dN cN in
    if decide (sN = -1) then
      let sN := plotGetFreeSubtract pl dN in
      if decide (sN = -1) then
        Some (-1, ERROR "Unable to get free subtract" pl)
      else
        let pl := set_sub dN sN (SUBTRACT_TIME_UNWRAP cN FP_NAN FP_NAN FP_NAN) pl in
        pl ← plotDataSubtract fuel pl dN sN;
        Some (sN + Data.column_N (aget (data pl) dN), pl)
    else Some (sN + Data.column_N (aget (data pl) dN), pl).

Definition plotGetSubtractScale (fuel : nat) (pl : plot_t) (dN cN : Z)
  (scale offset : double) : option (Z * plot_t) :=
  if decide (dN < 0 \/ dN >= PLOT_DATASET_MAX) then
    Some (-1, ERROR "Dataset number is out of range" pl)
  else
    let sN := plotGetSubtractScaleByMatch pl dN cN scale offset in
    if decide (sN = -1) then
      let sN := plotGetFreeSubtract pl dN in
      if decide (sN = -1) then
        Some (-1, ERROR "Unable to get free subtract" pl)
      else
        let pl := set_sub dN sN (SUBTRACT_SCALE cN scale offset) pl in
        pl ← plotDataSubtract fuel pl dN sN;
        Some (sN + Data.column_N (aget (data pl) dN), pl)
    else Some (sN + Data.column_N (aget (data pl) dN), pl).

Definition plotAxisRemove (fuel : nat) (pl : plot_t) (aN : Z) : option plot_t :=
  if decide (aN < 0 \/ aN >= PLOT_AXES_MAX) then
    Some (ERROR "Axis number is out of range" pl)
  else if decide (aN = on_X pl \/ aN = on_Y pl) then
    Some (ERROR "Unable to remove active axis" pl)
  else
    pl ← for_range_opt 0 PLOT_FIGURE_MAX
      (fun N pl =>
         if decide (Figure.busy (aget (figure pl) N) <> 0) then
           pl ← (if decide (Figure.axis_X (aget (figure pl) N) = aN) then
                   if decide (Axis.slave (aget (axis pl) aN) <> 0) then
                     r ← plotGetSubtractScale fuel pl
                           (Figure.data_N (aget (figure pl) N))
                           (Figure.column_X (aget (figure pl) N))
                           (Axis.scale (aget (axis pl) aN))
                           (Axis.offset (aget (axis pl) aN));
                     let '(cN, pl) := r in
                     let pl := if decide (cN <> -1)
                               then upd_figure N (Figure.set_column_X cN) pl else pl in
                     Some (upd_figure N
                             (Figure.set_axis_X (Axis.slave_N (aget (axis pl) aN))) pl)
                   else Some (upd_figure N (Figure.set_axis_X (on_X pl)) pl)
                 else Some pl);
           if decide (Figure.axis_Y (aget (figure pl) N) = aN) then
             if decide (Axis.slave (aget (axis pl) aN) <> 0) then
               r ← plotGetSubtractScale fuel pl
                     (Figure.data_N (aget (figure pl) N))
                     (Figure.column_Y (aget (figure pl) N))
                     (Axis.scale (aget (axis pl) aN))
                     (Axis.offset (aget (axis pl) aN));
               let '(cN, pl) := r in
               let pl := if decide (cN <> -1)
                         then upd_figure N (Figure.set_column_Y cN) pl else pl in
               Some (upd_figure N
                       (Figure.set_axis_Y (Axis.slave_N (aget (axis pl) aN))) pl)
             else Some (upd_figure N (Figure.set_axis_Y (on_Y pl)) pl)
           else Some pl
         else Some pl)
      pl;
    let pl :=
      for_range 0 PLOT_AXES_MAX
        (fun N pl =>
           let a := aget (axis pl) N in
           if decide (Axis.busy a <> AXIS_FREE /\ Axis.slave a <> 0 /\ Axis.slave_N a = aN)
           then plotAxisSlave pl N (-1) (fval_of_int 0) (fval_of_int 0) AXIS_SLAVE_DISABLE
           else pl)
        pl in
    Some (upd_axis aN (fun a =>
            Axis.set_compact 0 (Axis.set_expen 0 (Axis.set_label EmptyString
              (Axis.set_slave 0 (Axis.set_busy AXIS_FREE a))))) pl).

(** ** Figures *)

(** [pl->data[dN].map[c]] *)
Definition map_get (d : Data.t) (c : Z) : Z :=
  match Data.map d with
  | Some m => aget m (c + 1)
  | None => -1
  end.

Definition plotFigureAdd (pl : plot_t) (fN dN nX nY aX aY : Z) (label : string)
  : plot_t :=
  if decide (fN < 0 \/ fN >= PLOT_FIGURE_MAX) then
    ERROR "Figure number is out of range" pl
  else if decide (dN < 0 \/ dN >= PLOT_DATASET_MAX) then
    ERROR "Dataset number is out of range" pl
  else if decide (Data.column_N (aget (data pl) dN) < 1) then
    ERROR "Dataset %i has no DATA" pl
  else if decide (nX < -1 \/ nX >= Data.column_N (aget (data pl) dN) + PLOT_SUBTRACT) then
    ERROR "X column number %i is out of range" pl
  else if decide (nY < -1 \/ nY >= Data.column_N (aget (data pl) dN) + PLOT_SUBTRACT) then
    ERROR "Y column number %i is out of range" pl
  else if decide (aX < 0 \/ aX >= PLOT_AXES_MAX) then
    ERROR "X axis number %i is out of range" pl
  else if decide (aY < 0 \/ aY >= PLOT_AXES_MAX) then
    ERROR "Y axis number %i is out of range" pl
  else if decide (aX = aY \/ Axis.busy (aget (axis pl) aX) = AXIS_BUSY_Y
                  \/ Axis.busy (aget (axis pl) aY) = AXIS_BUSY_X) then
    ERROR "Invalid axes mapping %i %i" pl
  else
    let pl := upd_draw fN (Draw.set_sketch SKETCH_FINISHED) pl in
    let pl :=
      upd_figure fN (fun f =>
        Figure.set_axis_Y aY (Figure.set_axis_X aX
          (Figure.set_column_Y nY (Figure.set_column_X nX
            (Figure.set_data_N dN (Figure.set_width (default_width pl)
              (Figure.set_drawing (default_drawing pl)
                (Figure.set_hidden 0 (Figure.set_busy 1 f))))))))) pl in
    let pl :=
      if decide (Axis.busy (aget (axis pl) aX) = AXIS_FREE) then
        upd_axis aX (fun a => Axis.set_lock_scale 1 (Axis.set_busy AXIS_BUSY_X a)) pl
      else pl in
    let pl :=
      if decide (Axis.busy (aget (axis pl) aY) = AXIS_FREE) then
        upd_axis aY (fun a => Axis.set_lock_scale 1 (Axis.set_busy AXIS_BUSY_Y a)) pl
      else pl in
    let gN := map_get (aget (data pl) dN) nX in
    let pl := if decide (gN <> -1) then plotAxisLabel pl aX (aget (group pl) gN) else pl in
    let gN := map_get (aget (data pl) dN) nY in
    let pl := if decide (gN <> -1) then plotAxisLabel pl aY (aget (group pl) gN) else pl in
    let pl := upd_figure fN (Figure.set_label label) pl in
    let pl := set_on_X (if decide (on_X pl < 0) then aX else on_X pl) pl in
    set_on_Y (if decide (on_Y pl < 0) then aY else on_Y pl) pl.

Definition plotCheckColumnLinked (pl : plot_t) (dN cN : Z) : Z :=
  let sN :=
    first_index
      (fun sN =>
         match aget (Data.sub (aget (data pl) dN)) sN with
         | SUBTRACT_SCALE column_1 _ _ => bool_decide (cN = column_1)
         | SUBTRACT_BINARY _ column_1 column_2 =>
           bool_decide (cN = column_1) || bool_decide (cN = column_2)
         | SUBTRACT_FILTER _ column_1 _ _ _ => bool_decide (cN = column_1)
         | SUBTRACT_RESAMPLE column_X _ _ _ => bool_decide (cN = column_X)
         | SUBTRACT_FREE | SUBTRACT_TIME_UNWRAP _ _ _ _ | SUBTRACT_POLYFIT _ _ _ _ => false
         end)
      0 (Z.to_nat PLOT_SUBTRACT) in
  let fN :=
    first_index
      (fun fN =>
         let f := aget (figure pl) fN in
         bool_decide (Figure.busy f <> 0)
         && (bool_decide (cN = Figure.column_X f) || bool_decide (cN = Figure.column_Y f)))
      0 (Z.to_nat PLOT_FIGURE_MAX) in
  if decide (sN >= 0 \/ fN >= 0) then 1 else 0.

Definition is_free (s : subtract_t) : bool :=
  match s with SUBTRACT_FREE => true | _ => false end.

(** One pass of the [for] loop of plotSubtractGarbage; [N] counts the slots
    the pass has freed. *)
Definition plotSubtractGarbage_pass (pl : plot_t) (dN : Z) : plot_t * Z :=
  for_range 0 PLOT_SUBTRACT
    (fun sN '(pl, N) =>
       let d := aget (data pl) dN in
       if is_free (aget (Data.sub d) sN) then (pl, N)
       else
         let cN := sN + Data.column_N d in
         if decide (plotCheckColumnLinked pl dN cN = 0)
         then (set_sub dN sN SUBTRACT_FREE pl, N + 1)
         else (pl, N))
    (pl, 0).

Fixpoint plotSubtractGarbage (fuel : nat) (pl : plot_t) (dN : Z) : option plot_t :=
  match fuel with
  | O => None
  | S fuel =>
    let '(pl, N) := plotSubtractGarbage_pass pl dN in
    if decide (N <> 0) then plotSubtractGarbage fuel pl dN else Some pl
  end.

Definition plotFigureRemove (fuel : nat) (pl : plot_t) (fN : Z) : option plot_t :=
  if decide (fN < 0 \/ fN >= PLOT_FIGURE_MAX) then
    Some (ERROR "Figure number is out of range" pl)
  else
    let shared (proj : Figure.t -> Z) :=
      first_index
        (fun N =>
           let f := aget (figure pl) N in
           bool_decide (Figure.busy f <> 0 /\ N <> fN)
           && bool_decide (proj f = proj (aget (figure pl) fN)))
        0 (Z.to_nat PLOT_FIGURE_MAX) in
    let rX := if decide (shared Figure.axis_X >= 0) then 0 else 1 in
    let rY := if decide (shared Figure.axis_Y >= 0) then 0 else 1 in
    let pl := upd_figure fN (Figure.set_busy 0) pl in
    pl ← (if decide (rX <> 0) then
            let aN := Figure.axis_X (aget (figure pl) fN) in
            let pl :=
              if decide (on_X pl = aN) then
                let N :=
                  first_index
                    (fun N =>
                       let a := aget (axis pl) N in
                       bool_decide (N <> aN /\ Axis.busy a = AXIS_BUSY_X /\ Axis.slave a = 0))
                    0 (Z.to_nat PLOT_AXES_MAX) in
                if decide (N >= 0) then set_on_X N pl else pl
              else pl in
            if decide (on_X pl <> aN) then plotAxisRemove fuel pl aN else Some pl
          else Some pl);
    pl ← (if decide (rY <> 0) then
            let aN := Figure.axis_Y (aget (figure pl) fN) in
            let pl :=
              if decide (on_Y pl = aN) then
                let N :=
                  first_index
                    (fun N =>
                       let a := aget (axis pl) N in
                       bool_decide (N <> aN /\ Axis.busy a = AXIS_BUSY_Y /\ Axis.slave a = 0))
                    0 (Z.to_nat PLOT_AXES_MAX) in
                if decide (N >= 0) then set_on_Y N pl else pl
              else pl in
            if decide (on_Y pl <> aN) then plotAxisRemove fuel pl aN else Some pl
          else Some pl);
    plotSubtractGarbage fuel pl (Figure.data_N (aget (figure pl) fN)).

Definition plotFigureSubtractTimeUnwrap (fuel : nat) (pl : plot_t) (fN_1 : Z)
  : option plot_t :=
  if decide (fN_1 < 0 \/ fN_1 >= PLOT_FIGURE_MAX) then
    Some (ERROR "Figure number is out of range" pl)
  else
    let f := aget (figure pl) fN_1 in
    r ← plotGetSubtractTimeUnwrap fuel pl (Figure.data_N f) (Figure.column_X f);
    let '(cN, pl) := r in
    Some (if decide (cN <> -1) then upd_figure fN_1 (Figure.set_column_X cN) pl else pl).

Definition plotFigureSubtractScale (fuel : nat) (pl : plot_t) (fN_1 : Z)
  (aBUSY : axis_busy_t) (scale offset : double) : option plot_t :=
  if decide (fN_1 < 0 \/ fN_1 >= PLOT_FIGURE_MAX) then
    Some (ERROR "Figure number is out of range" pl)
  else
    let f := aget (figure pl) fN_1 in
    match aBUSY with
    | AXIS_BUSY_X =>
      r ← plotGetSubtractScale fuel pl (Figure.data_N f) (Figure.column_X f) scale offset;
      let '(cN, pl) := r in
      Some (if decide (cN <> -1) then upd_figure fN_1 (Figure.set_column_X cN) pl else pl)
    | AXIS_BUSY_Y =>
      r ← plotGetSubtractScale fuel pl (Figure.data_N f) (Figure.column_Y f) scale offset;
      let '(cN, pl) := r in
      Some (if decide (cN <> -1) then upd_figure fN_1 (Figure.set_column_Y cN) pl else pl)
    | AXIS_FREE => Some pl
    end.

(** ** Sketches *)

Definition plotSketchDataChunkSetUp (pl : plot_t) (fN : Z) : plot_t :=
  let hN := Draw.list_self (aget (draw pl) fN) in
  let sk := aget (sketch pl) hN in
  let f := aget (figure pl) fN in
  if decide (hN >= 0 /\ Sketch.figure_N sk = fN /\ Sketch.drawing sk = Figure.drawing f
             /\ Sketch.width sk = Figure.width f
             /\ Sketch.length sk < PLOT_SKETCH_CHUNK_SIZE) then
    pl
  else if decide (sketch_list_garbage pl >= 0) then
    let hN := sketch_list_garbage pl in
    let pl := set_sketch_list_garbage (Sketch.linked (aget (sketch pl) hN)) pl in
    let pl :=
      upd_sketch hN (fun sk =>
        Sketch.set_width (Figure.width f)
          (Sketch.set_drawing (Figure.drawing f) (Sketch.set_figure_N fN sk))) pl in
    let pl :=
      match Sketch.chunk (aget (sketch pl) hN) with
      | Some _ => pl
      | None =>
        let (ok, pl) := malloc pl in
        if ok then
          upd_sketch hN
            (Sketch.set_chunk (Some (replicate (Z.to_nat PLOT_SKETCH_CHUNK_SIZE) FP_NAN))) pl
        else ERROR "Unable to allocate memory of %i sketch chunk" pl
      end in
    let pl := upd_sketch hN (Sketch.set_length 0) pl in
    let self := Draw.list_self (aget (draw pl) fN) in
    let pl :=
      if decide (self >= 0) then
        let pl :=
          upd_sketch hN (Sketch.set_linked (Sketch.linked (aget (sketch pl) self))) pl in
        let pl := upd_sketch self (Sketch.set_linked hN) pl in
        if decide (self = sketch_list_current_end pl)
        then set_sketch_list_current_end hN pl else pl
      else
        let pl := upd_sketch hN (Sketch.set_linked (-1)) pl in
        if decide (sketch_list_current pl >= 0) then
          let pl := upd_sketch (sketch_list_current_end pl) (Sketch.set_linked hN) pl in
          set_sketch_list_current_end hN pl
        else
          set_sketch_list_current_end hN (set_sketch_list_current hN pl) in
    upd_draw fN (Draw.set_list_self hN) pl
  else
    upd_draw fN (Draw.set_list_self (-1)) (ERROR "Unable to get free sketch chunk" pl).

Definition plotSketchDataAdd (pl : plot_t) (fN : Z) (X Y : double) : plot_t :=
  let hN := Draw.list_self (aget (draw pl) fN) in
  if decide (hN >= 0) then
    let length := Sketch.length (aget (sketch pl) hN) in
    let pl :=
      upd_sketch hN (fun sk =>
        Sketch.set_chunk
          (option_map (fun c => aset (aset c length X) (length + 1) Y) (Sketch.chunk sk))
          sk) pl in
    let length := length + 2 in
    let pl := upd_sketch hN (Sketch.set_length length) pl in
    if decide (length >= PLOT_SKETCH_CHUNK_SIZE) then plotSketchDataChunkSetUp pl fN
    else pl
  else pl.

(** [while (hN >= 0)]: moves the list that starts at [hN] to the free list. *)
Fixpoint plotSketchGarbage_walk (fuel : nat) (pl : plot_t) (hN : Z) : option plot_t :=
  match fuel with
  | O => None
  | S fuel =>
    if decide (hN >= 0) then
      let linked := Sketch.linked (aget (sketch pl) hN) in
      let pl := upd_sketch hN (Sketch.set_linked (sketch_list_garbage pl)) pl in
      let pl := set_sketch_list_garbage hN pl in
      plotSketchGarbage_walk fuel pl linked
    else Some pl
  end.

Definition plotSketchGarbage (fuel : nat) (pl : plot_t) : option plot_t :=
  pl ← plotSketchGarbage_walk fuel pl (sketch_list_todraw pl);
  let pl := set_sketch_list_todraw (sketch_list_current pl) pl in
  let pl := set_sketch_list_current (-1) pl in
  let pl := set_sketch_list_current_end (-1) pl in
  Some (for_range 0 PLOT_FIGURE_MAX
          (fun N pl => upd_draw N (Draw.set_list_self (-1)) pl) pl).

(** ** Draw engine *)

(** The locals of plotDrawFigureTrial that live across iterations. *)
Record trial_t := {
  t_rN : Z;
  t_id_N : Z;
  t_kN_cached : Z;
  t_skipped : Z;
  t_line : Z;
  t_last_X : double;
  t_last_Y : double;
  t_last_im_X : double;
  t_last_im_Y : double;
}.

(** What the trial needs of the figure: fixed for the whole call. *)
Record trial_env := {
  e_fN : Z;
  e_dN : Z;
  e_xN : Z;
  e_yN : Z;
  e_xNR : Z;
  e_yNR : Z;
  e_ncolor : Z;
  e_fwidth : Z;
  e_scale_X : double;
  e_offset_X : double;
  e_scale_Y : double;
  e_offset_Y : double;
  e_top_N : Z;
}.

(** The chunk test at the head of both loops: [job] for chunk [kN]. *)
Definition plotDrawFigureTrial_job (pl : plot_t) (e : trial_env) (kN : Z) : Z :=
  let vp := viewport pl in
  let job := 1 in
  let chx := aget (RCache.chunk (aget (rcache pl) (e_xNR e))) kN in
  let job :=
    if decide (e_xNR e >= 0 /\ RChunk.computed chx <> 0) then
      if decide (RChunk.finite chx <> 0) then
        let im_MIN := (RChunk.fmin chx * e_scale_X e + e_offset_X e)%F in
        let im_MAX := (RChunk.fmax chx * e_scale_X e + e_offset_X e)%F in
        if (im_MAX <? fval_of_int (min_x vp - 16))%F
           || (im_MIN >? fval_of_int (max_x vp + 16))%F then 0 else job
      else 0
    else job in
  let chy := aget (RCache.chunk (aget (rcache pl) (e_yNR e))) kN in
  if decide (e_yNR e >= 0 /\ RChunk.computed chy <> 0) then
    if decide (RChunk.finite chy <> 0) then
      let im_MIN := (RChunk.fmin chy * e_scale_Y e + e_offset_Y e)%F in
      let im_MAX := (RChunk.fmax chy * e_scale_Y e + e_offset_Y e)%F in
      if (im_MIN <? fval_of_int (min_y vp - 16))%F
         || (im_MAX >? fval_of_int (max_y vp + 16))%F then 0 else job
    else 0
  else job.

(** The loop of FIGURE_DRAWING_LINE and FIGURE_DRAWING_DASH. *)
Fixpoint plotDrawFigureTrial_line (fuel : nat) (pl : plot_t) (e : trial_env)
  (st : trial_t) : option plot_t :=
  match fuel with
  | O => None
  | S fuel =>
    let fN := e_fN e in
    let dN := e_dN e in
    let kN := plotDataChunkN pl dN (t_rN st) in
    let job :=
      if decide (kN <> t_kN_cached st) then plotDrawFigureTrial_job pl e kN else 1 in
    let kN_cached := kN in
    let r :=
      if decide (job <> 0 \/ t_line st <> 0) then
        let '(rN, id_N) :=
          if decide (t_skipped st <> 0)
          then plotDataSkip pl dN (t_rN st) (t_id_N st) (-1)
          else (t_rN st, t_id_N st) in
        let skipped := 0 in
        let '(pl, row, rN) := plotDataGet pl dN rN in
        match row with
        | None => inl (upd_draw fN (Draw.set_sketch SKETCH_FINISHED) pl)
        | Some row =>
          let X := row_val pl dN row id_N (e_xN e) in
          let Y := row_val pl dN row id_N (e_yN e) in
          let im_X := (X * e_scale_X e + e_offset_X e)%F in
          let im_Y := (Y * e_scale_Y e + e_offset_Y e)%F in
          if fp_isfinite im_X && fp_isfinite im_Y then
            let '(pl, line) :=
              if decide (t_line st <> 0) then
                let rc := drawLineTrial (viewport pl) (t_last_im_X st) (t_last_im_Y st)
                            im_X im_Y (e_ncolor e) (e_fwidth e) in
                if decide (rc <> 0) then
                  (plotSketchDataAdd
                     (plotSketchDataAdd pl fN (t_last_X st) (t_last_Y st)) fN X Y,
                   t_line st)
                else (pl, t_line st)
              else (pl, 1) in
            inr (pl, {| t_rN := rN; t_id_N := id_N + 1; t_kN_cached := kN_cached;
                        t_skipped := skipped; t_line := line;
                        t_last_X := X; t_last_Y := Y;
                        t_last_im_X := im_X; t_last_im_Y := im_Y |})
          else
            inr (pl, {| t_rN := rN; t_id_N := id_N + 1; t_kN_cached := kN_cached;
                        t_skipped := skipped; t_line := 0;
                        t_last_X := t_last_X st; t_last_Y := t_last_Y st;
                        t_last_im_X := t_last_im_X st; t_last_im_Y := t_last_im_Y st |})
        end
      else
        inr (pl, {| t_rN := t_rN st; t_id_N := t_id_N st; t_kN_cached := kN_cached;
                    t_skipped := t_skipped st; t_line := t_line st;
                    t_last_X := t_last_X st; t_last_Y := t_last_Y st;
                    t_last_im_X := t_last_im_X st; t_last_im_Y := t_last_im_Y st |}) in
    match r with
    | inl pl => Some pl
    | inr (pl, st) =>
      let st :=
        if decide (job = 0) then
          let '(rN, id_N) := plotDataChunkSkip pl dN (t_rN st) (t_id_N st) in
          {| t_rN := rN; t_id_N := id_N; t_kN_cached := t_kN_cached st;
             t_skipped := 1; t_line := 0;
             t_last_X := t_last_X st; t_last_Y := t_last_Y st;
             t_last_im_X := t_last_im_X st; t_last_im_Y := t_last_im_Y st |}
        else st in
      if decide (t_id_N st > e_top_N e) then
        Some (upd_draw fN (fun d =>
                Draw.set_last_Y (t_last_Y st) (Draw.set_last_X (t_last_X st)
                  (Draw.set_line (t_line st) (Draw.set_skipped (t_skipped st)
                    (Draw.set_id_N (t_id_N st) (Draw.set_rN (t_rN st)
                      (Draw.set_sketch SKETCH_INTERRUPTED d))))))) pl)
      else plotDrawFigureTrial_line fuel pl e st
    end
  end.

(** The loop of FIGURE_DRAWING_DOT; of the locals only [rN], [id_N] and
    [kN_cached] are in use. *)
Fixpoint plotDrawFigureTrial_dot (fuel : nat) (pl : plot_t) (e : trial_env)
  (st : trial_t) : option plot_t :=
  match fuel with
  | O => None
  | S fuel =>
    let fN := e_fN e in
    let dN := e_dN e in
    let kN := plotDataChunkN pl dN (t_rN st) in
    let job :=
      if decide (kN <> t_kN_cached st) then plotDrawFigureTrial_job pl e kN else 1 in
    let with_pos st rN id_N :=
      {| t_rN := rN; t_id_N := id_N; t_kN_cached := kN;
         t_skipped := t_skipped st; t_line := t_line st;
         t_last_X := t_last_X st; t_last_Y := t_last_Y st;
         t_last_im_X := t_last_im_X st; t_last_im_Y := t_last_im_Y st |} in
    let r :=
      if decide (job <> 0) then
        let '(pl, row, rN) := plotDataGet pl dN (t_rN st) in
        match row with
        | None => inl (upd_draw fN (Draw.set_sketch SKETCH_FINISHED) pl)
        | Some row =>
          let X := row_val pl dN row (t_id_N st) (e_xN e) in
          let Y := row_val pl dN row (t_id_N st) (e_yN e) in
          let im_X := (X * e_scale_X e + e_offset_X e)%F in
          let im_Y := (Y * e_scale_Y e + e_offset_Y e)%F in
          let pl :=
            if fp_isfinite im_X && fp_isfinite im_Y then
              let rc := drawDotTrial (viewport pl) im_X im_Y (e_fwidth e) (e_ncolor e) 1 in
              if decide (rc <> 0) then plotSketchDataAdd pl fN X Y else pl
            else pl in
          inr (pl, with_pos st rN (t_id_N st + 1))
        end
      else inr (pl, with_pos st (t_rN st) (t_id_N st)) in
    match r with
    | inl pl => Some pl
    | inr (pl, st) =>
      let st :=
        if decide (job = 0) then
          let '(rN, id_N) := plotDataChunkSkip pl dN (t_rN st) (t_id_N st) in
          with_pos st rN id_N
        else st in
      if decide (t_id_N st > e_top_N e) then
        Some (upd_draw fN (fun d =>
                Draw.set_id_N (t_id_N st) (Draw.set_rN (t_rN st)
                  (Draw.set_sketch SKETCH_INTERRUPTED d))) pl)
      else plotDrawFigureTrial_dot fuel pl e st
    end
  end.

Definition plotDrawFigureTrial (fuel : nat) (pl : plot_t) (fN : Z) : option plot_t :=
  let f := aget (figure pl) fN in
  let ncolor := if decide (Figure.hidden f <> 0) then 9 else fN + 1 in
  let fdrawing := Figure.drawing f in
  let fwidth := Figure.width f in
  let dN := Figure.data_N f in
  let xN := Figure.column_X f in
  let yN := Figure.column_Y f in
  r ← plotDataRangeCacheFetch fuel pl dN xN;
  let '(xNR, pl) := r in
  r ← plotDataRangeCacheFetch fuel pl dN yN;
  let '(yNR, pl) := r in
  let composed aN :=
    let a := aget (axis pl) aN in
    if decide (Axis.slave a <> 0) then
      let b := aget (axis pl) (Axis.slave_N a) in
      ((Axis.scale a * Axis.scale b)%F, (Axis.offset a * Axis.scale b + Axis.offset b)%F)
    else (Axis.scale a, Axis.offset a) in
  let '(scale_X, offset_X) := composed (Figure.axis_X f) in
  let '(scale_Y, offset_Y) := composed (Figure.axis_Y f) in
  let vp := viewport pl in
  let X := fval_of_int (max_x vp - min_x vp) in
  let Y := fval_of_int (min_y vp - max_y vp) in
  let scale_X := (scale_X * X)%F in
  let offset_X := (offset_X * X + fval_of_int (min_x vp))%F in
  let scale_Y := (scale_Y * Y)%F in
  let offset_Y := (offset_Y * Y + fval_of_int (max_y vp))%F in
  let rN := Draw.rN (aget (draw pl) fN) in
  let id_N := Draw.id_N (aget (draw pl) fN) in
  let e :=
    {| e_fN := fN; e_dN := dN; e_xN := xN; e_yN := yN; e_xNR := xNR; e_yNR := yNR;
       e_ncolor := ncolor; e_fwidth := fwidth;
       e_scale_X := scale_X; e_offset_X := offset_X;
       e_scale_Y := scale_Y; e_offset_Y := offset_Y;
       e_top_N := id_N + 2 ^ Data.chunk_SHIFT (aget (data pl) dN) |} in
  let pl := plotSketchDataChunkSetUp pl fN in
  let dr := aget (draw pl) fN in
  match fdrawing with
  | FIGURE_DRAWING_LINE | FIGURE_DRAWING_DASH =>
    plotDrawFigureTrial_line fuel pl e
      {| t_rN := rN; t_id_N := id_N; t_kN_cached := -1;
         t_skipped := Draw.skipped dr; t_line := Draw.line dr;
         t_last_X := Draw.last_X dr; t_last_Y := Draw.last_Y dr;
         t_last_im_X := (Draw.last_X dr * scale_X + offset_X)%F;
         t_last_im_Y := (Draw.last_Y dr * scale_Y + offset_Y)%F |}
  | FIGURE_DRAWING_DOT =>
    plotDrawFigureTrial_dot fuel pl e
      {| t_rN := rN; t_id_N := id_N; t_kN_cached := -1;
         t_skipped := 0; t_line := 0;
         t_last_X := FP_NAN; t_last_Y := FP_NAN;
         t_last_im_X := FP_NAN; t_last_im_Y := FP_NAN |}
  end.

(** [FIGS]: the busy figures, hidden ones first. *)
Definition plotDrawFigureTrialAll_FIGS (pl : plot_t) : list Z :=
  filter (fun fN => Figure.busy (aget (figure pl) fN) <> 0
                    /\ Figure.hidden (aget (figure pl) fN) <> 0)
    (seqZ 0 PLOT_FIGURE_MAX)
  ++ filter (fun fN => Figure.busy (aget (figure pl) fN) <> 0
                       /\ Figure.hidden (aget (figure pl) fN) = 0)
       (seqZ 0 PLOT_FIGURE_MAX).

(** The [for] loop that picks the unfinished figure with the least [id_N];
    [-1] when all are finished. *)
Definition plotDrawFigureTrialAll_pick (pl : plot_t) (FIGS : list Z) : Z :=
  foldl
    (fun fN fQ =>
       if decide (Draw.sketch (aget (draw pl) fQ) <> SKETCH_FINISHED) then
         if decide (fN < 0) then fQ
         else if decide (Draw.id_N (aget (draw pl) fQ) < Draw.id_N (aget (draw pl) fN))
              then fQ else fN
       else fN)
    (-1) FIGS.

(** The [do ... while (SDL_GetTicks() < tTOP)] loop.  [clock] lists the
    readings SDL_GetTicks is going to return, one per test of the loop
    condition; the model stops with [None] when the list is used up before
    the loop ends. *)
Fixpoint plotDrawFigureTrialAll_loop (fuel : nat) (clock : list Z) (tTOP : Z)
  (FIGS : list Z) (pl : plot_t) : option (plot_t * list Z) :=
  let fN := plotDrawFigureTrialAll_pick pl FIGS in
  if decide (fN >= 0) then
    pl ← plotDrawFigureTrial fuel pl fN;
    match clock with
    | [] => None
    | t :: clock =>
      if decide (t < tTOP) then plotDrawFigureTrialAll_loop fuel clock tTOP FIGS pl
      else Some (pl, clock)
    end
  else
    pl ← plotSketchGarbage fuel pl;
    Some (set_draw_in_progress 0 pl, clock).

Definition plotDrawFigureTrialAll (fuel : nat) (clock : list Z) (pl : plot_t)
  : option (plot_t * list Z) :=
  let FIGS := plotDrawFigureTrialAll_FIGS pl in
  let pl :=
    if decide (draw_in_progress pl = 0) then
      let pl :=
        foldl
          (fun pl fN =>
             let dN := Figure.data_N (aget (figure pl) fN) in
             let d := aget (data pl) dN in
             upd_draw fN (fun dr =>
               Draw.set_line 0 (Draw.set_skipped 0
                 (Draw.set_id_N (Data.id_N d) (Draw.set_rN (Data.head_N d)
                   (Draw.set_sketch SKETCH_STARTED dr))))) pl)
          pl FIGS in
      set_draw_in_progress 1 pl
    else pl in
  if decide (draw_in_progress pl <> 0) then
    match clock with
    | [] => None
    | t :: clock => plotDrawFigureTrialAll_loop fuel clock (t + 20) FIGS pl
    end
  else Some (pl, clock).

(** ** Vocabulary of the statements *)

(** The rows from [rN] up to [tail_N] with their logical ids, read with
    plotDataGet as the readers of plot.c do; each row is given with all its
    [column_N + PLOT_SUBTRACT] cells. *)
Fixpoint plotDataRows (fuel : nat) (pl : plot_t) (dN rN id_N : Z)
  : option (list (Z * list fval_t)) :=
  match fuel with
  | O => None
  | S fuel =>
    let '(pl, row, rN) := plotDataGet pl dN rN in
    match row with
    | None => Some []
    | Some row =>
      let cells :=
        map (row_get pl dN row)
          (seqZ 0 (Data.column_N (aget (data pl) dN) + PLOT_SUBTRACT)) in
      rest ← plotDataRows fuel pl dN rN (id_N + 1);
      Some ((id_N, cells) :: rest)
    end
  end.

(** The valid rows of dataset [dN], from [head_N] to [tail_N]. *)
Definition valid_rows (fuel : nat) (pl : plot_t) (dN : Z) : option (list (Z * list fval_t)) :=
  plotDataRows fuel pl dN (Data.head_N (aget (data pl) dN)) (Data.id_N (aget (data pl) dN)).

(** The ring header of a dataset: all of it but the chunk buffers, the chunk
    cache and the column map. *)
Definition hdr (d : Data.t) :=
  (Data.column_N d, Data.length_N d, Data.head_N d, Data.tail_N d, Data.id_N d,
   Data.sub_N d, Data.chunk_SHIFT d, Data.chunk_MASK d, Data.chunk_bSIZE d, Data.sub d).

(** [pl'] differs from [pl] at most in the datasets and the environment. *)
Definition data_step (pl pl' : plot_t) : Prop :=
  pl' = set_malloc_script (malloc_script pl')
          (set_stderr (stderr pl') (set_data (data pl') pl)).

(** [pl'] differs from [pl] at most in the chunk buffers, the chunk cache,
    the column maps and the environment. *)
Definition storage_step (pl pl' : plot_t) : Prop :=
  data_step pl pl'
  /\ length (data pl') = length (data pl)
  /\ forall dM, hdr (aget (data pl') dM) = hdr (aget (data pl) dM).

(** [pl'] has the log of [pl], with messages added at its end or none. *)
Definition log_step (pl pl' : plot_t) : Prop :=
  exists msgs, stderr pl' = stderr pl ++ msgs.

(** Every live range-cache entry of dataset [dN] has chunk [kN] marked as
    not computed and its aggregate as not cached. *)
Definition wiped (pl : plot_t) (dN kN : Z) : Prop :=
  forall N, 0 <= N < PLOT_RCACHE_SIZE ->
    let rc := aget (rcache pl) N in
    RCache.busy rc <> 0 -> RCache.data_N rc = dN ->
    RChunk.computed (aget (RCache.chunk rc) kN) = 0 /\ RCache.cached rc = 0.

(** What plotDataRangeCacheWipe makes of entry [N]. *)
Definition wipe_entry (dN kN N : Z) (rc : RCache.t) : RCache.t :=
  if decide (0 <= N < PLOT_RCACHE_SIZE /\ RCache.busy rc <> 0 /\ RCache.data_N rc = dN)
  then RCache.set_cached 0
         (RCache.set_chunk (aupd (RCache.chunk rc) kN (RChunk.set_computed 0)) rc)
  else rc.

(** The memo of the last wipe: the dataset and the chunk. *)
Definition wipe_memo (pl : plot_t) : Z * Z :=
  (rcache_wipe_data_N pl, rcache_wipe_chunk_N pl).

(** The chunk named by the memo [(rcache_wipe_data_N, rcache_wipe_chunk_N)]
    is wiped. *)
Definition memo_inv (pl : plot_t) : Prop :=
  0 <= rcache_wipe_data_N pl ->
  wiped pl (rcache_wipe_data_N pl) (rcache_wipe_chunk_N pl).

(** The viewport composition of the specification: from the normalized
    coordinate [u] to pixels, along the orientation [busy]. *)
Definition composeViewport (pl : plot_t) (busy : axis_busy_t) (u : double) : double :=
  let vp := viewport pl in
  match busy with
  | AXIS_BUSY_X => (u * fval_of_int (max_x vp - min_x vp) + fval_of_int (min_x vp))%F
  | AXIS_BUSY_Y => (u * fval_of_int (min_y vp - max_y vp) + fval_of_int (max_y vp))%F
  | AXIS_FREE => u
  end.



(** *** Rings in plain memory

    The statements about rows are made for datasets held uncompressed: every
    chunk a row index below [length_N] falls into is a buffer of the
    dataset's own, large enough for its rows. *)

(** Cells of one row. *)
Definition row_width (d : Data.t) : Z := Data.column_N d + PLOT_SUBTRACT.

Definition chunk_ok (d : Data.t) (kN : Z) : bool :=
  match aget (Data.raw d) kN with
  | Own buf =>
    bool_decide (row_width d * 2 ^ Data.chunk_SHIFT d <= Z.of_nat (length buf))
  | _ => false
  end.

Definition wf_data (d : Data.t) : Prop :=
  0 <= Data.chunk_SHIFT d
  /\ Data.chunk_MASK d = 2 ^ Data.chunk_SHIFT d - 1
  /\ 0 <= Data.column_N d
  /\ 2 <= Data.length_N d
  /\ 0 <= Data.head_N d < Data.length_N d
  /\ 0 <= Data.tail_N d < Data.length_N d
  /\ forallb (chunk_ok d)
       (seqZ 0 (Z.shiftr (Data.length_N d - 1) (Data.chunk_SHIFT d) + 1)) = true.

Definition wf_plot (pl : plot_t) (dN : Z) : Prop :=
  lz4_compress pl = 0
  /\ 0 <= PLOT_SUBTRACT
  /\ 0 <= dN < Z.of_nat (length (data pl))
  /\ wf_data (aget (data pl) dN).

(** The cell of column [c] in the row at ring index [r]. *)
Definition cell (d : Data.t) (r c : Z) : fval_t :=
  aget (buf_load d (InChunk (Z.shiftr r (Data.chunk_SHIFT d))))
    (row_width d * Z.land r (Data.chunk_MASK d) + c).

(** The ring index after [r]: [(rN < lN - 1) ? rN + 1 : 0]. *)
Definition ring_next (d : Data.t) (r : Z) : Z :=
  if decide (r < Data.length_N d - 1) then r + 1 else 0.

(** The number of rows from ring index [r] up to [tail_N]. *)
Definition ring_dist (d : Data.t) (r : Z) : Z :=
  (Data.tail_N d - r) mod Data.length_N d.

(** The number of rows from [head_N] up to ring index [r]. *)
Definition ring_off (d : Data.t) (r : Z) : Z :=
  (r - Data.head_N d) mod Data.length_N d.

(** The [n] rows from ring index [r] on, the first with the logical id
    [id_N]. *)
Definition ring_rows (d : Data.t) (r : Z) (n : nat) (id_N : Z)
  : list (Z * list fval_t) :=
  map (fun i : nat =>
         (id_N + Z.of_nat i,
          map (cell d ((r + Z.of_nat i) mod Data.length_N d))
            (seqZ 0 (row_width d))))
    (seq 0 n).

(** What a row-by-row operation of plotDataSubtract computes from the values
    [xs] of its input column: [out] is the value stored for a row, [next] the
    state carried to the row after it. *)
Fixpoint scan_rows {S} (out : fval_t -> S -> fval_t) (next : fval_t -> S -> S)
  (st : S) (xs : list fval_t) : list fval_t * S :=
  match xs with
  | [] => ([], st)
  | x :: xs =>
    let '(ys, st') := scan_rows out next (next x st) xs in
    (out x st :: ys, st')
  end.




(** The input column [c] of an operation over [rows]: below zero it is the
    column of the logical ids, [(cN < 0) ? id_N : row[cN]]. *)
Definition input_column (c : Z) (rows : list (Z * list fval_t)) : list fval_t :=
  if decide (c < 0) then map (fun r => fval_of_int (fst r)) rows
  else map (fun r => aget (snd r) c) rows.

(** [pl'] differs from [pl] at most in the datasets, the environment and
    the per-chunk records of range-cache entry [xN]. *)
Definition rchunk_step (xN : Z) (pl pl' : plot_t) : Prop :=
  rcache_ID pl' = rcache_ID pl
  /\ length (rcache pl') = length (rcache pl)
  /\ (forall N, N <> xN -> aget (rcache pl') N = aget (rcache pl) N)
  /\ RCache.busy (aget (rcache pl') xN) = RCache.busy (aget (rcache pl) xN)
  /\ RCache.data_N (aget (rcache pl') xN) = RCache.data_N (aget (rcache pl) xN)
  /\ RCache.column_N (aget (rcache pl') xN) = RCache.column_N (aget (rcache pl) xN)
  /\ RCache.cached (aget (rcache pl') xN) = RCache.cached (aget (rcache pl) xN).

(** The range plotDataRangeCacheFetch reports for a column of values: the
    least and the greatest of the finite ones, and [0, 0] when there is
    none. *)
Definition finite_values (xs : list fval_t) : list fval_t :=
  filter (fun x => fp_isfinite x = true) xs.

Definition is_fmin (m : fval_t) (vs : list fval_t) : Prop :=
  m ∈ vs /\ forall v, v ∈ vs -> fle m v = true.

Definition is_fmax (m : fval_t) (vs : list fval_t) : Prop :=
  m ∈ vs /\ forall v, v ∈ vs -> fle v m = true.

Definition is_range (lo hi : fval_t) (xs : list fval_t) : Prop :=
  (finite_values xs = [] -> lo = fval_of_int 0 /\ hi = fval_of_int 0)
  /\ (finite_values xs <> [] ->
      is_fmin lo (finite_values xs) /\ is_fmax hi (finite_values xs)).

(** The triple [(finite, fmin, fmax)] kept for a chunk, and the triple
    [(started, fmin, fmax)] kept across the chunks, describe the values
    [val m] of the rows [m] in [S]: the flag tells whether one of them is
    finite, and if so the bounds are attained and enclose the finite ones. *)
Definition summarises (val : Z -> fval_t) (S : Z -> Prop) (fin : Z) (lo hi : fval_t)
  : Prop :=
  if decide (fin = 0) then forall m, S m -> val m = None
  else exists ml mh l u,
         S ml /\ S mh /\ val ml = Some l /\ val mh = Some u
         /\ lo = Some l /\ hi = Some u
         /\ forall m y, S m -> val m = Some y -> (l <= y <= u)%Q.

(** The derived slots of dataset [dN] that are in use. *)
Definition live_slots (pl : plot_t) (dN : Z) : list Z :=
  filter (fun sN => is_free (aget (Data.sub (aget (data pl) dN)) sN) = false)
    (seqZ 0 PLOT_SUBTRACT).


(** Column [c] of the [n] rows from ring index [r] on, the first with the
    logical id [id_N]; below zero it is the column of the ids. *)
Definition ring_column (d : Data.t) (c r : Z) (n : nat) (id_N : Z) : list fval_t :=
  map (fun i : nat =>
         if decide (c < 0) then fval_of_int (id_N + Z.of_nat i)
         else cell d ((r + Z.of_nat i) mod Data.length_N d) c)
    (seq 0 n).

(** [pl'] differs from [pl] at most in dataset [dN], the range cache, its
    memo and the environment. *)
Definition ring_step (dN : Z) (pl pl' : plot_t) : Prop :=
  lz4_compress pl' = lz4_compress pl
  /\ length (data pl') = length (data pl)
  /\ forall dM, dM <> dN -> aget (data pl') dM = aget (data pl) dM.

(** The scale and offset plotAxisConv and plotAxisConvInv apply for axis
    [aN]: its own, composed with those of its base when it is a slave, then
    with the viewport along its orientation. *)
Definition axis_composed (pl : plot_t) (aN : Z) : double * double :=
  let a := aget (axis pl) aN in
  let '(scale, offset) :=
    if decide (Axis.slave a <> 0) then
      let b := aget (axis pl) (Axis.slave_N a) in
      ((Axis.scale a * Axis.scale b)%F,
       (Axis.offset a * Axis.scale b + Axis.offset b)%F)
    else (Axis.scale a, Axis.offset a) in
  let vp := viewport pl in
  match Axis.busy a with
  | AXIS_BUSY_X =>
    let temp := fval_of_int (max_x vp - min_x vp) in
    ((scale * temp)%F, (offset * temp + fval_of_int (min_x vp))%F)
  | AXIS_BUSY_Y =>
    let temp := fval_of_int (min_y vp - max_y vp) in
    ((scale * temp)%F, (offset * temp + fval_of_int (max_y vp))%F)
  | AXIS_FREE => (scale, offset)
  end.

(** Pixels per unit along axis [aN]: the distance plotAxisConv puts between
    the values 0 and 1. *)
Definition axis_gain (pl : plot_t) (aN : Z) : double :=
  (plotAxisConv pl aN (fval_of_int 1) - plotAxisConv pl aN (fval_of_int 0))%F.

(** Column [c] of a list of rows. *)
Definition column (c : Z) (rows : list (Z * list fval_t)) : list fval_t :=
  map (fun r => aget (snd r) c) rows.

End plot.

(** ** A small configuration for the worked examples

    Chunks of two rows: with [sizeof_fval_t = 8] and [PLOT_SUBTRACT = 3] a
    row of a one-column dataset takes 32 bytes, and [PLOT_CHUNK_SIZE = 64]
    is reached with a shift of one. *)
Definition demo_h : plot_h :=
  {| PLOT_DATASET_MAX := 2;
     PLOT_CHUNK_SIZE := 64;
     PLOT_CHUNK_MAX := 8;
     PLOT_CHUNK_CACHE := 2;
     PLOT_RCACHE_SIZE := 3;
     PLOT_AXES_MAX := 4;
     PLOT_FIGURE_MAX := 3;
     PLOT_SUBTRACT := 3;
     PLOT_GROUP_MAX := 2;
     PLOT_SKETCH_CHUNK_SIZE := 8;
     PLOT_SKETCH_MAX := 6;
     sizeof_fval_t := 8 |}.

(** External collaborators of the examples: a codec that always fails, a
    rasterizer that reports every primitive as visible. *)
Definition demo_extern : extern_h :=
  {| sqrt := fun x => x;
     LZ4_compressBound := fun n => n;
     LZ4_compress_default := fun _ _ _ => None;
     LZ4_decompress_safe := fun _ _ _ => None;
     drawLineTrial := fun _ _ _ _ _ _ _ => 1;
     drawDotTrial := fun _ _ _ _ _ _ => 1 |}.

Section demo.

#[local] Existing Instance demo_h.
#[local] Existing Instance demo_extern.

(** Two axes in use, axis 1 enslaved to axis 0. *)
Definition demo_axes : plot_t :=
  let pl := upd_axis 0 (Axis.set_busy AXIS_BUSY_X) plotAlloc in
  let pl := upd_axis 1 (Axis.set_busy AXIS_BUSY_X) pl in
  plotAxisSlave pl 1 0 (fval_of_int 2) (fval_of_int 1) AXIS_SLAVE_ENABLE.

(** A one-column dataset of length 4, and the same request when the first
    [malloc] fails. *)
Definition demo_ring : plot_t := plotDataAlloc plotAlloc 0 1 4.




(** [plotDataInsert] of the one-column rows [vs], in order. *)
Definition insert_all (pl : plot_t) (dN : Z) (vs : list Q) : plot_t :=
  foldl (fun pl v => plotDataInsert pl dN [Some v]) pl vs.

(** The ring after the rows 100, 1, 2 and a plotDataRangeCacheFetch of
    column 0. *)
Definition demo_fetched : plot_t :=
  match plotDataRangeCacheFetch 10 (insert_all demo_ring 0 [100; 1; 2]%Q) 0 0 with
  | Some (_, pl) => pl
  | None => plotAlloc
  end.

(** A two-column dataset in a viewport 100 pixels wide and 50 high; one
    figure on the axes 0 (X) and 1 (Y); axis 1 scaled to [0, 1] and axis 0
    then enslaved to it. *)
Definition demo_two : plot_t :=
  plotDataAlloc
    (set_viewport {| min_x := 0; max_x := 100; min_y := 0; max_y := 50 |} plotAlloc)
    0 2 4.


(** The figure of [demo_two] with its axes scaled: axis 0 (X) shows
    [0, 10] and axis 1 (Y) shows [0, 5]. *)
Definition demo_view : plot_t :=
  let pl := plotFigureAdd demo_two 0 0 0 1 0 1 "fig" in
  let pl := plotAxisScaleManual pl 0 (fval_of_int 0) (fval_of_int 10) in
  plotAxisScaleManual pl 1 (fval_of_int 0) (fval_of_int 5).

(** Axis 2, an X axis with the scale of axis 0 shifted by one half, and the
    same axis enslaved to axis 0. *)
Definition demo_third : plot_t :=
  let pl := upd_axis 2 (Axis.set_busy AXIS_BUSY_X) demo_view in
  plotAxisScaleManual pl 2 (fval_of_int 5) (fval_of_int 15).

Definition demo_slaved : plot_t :=
  plotAxisSlave demo_third 2 0 (fval_of_int 1) (fval_of_int 0) AXIS_SLAVE_HOLD_AS_IS.

(** The ring of [demo_ring] holding the rows 1, 2, 3: as many as its
    length of 4 allows. *)
Definition demo_full : plot_t := insert_all demo_ring 0 [1; 2; 3]%Q.

(** A one-column ring of length 8 holding a time column that wraps, and
    the same with a derived slot set up the way plotGetSubtractTimeUnwrap
    and plotGetSubtractScale do before they call plotDataSubtract. *)
Definition demo_wrapped : plot_t :=
  insert_all (plotDataAlloc plotAlloc 0 1 8) 0 [0; 1 # 2; 1; 1 # 5; 7 # 10; 6 # 5]%Q.


Definition demo_scale : plot_t :=
  set_sub 0 1 (SUBTRACT_SCALE 0 (fval_of_int 2) (fval_of_int 1)) demo_wrapped.

(** The ring of [demo_ring] after the rows 1 to 5: the first two have been
    pushed out, and the rows left lie across the end of the ring. *)
Definition demo_spun : plot_t := insert_all demo_ring 0 [1; 2; 3; 4; 5]%Q.

(** Two rows in the two-column dataset, two figures on the same axes, and
    the first figure moved onto a scaled and then unwrapped X column: slot 0
    holds the scaling, slot 1 the unwrapping of its column. *)
Definition demo_figs : plot_t :=
  let pl :=
    foldl (fun pl r => plotDataInsert pl 0 r) demo_two
      [[Some 1%Q; Some 10%Q]; [Some 2%Q; Some 20%Q]] in
  plotFigureAdd (plotFigureAdd pl 0 0 0 1 0 1 "a") 1 0 0 1 0 1 "b".

Definition demo_slots : plot_t :=
  match
    pl ← plotFigureSubtractScale 10 demo_figs 0 AXIS_BUSY_X (fval_of_int 2) (fval_of_int 0);
    plotFigureSubtractTimeUnwrap 10 pl 0
  with
  | Some pl => pl
  | None => plotAlloc
  end.

End demo.

(** * Properties *)

Section properties.

Context {ph : plot_h} {eh : extern_h}.

(** ** Arrays *)

Lemma aget_aset_eq {A} `{Inhabited A} (l : list A) (i : Z) (x : A) :
  0 <= i < Z.of_nat (length l) -> aget (aset l i x) i = x.
Proof.
  intros Hi. unfold aget, aset.
  destruct (decide (0 <= i)); [|lia].
  apply list_lookup_total_insert_eq. lia.
Qed.

Lemma aget_aset_ne {A} `{Inhabited A} (l : list A) (i j : Z) (x : A) :
  i <> j -> aget (aset l i x) j = aget l j.
Proof.
  intros Hij. unfold aget, aset.
  destruct (decide (0 <= j)); [|done].
  destruct (decide (0 <= i)); [|done].
  apply list_lookup_total_insert_ne. lia.
Qed.

Lemma aset_length {A} (l : list A) (i : Z) (x : A) :
  length (aset l i x) = length l.
Proof. unfold aset. destruct (decide (0 <= i)); [apply length_insert|done]. Qed.

Lemma aset_oob {A} (l : list A) (i : Z) (x : A) :
  ~ 0 <= i < Z.of_nat (length l) -> aset l i x = l.
Proof.
  intros Hi. unfold aset. destruct (decide (0 <= i)); [|done].
  apply list_insert_ge. lia.
Qed.

Lemma aupd_length {A} `{Inhabited A} (l : list A) (i : Z) (f : A -> A) :
  length (aupd l i f) = length l.
Proof. apply aset_length. Qed.

Lemma aget_aupd_eq {A} `{Inhabited A} (l : list A) (i : Z) (f : A -> A) :
  0 <= i < Z.of_nat (length l) -> aget (aupd l i f) i = f (aget l i).
Proof. intros. unfold aupd. by apply aget_aset_eq. Qed.

Lemma aget_aupd_ne {A} `{Inhabited A} (l : list A) (i j : Z) (f : A -> A) :
  i <> j -> aget (aupd l i f) j = aget l j.
Proof. intros. unfold aupd. by apply aget_aset_ne. Qed.

(** A projection that [f] leaves alone reads the same after [aupd], in or out
    of range. *)
Lemma aget_aupd_proj {A B} `{Inhabited A} (l : list A) (i j : Z) (f : A -> A)
  (p : A -> B) :
  (forall x, p (f x) = p x) -> p (aget (aupd l i f) j) = p (aget l j).
Proof.
  intros Hp. destruct (decide (i = j)) as [->|Hne].
  - destruct (decide (0 <= j < Z.of_nat (length l))).
    + by rewrite aget_aupd_eq.
    + unfold aupd. by rewrite aset_oob.
  - by rewrite aget_aupd_ne.
Qed.

(** ** Steps that stay inside the chunk store *)

Lemma storage_step_refl pl : storage_step pl pl.
Proof. split; [by destruct pl|done]. Qed.

Lemma storage_step_trans pl1 pl2 pl3 :
  storage_step pl1 pl2 -> storage_step pl2 pl3 -> storage_step pl1 pl3.
Proof.
  intros (E1 & L1 & H1) (E2 & L2 & H2). split; [|split].
  - rewrite E2, E1. by destruct pl1.
  - congruence.
  - intros dM. by rewrite H2.
Qed.

Lemma storage_step_ERROR pl msg : storage_step pl (ERROR msg pl).
Proof. split; [by destruct pl|done]. Qed.

Lemma storage_step_malloc pl ok pl' : malloc pl = (ok, pl') -> storage_step pl pl'.
Proof.
  unfold malloc. destruct (malloc_script pl) eqn:E; intros [= <- <-].
  - apply storage_step_refl.
  - split; [by destruct pl|done].
Qed.

Lemma data_upd_data dN f pl : data (upd_data dN f pl) = aupd (data pl) dN f.
Proof. done. Qed.

Lemma storage_step_upd_data pl dN f :
  (forall d, hdr (f d) = hdr d) -> storage_step pl (upd_data dN f pl).
Proof.
  intros Hf. split; [by destruct pl|split].
  - rewrite data_upd_data. apply aupd_length.
  - intros dM. cbn. by apply (aget_aupd_proj _ _ _ _ hdr).
Qed.

(** Chains the three lemmas above along a term built from [upd_data],
    [ERROR] and states already known to be one step away. *)
Ltac storage_step :=
  repeat first
    [ assumption
    | apply storage_step_refl
    | (eapply storage_step_trans; [|apply storage_step_ERROR])
    | (eapply storage_step_trans;
       [|apply storage_step_upd_data; intros; reflexivity])
    | solve [eauto using storage_step_trans] ].

Lemma storage_step_for_range pl from to (body : Z -> plot_t -> plot_t) :
  (forall N pl, storage_step pl (body N pl)) ->
  storage_step pl (for_range from to body pl).
Proof.
  intros Hb. unfold for_range.
  generalize (seqZ from (to - from)). intros l. revert pl.
  induction l as [|N l IH]; intros pl; cbn.
  - apply storage_step_refl.
  - eapply storage_step_trans; [apply Hb|apply IH].
Qed.

Lemma plotDataCacheGetNode_storage pl dN kN xN pl' :
  plotDataCacheGetNode pl dN kN = (xN, pl') -> storage_step pl pl'.
Proof.
  unfold plotDataCacheGetNode.
  destruct (decide _); intros [= <- <-]; storage_step.
Qed.

Lemma plotDataCacheFetch_storage pl dN kN :
  storage_step pl (plotDataCacheFetch pl dN kN).
Proof.
  unfold plotDataCacheFetch.
  destruct (plotDataCacheGetNode pl dN kN) as [xN pl1] eqn:E1.
  apply plotDataCacheGetNode_storage in E1.
  repeat first
    [ progress storage_step
    | match goal with
      | |- context [malloc ?p] =>
        let E := fresh "E" in
        destruct (malloc p) as [? ?] eqn:E; apply storage_step_malloc in E
      | |- context [match ?x with _ => _ end] => destruct x eqn:?
      end ].
Qed.

Lemma plotDataChunkFetch_storage pl dN kN :
  storage_step pl (plotDataChunkFetch pl dN kN).
Proof.
  unfold plotDataChunkFetch.
  destruct (_ && _); [apply plotDataCacheFetch_storage|apply storage_step_refl].
Qed.

Lemma plotDataChunkWrite_storage pl dN kN :
  storage_step pl (plotDataChunkWrite pl dN kN).
Proof.
  unfold plotDataChunkWrite.
  pose proof (plotDataCacheFetch_storage pl dN kN).
  destruct (_ && _); repeat (destruct (is_null _) || destruct (decide _));
    storage_step.
Qed.


Lemma storage_step_length pl pl' :
  storage_step pl pl' -> length (data pl') = length (data pl).
Proof. by intros (_ & Hl & _). Qed.

Lemma data_step_refl pl : data_step pl pl.
Proof. by destruct pl. Qed.

Lemma data_step_trans pl1 pl2 pl3 :
  data_step pl1 pl2 -> data_step pl2 pl3 -> data_step pl1 pl3.
Proof. unfold data_step. intros E1 E2. rewrite E2, E1. by destruct pl1. Qed.

Lemma data_step_upd_data pl dN f : data_step pl (upd_data dN f pl).
Proof. by destruct pl. Qed.

Lemma data_step_rcache pl pl' :
  data_step pl pl' ->
  rcache pl' = rcache pl
  /\ rcache_wipe_data_N pl' = rcache_wipe_data_N pl
  /\ rcache_wipe_chunk_N pl' = rcache_wipe_chunk_N pl
  /\ lz4_compress pl' = lz4_compress pl.
Proof. intros E. by rewrite E. Qed.

Lemma storage_step_rcache pl pl' :
  storage_step pl pl' ->
  rcache pl' = rcache pl
  /\ rcache_wipe_data_N pl' = rcache_wipe_data_N pl
  /\ rcache_wipe_chunk_N pl' = rcache_wipe_chunk_N pl
  /\ lz4_compress pl' = lz4_compress pl.
Proof. intros [E _]. by apply data_step_rcache. Qed.

(** ** Range cache invalidation touches the range cache only *)

Lemma plotDataRangeCacheWipe_only pl dN kN :
  plotDataRangeCacheWipe pl dN kN
  = set_rcache (rcache (plotDataRangeCacheWipe pl dN kN)) pl.
Proof.
  unfold plotDataRangeCacheWipe, for_range.
  generalize (seqZ 0 (PLOT_RCACHE_SIZE - 0)). intros l.
  assert (Hgen : forall pl0, pl0 = set_rcache (rcache pl0) pl ->
    foldl (fun s N =>
             if decide (RCache.busy (aget (rcache s) N) <> 0
                        /\ RCache.data_N (aget (rcache s) N) = dN)
             then upd_rcache N (fun rc =>
                    RCache.set_cached 0
                      (RCache.set_chunk
                         (aupd (RCache.chunk rc) kN (RChunk.set_computed 0)) rc)) s
             else s) pl0 l
    = set_rcache (rcache (foldl (fun s N =>
             if decide (RCache.busy (aget (rcache s) N) <> 0
                        /\ RCache.data_N (aget (rcache s) N) = dN)
             then upd_rcache N (fun rc =>
                    RCache.set_cached 0
                      (RCache.set_chunk
                         (aupd (RCache.chunk rc) kN (RChunk.set_computed 0)) rc)) s
             else s) pl0 l)) pl).
  { induction l as [|N l IH]; intros pl0 E0; cbn; [done|].
    apply IH. destruct (decide _); [|done].
    rewrite E0. by destruct pl. }
  apply Hgen. by destruct pl.
Qed.

(** ** plotDataInsert: the row is dropped exactly on a null chunk pointer *)

Lemma aget_default {A} `{Inhabited A} (l : list A) (i : Z) :
  ~ 0 <= i < Z.of_nat (length l) -> aget l i = inhabitant.
Proof.
  intros Hi. unfold aget. destruct (decide (0 <= i)); [|done].
  rewrite list_lookup_total_alt, lookup_ge_None_2; [done|lia].
Qed.



Lemma hdr_buf_store d p i v : hdr (buf_store d p i v) = hdr d.
Proof.
  unfold buf_store. destruct p as [k|x]; [|done].
  by destruct (aget (Data.raw d) k).
Qed.

Lemma row_copy_storage pl dN place row cN :
  storage_step pl (row_copy pl dN place row cN).
Proof.
  unfold row_copy. apply storage_step_for_range.
  intros N pl0. unfold row_set. apply storage_step_upd_data.
  intros d. apply hdr_buf_store.
Qed.


(** ** Frame effect of rescaling a slave axis *)

(** C10.  For an axis number in range whose axis is a slave,
    plotAxisScaleManual, plotAxisScaleZoom and plotAxisScaleMove return the
    engine state they were given; plotAxisScaleManual does so as well when
    the axis is free. *)
Theorem slave_axis_rescale_noop (pl : plot_t) (aN origin move : Z)
  (min max zoom : double) :
  0 <= aN < PLOT_AXES_MAX ->
  (Axis.slave (aget (axis pl) aN) <> 0 ->
     plotAxisScaleManual pl aN min max = pl
     /\ plotAxisScaleZoom pl aN origin zoom = pl
     /\ plotAxisScaleMove pl aN move = pl)
  /\ (Axis.busy (aget (axis pl) aN) = AXIS_FREE ->
      plotAxisScaleManual pl aN min max = pl).
Proof.
  intros Hr. split.
  - intros Hs. unfold plotAxisScaleManual, plotAxisScaleZoom, plotAxisScaleMove.
    destruct (decide (aN < 0 \/ aN >= PLOT_AXES_MAX)); [lia|].
    destruct (decide (Axis.slave (aget (axis pl) aN) <> 0)); [|done].
    by destruct (decide (Axis.busy (aget (axis pl) aN) = AXIS_FREE)).
  - intros Hb. unfold plotAxisScaleManual.
    destruct (decide (aN < 0 \/ aN >= PLOT_AXES_MAX)); [lia|].
    by destruct (decide (Axis.busy (aget (axis pl) aN) = AXIS_FREE)).
Qed.

(** *** What a buffer holds after a store *)





(** *** What is written to the log *)


Lemma stderr_plotDataRangeCacheWipe pl dN kN :
  stderr (plotDataRangeCacheWipe pl dN kN) = stderr pl.
Proof. by rewrite plotDataRangeCacheWipe_only. Qed.

Lemma log_step_refl pl : log_step pl pl.
Proof. exists []. by rewrite app_nil_r. Qed.

Lemma log_step_trans pl1 pl2 pl3 :
  log_step pl1 pl2 -> log_step pl2 pl3 -> log_step pl1 pl3.
Proof.
  intros [m1 E1] [m2 E2]. exists (m1 ++ m2). by rewrite E2, E1, app_assoc.
Qed.

Lemma log_step_same pl pl' : stderr pl' = stderr pl -> log_step pl pl'.
Proof. intros E. exists []. by rewrite app_nil_r. Qed.

Lemma log_step_ERROR pl msg : log_step pl (ERROR msg pl).
Proof. by exists [msg]. Qed.


Lemma log_step_upd_data pl dN f : log_step pl (upd_data dN f pl).
Proof. by apply log_step_same. Qed.

Ltac log_step :=
  repeat first
    [ assumption
    | apply log_step_refl
    | (eapply log_step_trans; [|apply log_step_ERROR])
    | (eapply log_step_trans; [|apply log_step_upd_data])
    | solve [eauto using log_step_trans] ].



(** *** The chunk cache at a write *)









(** ** The wipe memo of the range cache *)

(** plotDataRangeCacheWipe, entry by entry. *)
Lemma plotDataRangeCacheWipe_entry pl dN kN N :
  aget (rcache (plotDataRangeCacheWipe pl dN kN)) N
  = let rc := aget (rcache pl) N in
    if decide (0 <= N < PLOT_RCACHE_SIZE
               /\ RCache.busy rc <> 0 /\ RCache.data_N rc = dN)
    then RCache.set_cached 0
           (RCache.set_chunk (aupd (RCache.chunk rc) kN (RChunk.set_computed 0)) rc)
    else rc.
Proof.
  unfold plotDataRangeCacheWipe, for_range.
  assert (HN : 0 <= N < PLOT_RCACHE_SIZE <-> N ∈ seqZ 0 (PLOT_RCACHE_SIZE - 0)).
  { rewrite elem_of_seqZ. lia. }
  revert HN. generalize (NoDup_seqZ 0 (PLOT_RCACHE_SIZE - 0)).
  generalize (seqZ 0 (PLOT_RCACHE_SIZE - 0)). intros ns Hnd HN.
  set (body := fun (s : plot_t) (N : Z) => _).
  assert (Hone : forall s n, aget (rcache (body s n)) N
            = let rc := aget (rcache s) N in
              if decide (n = N /\ RCache.busy rc <> 0 /\ RCache.data_N rc = dN)
              then RCache.set_cached 0
                     (RCache.set_chunk
                        (aupd (RCache.chunk rc) kN (RChunk.set_computed 0)) rc)
              else rc).
  { intros s n. subst body. cbn.
    destruct (decide (n = N)) as [->|Hne].
    - destruct (decide (RCache.busy _ <> 0 /\ _)) as [[Hb Hd]|Hno].
      + rewrite decide_True by done. cbn.
        destruct (decide (0 <= N < Z.of_nat (length (rcache s)))).
        * by rewrite aget_aupd_eq.
        * exfalso. apply Hb. by rewrite aget_default.
      + rewrite decide_False by tauto. done.
    - rewrite (decide_False (P := n = N /\ _)) by tauto.
      destruct (decide _); [|done]. cbn. by apply aget_aupd_ne. }
  clearbody body.
  assert (Hout : forall ns s, N ∉ ns -> aget (rcache (foldl body s ns)) N = aget (rcache s) N).
  { clear -Hone. intros ns. induction ns as [|n ns IH]; intros s Hn; cbn; [done|].
    apply not_elem_of_cons in Hn as [Hne Hn].
    rewrite IH by done. rewrite Hone. cbn.
    rewrite decide_False; [done|]. intros [-> _]. done. }
  cbn. revert pl HN. induction ns as [|n ns IH]; intros pl HN; cbn.
  - rewrite decide_False; [done|]. intros [Hin _].
    apply HN in Hin. by apply elem_of_nil in Hin.
  - apply NoDup_cons in Hnd as [Hn Hnd].
    destruct (decide (n = N)) as [->|Hne].
    + rewrite Hout by done. rewrite Hone. cbn.
      destruct (decide (N = N /\ _)) as [(_ & Hb & Hd)|Hno].
      * rewrite decide_True; [done|]. split_and!; try done; apply HN, elem_of_cons;
          by left.
      * rewrite decide_False; [done|]. tauto.
    + rewrite IH; [|done|].
      * rewrite Hone. cbn. rewrite (decide_False (P := n = N /\ _)) by tauto.
        reflexivity.
      * rewrite HN, elem_of_cons. split; [|by right]. intros [?|?]; [congruence|done].
Qed.

Lemma computed_after_wipe (ch : list RChunk.t) kN :
  RChunk.computed (aget (aupd ch kN (RChunk.set_computed 0)) kN) = 0.
Proof.
  destruct (decide (0 <= kN < Z.of_nat (length ch))).
  - by rewrite aget_aupd_eq.
  - rewrite aget_default; [done|]. by rewrite aupd_length.
Qed.

Lemma plotDataRangeCacheWipe_wiped pl dN kN :
  wiped (plotDataRangeCacheWipe pl dN kN) dN kN.
Proof.
  intros N HN rc. subst rc. rewrite plotDataRangeCacheWipe_entry. cbn.
  destruct (decide _) as [_|Hno]; cbn.
  - intros _ _. split; [apply computed_after_wipe|done].
  - intros Hb Hd. tauto.
Qed.

Lemma plotDataRangeCacheWipe_stays pl dN kN dM kM :
  wiped pl dM kM -> wiped (plotDataRangeCacheWipe pl dN kN) dM kM.
Proof.
  intros Hw N HN rc. subst rc. rewrite plotDataRangeCacheWipe_entry. cbn.
  destruct (decide _) as [_|Hno]; cbn; [|by apply Hw].
  intros Hb Hd. destruct (Hw N HN Hb Hd) as [Hc _]. split; [|done].
  destruct (decide (kN = kM)) as [->|Hne]; [apply computed_after_wipe|].
  by rewrite aget_aupd_ne.
Qed.

Lemma plotDataRangeCacheWipe_wipe_entry pl dN kN N :
  aget (rcache (plotDataRangeCacheWipe pl dN kN)) N = wipe_entry dN kN N (aget (rcache pl) N).
Proof. apply plotDataRangeCacheWipe_entry. Qed.

Lemma wipe_entry_wiped pl pl' dN kN :
  (forall N, aget (rcache pl') N = wipe_entry dN kN N (aget (rcache pl) N)) ->
  wiped pl' dN kN /\ (forall dM kM, wiped pl dM kM -> wiped pl' dM kM).
Proof.
  intros He. split.
  - intros N HN rc. subst rc. rewrite He. unfold wipe_entry.
    destruct (decide _) as [_|Hno]; cbn.
    + intros _ _. split; [apply computed_after_wipe|done].
    + intros Hb Hd. tauto.
  - intros dM kM Hw N HN rc. subst rc. rewrite He. unfold wipe_entry.
    destruct (decide _) as [_|Hno]; cbn; [|by apply Hw].
    intros Hb Hd. destruct (Hw N HN Hb Hd) as [Hc _]. split; [|done].
    destruct (decide (kN = kM)) as [->|Hne]; [apply computed_after_wipe|].
    by rewrite aget_aupd_ne.
Qed.

Lemma plotDataInsert_rcache pl dN row :
  let d := aget (data pl) dN in
  let kN := Z.shiftr (Data.tail_N d) (Data.chunk_SHIFT d) in
  let pl' := plotDataInsert pl dN row in
  rcache_wipe_data_N pl' = dN /\ rcache_wipe_chunk_N pl' = kN
  /\ if decide (rcache_wipe_data_N pl <> dN \/ rcache_wipe_chunk_N pl <> kN)
     then forall N, aget (rcache pl') N = wipe_entry dN kN N (aget (rcache pl) N)
     else rcache pl' = rcache pl.
Proof.
  intros d kN pl'. subst pl'. unfold plotDataInsert. fold d. fold kN.
  set (pl1 := if decide (lz4_compress pl <> 0) then plotDataChunkWrite pl dN kN else pl).
  assert (S1 : storage_step pl pl1).
  { subst pl1. destruct (decide _); [apply plotDataChunkWrite_storage|apply storage_step_refl]. }
  clearbody pl1. apply storage_step_rcache in S1 as (R1 & M1 & M1' & _).
  set (pl2 := if decide (rcache_wipe_data_N pl1 <> dN \/ rcache_wipe_chunk_N pl1 <> kN)
              then _ else pl1).
  assert (H2 : rcache_wipe_data_N pl2 = dN /\ rcache_wipe_chunk_N pl2 = kN
    /\ if decide (rcache_wipe_data_N pl <> dN \/ rcache_wipe_chunk_N pl <> kN)
       then forall N, aget (rcache pl2) N = wipe_entry dN kN N (aget (rcache pl) N)
       else rcache pl2 = rcache pl).
  { subst pl2. rewrite M1, M1'. destruct (decide _) as [Hm|Hm]; cbn.
    - split_and!; try done. intros N.
      by rewrite plotDataRangeCacheWipe_wipe_entry, R1.
    - split_and!; try done; lia. }
  clearbody pl2.
  assert (Hds : forall plx, data_step pl2 plx ->
    rcache_wipe_data_N plx = dN /\ rcache_wipe_chunk_N plx = kN
    /\ if decide (rcache_wipe_data_N pl <> dN \/ rcache_wipe_chunk_N pl <> kN)
       then forall N, aget (rcache plx) N = wipe_entry dN kN N (aget (rcache pl) N)
       else rcache plx = rcache pl).
  { intros plx Hx. apply data_step_rcache in Hx as (Rx & Mx & Mx' & _).
    by rewrite Rx, Mx, Mx'. }
  destruct (raw_ptr (aget (data pl2) dN) kN) as [p|]; [|apply Hds, data_step_refl].
  apply Hds.
  eapply data_step_trans; [|apply data_step_upd_data].
  destruct (decide (Data.head_N d = _));
    repeat (eapply data_step_trans; [|apply data_step_upd_data]);
    apply row_copy_storage.
Qed.

Lemma plotDataWrite_rcache pl dN rN :
  let d := aget (data pl) dN in
  let kN := Z.shiftr rN (Data.chunk_SHIFT d) in
  let pl' := (plotDataWrite pl dN rN).1.1 in
  rN <> Data.tail_N d ->
  rcache_wipe_data_N pl' = dN /\ rcache_wipe_chunk_N pl' = kN
  /\ if decide (rcache_wipe_data_N pl <> dN \/ rcache_wipe_chunk_N pl <> kN)
     then forall N, aget (rcache pl') N = wipe_entry dN kN N (aget (rcache pl) N)
     else rcache pl' = rcache pl.
Proof.
  intros d kN pl' Hr. subst pl'. unfold plotDataWrite. fold d.
  rewrite decide_True by done. fold kN.
  set (pl1 := if decide (lz4_compress pl <> 0) then plotDataChunkWrite pl dN kN else pl).
  assert (S1 : storage_step pl pl1).
  { subst pl1. destruct (decide _); [apply plotDataChunkWrite_storage|apply storage_step_refl]. }
  clearbody pl1. apply storage_step_rcache in S1 as (R1 & M1 & M1' & _).
  set (pl2 := if decide (rcache_wipe_data_N pl1 <> dN \/ rcache_wipe_chunk_N pl1 <> kN)
              then _ else pl1).
  assert (H2 : rcache_wipe_data_N pl2 = dN /\ rcache_wipe_chunk_N pl2 = kN
    /\ if decide (rcache_wipe_data_N pl <> dN \/ rcache_wipe_chunk_N pl <> kN)
       then forall N, aget (rcache pl2) N = wipe_entry dN kN N (aget (rcache pl) N)
       else rcache pl2 = rcache pl).
  { subst pl2. rewrite M1, M1'. destruct (decide _) as [Hm|Hm]; cbn.
    - split_and!; try done. intros N.
      by rewrite plotDataRangeCacheWipe_wipe_entry, R1.
    - split_and!; try done; lia. }
  clearbody pl2.
  by destruct (raw_ptr (aget (data pl2) dN) kN).
Qed.

(** ** Exact arithmetic *)

(** Decides an identity between two [double] expressions that holds in the
    field of rationals, the non-finite value being absorbing on both sides. *)
Ltac fval_ring :=
  repeat match goal with x : double |- _ => destruct x as [x|] end;
  unfold fadd, fsub, fmul, fop2, fval_of_int; try reflexivity;
  f_equal; apply Qred_complete; rewrite ?Qred_correct; ring.

(** ** Search loops *)

Lemma first_index_spec (p : Z -> bool) (from : Z) (cnt : nat) :
  0 <= from ->
  let r := first_index p from cnt in
  (r = -1 /\ forall k, from <= k < from + Z.of_nat cnt -> p k = false)
  \/ (from <= r < from + Z.of_nat cnt /\ p r = true
      /\ forall k, from <= k < r -> p k = false).
Proof.
  revert from. induction cnt as [|cnt IH]; intros from Hf; cbn.
  - left. split; [done|]. lia.
  - destruct (p from) eqn:Ep.
    + right. split; [lia|]. split; [done|]. lia.
    + destruct (IH (from + 1) ltac:(lia)) as [[E Hall]|(Hr & Hp & Hall)].
      * left. split; [done|]. intros k Hk.
        destruct (decide (k = from)) as [->|]; [done|]. apply Hall. lia.
      * right. split; [lia|]. split; [done|]. intros k Hk.
        destruct (decide (k = from)) as [->|]; [done|]. apply Hall. lia.
Qed.

(** ** Slave axes *)

Lemma plotAxisConv_slave pl aN v :
  let a := aget (axis pl) aN in
  let b := aget (axis pl) (Axis.slave_N a) in
  Axis.slave a <> 0 ->
  plotAxisConv pl aN v
  = composeViewport pl (Axis.busy a)
      (v * (Axis.scale a * Axis.scale b)
       + (Axis.offset a * Axis.scale b + Axis.offset b))%F.
Proof.
  intros a b Hs. unfold plotAxisConv, composeViewport. fold a.
  rewrite decide_True by done. fold b.
  generalize (Axis.scale a) (Axis.offset a) (Axis.scale b) (Axis.offset b).
  intros sA oA sB oB.
  destruct (Axis.busy a); [done|fval_ring..].
Qed.

Lemma plotAxisConv_base pl bN w :
  let b := aget (axis pl) bN in
  Axis.slave b = 0 ->
  plotAxisConv pl bN w
  = match Axis.busy b with
    | AXIS_FREE => (w * Axis.scale b + Axis.offset b)%F
    | busy => composeViewport pl busy (w * Axis.scale b + Axis.offset b)%F
    end.
Proof.
  intros b Hs. unfold plotAxisConv, composeViewport. fold b.
  rewrite decide_False by lia.
  generalize (Axis.scale b) (Axis.offset b). intros sB oB.
  destruct (Axis.busy b); [done|fval_ring..].
Qed.



(** ** Conversions of an axis *)

Lemma plotAxisConv_composed pl aN v :
  plotAxisConv pl aN v = (v * fst (axis_composed pl aN) + snd (axis_composed pl aN))%F.
Proof.
  unfold plotAxisConv, axis_composed.
  destruct (decide (Axis.slave _ <> 0)); by destruct (Axis.busy _).
Qed.

Lemma plotAxisConv_free_standing pl aN v :
  let a := aget (axis pl) aN in
  Axis.slave a = 0 ->
  plotAxisConv pl aN v
  = composeViewport pl (Axis.busy a) (v * Axis.scale a + Axis.offset a)%F.
Proof.
  intros a Hs. rewrite plotAxisConv_base by done. fold a. by destruct (Axis.busy a).
Qed.

(** What plotAxisSlave does when it goes through with the request. *)
Lemma plotAxisSlave_done pl aN bN scale offset action :
  let pl' := plotAxisSlave pl aN bN scale offset action in
  let a := aget (axis pl) aN in
  let bN' := if decide (action = AXIS_SLAVE_DISABLE) then Axis.slave_N a else bN in
  let b := aget (axis pl) bN' in
  (axis pl' = axis pl /\ viewport pl' = viewport pl)
  \/ (viewport pl' = viewport pl /\ bN' <> aN /\ Axis.slave b = 0
      /\ axis pl'
         = aupd (axis pl) aN (fun a =>
             match action with
             | AXIS_SLAVE_ENABLE =>
               Axis.set_offset offset
                 (Axis.set_scale scale (Axis.set_slave_N bN (Axis.set_slave 1 a)))
             | AXIS_SLAVE_HOLD_AS_IS =>
               Axis.set_offset ((Axis.offset a - Axis.offset b) / Axis.scale b)%F
                 (Axis.set_scale (Axis.scale a / Axis.scale b)%F
                    (Axis.set_slave_N bN (Axis.set_slave 1 a)))
             | AXIS_SLAVE_DISABLE =>
               Axis.set_offset (Axis.offset a * Axis.scale b + Axis.offset b)%F
                 (Axis.set_scale (Axis.scale a * Axis.scale b)%F (Axis.set_slave 0 a))
             end)
      /\ (action = AXIS_SLAVE_DISABLE <-> Axis.slave a <> 0)).
Proof.
  intros pl' a bN' b. unfold pl', plotAxisSlave.
  destruct (decide (aN < 0 \/ _)) as [|Ha]; [by left|].
  fold a bN'.
  destruct (decide (bN' < 0 \/ _)); [by left|].
  destruct (decide (bN' = aN)) as [|Hne]; [by left|].
  fold b.
  destruct (decide (Axis.slave b <> 0)) as [|Hb]; [by left|].
  destruct (decide (_ >= 0)); [by left|].
  destruct action.
  - destruct (decide (Axis.slave a <> 0)); [|by left].
    right. split_and!; try done; try lia.
  - destruct (decide (Axis.slave a = 0)); [|by left].
    right. split_and!; try done; try lia.
  - destruct (decide (Axis.slave a = 0)); [|by left].
    right. split_and!; try done; try lia.
Qed.

(** X5.  Releasing a slave with AXIS_SLAVE_DISABLE folds the transform of
    its base into its own: the axis converts every value as before, and so
    it does when the request is turned down. *)
Theorem slave_disable_keeps_conversion (pl : plot_t) (aN bN : Z)
  (scale offset v : double) :
  plotAxisConv (plotAxisSlave pl aN bN scale offset AXIS_SLAVE_DISABLE) aN v
  = plotAxisConv pl aN v.
Proof.
  destruct (plotAxisSlave_done pl aN bN scale offset AXIS_SLAVE_DISABLE)
    as [[Ea Ev]|(Ev & Hne & Hb & Ea & Hs)].
  - unfold plotAxisConv. by rewrite Ea, Ev.
  - cbn [decide] in *. rewrite decide_True in * by done.
    destruct (decide (0 <= aN < Z.of_nat (length (axis pl)))) as [Hin|Hout];
      [|unfold aupd in Ea; rewrite aset_oob in Ea by done;
        unfold plotAxisConv; by rewrite Ea, Ev].
    assert (Hsl : Axis.slave (aget (axis pl) aN) <> 0) by (by apply Hs).
    rewrite (plotAxisConv_slave pl) by done.
    rewrite plotAxisConv_free_standing by (rewrite Ea, aget_aupd_eq by done; done).
    unfold composeViewport. rewrite Ev, Ea, aget_aupd_eq by done.
    cbn [Axis.slave Axis.busy Axis.scale Axis.offset Axis.set_scale Axis.set_offset
         Axis.set_slave].
    generalize (Axis.scale (aget (axis pl) aN)) (Axis.offset (aget (axis pl) aN)).
    generalize (Axis.scale (aget (axis pl) (Axis.slave_N (aget (axis pl) aN))))
               (Axis.offset (aget (axis pl) (Axis.slave_N (aget (axis pl) aN)))).
    intros sB oB sA oA. destruct (Axis.busy _); fval_ring.
Qed.

(** ** Rings in plain memory *)

Lemma shiftr_div (r s : Z) : 0 <= s -> Z.shiftr r s = r / 2 ^ s.
Proof. intros. by apply Z.shiftr_div_pow2. Qed.

Lemma land_mod (r s : Z) : 0 <= s -> Z.land r (2 ^ s - 1) = r mod 2 ^ s.
Proof.
  intros Hs. rewrite <- Z.land_ones by done. f_equal.
  rewrite Z.ones_equiv. lia.
Qed.

Lemma aget_in_range {A} `{Inhabited A} (l : list A) (i : Z) :
  aget l i <> inhabitant -> 0 <= i < Z.of_nat (length l).
Proof.
  intros Hne. destruct (decide (0 <= i < Z.of_nat (length l))); [done|].
  by rewrite aget_default in Hne.
Qed.

Lemma aget_aset {A} `{Inhabited A} (l : list A) (i j : Z) (x : A) :
  0 <= i < Z.of_nat (length l) ->
  aget (aset l i x) j = if decide (i = j) then x else aget l j.
Proof.
  intros Hi. destruct (decide (i = j)) as [<-|Hne].
  - by apply aget_aset_eq.
  - by apply aget_aset_ne.
Qed.

Section ring.

Variable d : Data.t.
Hypothesis Hwf : wf_data d.
Hypothesis Hsub : 0 <= PLOT_SUBTRACT.

Let s := Data.chunk_SHIFT d.
Let L := Data.length_N d.
Let W := row_width d.

Lemma wf_chunk r :
  0 <= r < L ->
  exists buf, aget (Data.raw d) (Z.shiftr r s) = Own buf
    /\ W * 2 ^ s <= Z.of_nat (length buf).
Proof.
  intros Hr. destruct Hwf as (Hs & _ & _ & _ & _ & _ & Hall).
  rewrite forallb_forall in Hall.
  assert (Hk : 0 <= Z.shiftr r s <= Z.shiftr (L - 1) s).
  { fold s in Hs. rewrite !shiftr_div by done. split.
    - apply Z.div_pos; lia.
    - apply Z.div_le_mono; lia. }
  specialize (Hall (Z.shiftr r s)). unfold chunk_ok in Hall. fold s L W in Hall.
  destruct (aget (Data.raw d) (Z.shiftr r s)) as [|buf|] eqn:E.
  - exfalso. assert (false = true); [|done]. apply Hall.
    apply list_elem_of_In, elem_of_seqZ. lia.
  - exists buf. split; [done|].
    assert (Hb : bool_decide (W * 2 ^ s ≤ Z.of_nat (length buf)) = true).
    { apply Hall. apply list_elem_of_In, elem_of_seqZ. lia. }
    by apply bool_decide_eq_true in Hb.
  - exfalso. assert (false = true); [|done]. apply Hall.
    apply list_elem_of_In, elem_of_seqZ. lia.
Qed.

Lemma wf_raw_ptr r :
  0 <= r < L -> raw_ptr d (Z.shiftr r s) = Some (InChunk (Z.shiftr r s)).
Proof.
  intros Hr. destruct (wf_chunk r Hr) as (buf & E & _).
  unfold raw_ptr. by rewrite E.
Qed.

Lemma ring_index r :
  0 <= r < L ->
  0 <= W * Z.land r (Data.chunk_MASK d)
  /\ forall c, 0 <= c < W ->
       W * Z.land r (Data.chunk_MASK d) + c < W * 2 ^ s.
Proof.
  intros Hr. destruct Hwf as (Hs & Hm & Hc & _). fold s in Hs, Hm.
  rewrite Hm, land_mod by done.
  assert (0 < 2 ^ s) by (by apply Z.pow_pos_nonneg).
  assert (0 <= r mod 2 ^ s < 2 ^ s) by (by apply Z.mod_pos_bound).
  assert (0 <= W) by (unfold W, row_width; lia).
  split; [nia|]. intros c Hc'. nia.
Qed.

(** Two cells of the ring share no memory. *)
Lemma ring_index_inj r r' c c' :
  0 <= r < L -> 0 <= r' < L -> 0 <= c < W -> 0 <= c' < W ->
  Z.shiftr r s = Z.shiftr r' s ->
  W * Z.land r (Data.chunk_MASK d) + c = W * Z.land r' (Data.chunk_MASK d) + c' ->
  r = r' /\ c = c'.
Proof.
  intros Hr Hr' Hc Hc' Hk Hi.
  destruct Hwf as (Hs & Hm & _). fold s in Hs, Hm.
  rewrite Hm, !land_mod in Hi by done. rewrite !shiftr_div in Hk by done.
  assert (H2 : 0 < 2 ^ s) by (by apply Z.pow_pos_nonneg).
  assert (Hm1 : 0 <= r mod 2 ^ s < 2 ^ s) by (by apply Z.mod_pos_bound).
  assert (Hm2 : 0 <= r' mod 2 ^ s < 2 ^ s) by (by apply Z.mod_pos_bound).
  assert (Em : r mod 2 ^ s = r' mod 2 ^ s /\ c = c').
  { clear Hk. revert Hi Hm1 Hm2.
    generalize (r mod 2 ^ s) (r' mod 2 ^ s). intros a a' Hi _ _.
    destruct (Z.lt_trichotomy a a') as [Hlt|[->|Hlt]]; [nia|lia|nia]. }
  destruct Em as [Em ->]. split; [|done].
  rewrite (Z.div_mod r (2 ^ s)), (Z.div_mod r' (2 ^ s)) by lia. by rewrite Hk, Em.
Qed.

(** A store into a cell of the ring shows in that cell and in no other. *)
Lemma cell_buf_store r c v r' c' :
  0 <= r < L -> 0 <= c < W -> 0 <= r' < L -> 0 <= c' < W ->
  cell (buf_store d (InChunk (Z.shiftr r s))
          (W * Z.land r (Data.chunk_MASK d) + c) v) r' c'
  = if decide (r' = r /\ c' = c) then v else cell d r' c'.
Proof.
  intros Hr Hc Hr' Hc'.
  destruct (wf_chunk r Hr) as (buf & E & Hlen).
  destruct (ring_index r Hr) as [Hi0 Hi]. specialize (Hi c Hc).
  assert (Hk : 0 <= Z.shiftr r s < Z.of_nat (length (Data.raw d))).
  { apply aget_in_range. by rewrite E. }
  unfold cell, buf_store, buf_load. rewrite E.
  cbn [Data.raw Data.set_raw Data.chunk_SHIFT Data.chunk_MASK row_width Data.column_N].
  fold s W. rewrite aget_aset by done.
  destruct (decide (Z.shiftr r s = Z.shiftr r' s)) as [Ek|Hne].
  - rewrite <- Ek, E. rewrite aget_aset by lia.
    destruct (decide (_ = _)) as [Ei|Hni].
    + destruct (ring_index_inj r r' c c' Hr Hr' Hc Hc' Ek Ei) as [-> ->].
      by rewrite decide_True.
    + rewrite decide_False; [done|]. intros [-> ->]. done.
  - rewrite decide_False; [done|]. intros [-> ->]. done.
Qed.

Lemma hdr_buf_store_fields p i v :
  Data.chunk_SHIFT (buf_store d p i v) = Data.chunk_SHIFT d
  /\ Data.chunk_MASK (buf_store d p i v) = Data.chunk_MASK d
  /\ Data.column_N (buf_store d p i v) = Data.column_N d
  /\ Data.length_N (buf_store d p i v) = Data.length_N d
  /\ Data.head_N (buf_store d p i v) = Data.head_N d
  /\ Data.tail_N (buf_store d p i v) = Data.tail_N d
  /\ Data.id_N (buf_store d p i v) = Data.id_N d
  /\ Data.sub_N (buf_store d p i v) = Data.sub_N d
  /\ Data.sub (buf_store d p i v) = Data.sub d.
Proof.
  unfold buf_store. destruct p as [k|x]; [|done].
  by destruct (aget (Data.raw d) k).
Qed.

Lemma chunk_ok_buf_store k i v kN :
  chunk_ok d kN = true -> chunk_ok (buf_store d (InChunk k) i v) kN = true.
Proof.
  unfold chunk_ok, buf_store.
  destruct (aget (Data.raw d) k) as [|buf|] eqn:E; try done.
  cbn [Data.raw Data.set_raw Data.chunk_SHIFT row_width Data.column_N].
  assert (Hk : 0 <= k < Z.of_nat (length (Data.raw d))).
  { apply aget_in_range. by rewrite E. }
  rewrite aget_aset by done. destruct (decide (k = kN)) as [<-|]; [|done].
  rewrite E. by rewrite aset_length.
Qed.

Lemma wf_buf_store k i v : wf_data (buf_store d (InChunk k) i v).
Proof.
  destruct (hdr_buf_store_fields (InChunk k) i v)
    as (Es & Em & Ec & El & Eh & Et & _).
  unfold wf_data. rewrite Es, Em, Ec, El, Eh, Et.
  destruct Hwf as (? & ? & ? & ? & ? & ? & Hall).
  split; [done|]. split; [done|]. split; [done|]. split; [done|].
  split; [done|]. split; [done|].
  apply forallb_forall. intros kN HkN. apply chunk_ok_buf_store.
  rewrite forallb_forall in Hall. by apply Hall.
Qed.

End ring.

(** *** Ring arithmetic *)

Lemma mod_wrap (x L : Z) :
  0 < L -> - L <= x < 2 * L ->
  x mod L = if decide (x < 0) then x + L else if decide (x < L) then x else x - L.
Proof.
  intros HL Hx. destruct (decide (x < 0)); [|destruct (decide (x < L))].
  - rewrite <- (Z.mod_add x 1 L) by lia. rewrite Z.mul_1_l. apply Z.mod_small. lia.
  - apply Z.mod_small. lia.
  - replace x with (x - L + 1 * L) at 1 by lia.
    rewrite Z.mod_add by lia. apply Z.mod_small. lia.
Qed.

Lemma ring_next_mod d r :
  2 <= Data.length_N d -> 0 <= r < Data.length_N d ->
  ring_next d r = (r + 1) mod Data.length_N d.
Proof.
  intros HL Hr. unfold ring_next. rewrite mod_wrap by lia.
  repeat destruct (decide _); lia.
Qed.

Lemma ring_dist_cases d r :
  wf_data d -> 0 <= r < Data.length_N d ->
  ring_dist d r
  = if decide (r <= Data.tail_N d) then Data.tail_N d - r
    else Data.tail_N d - r + Data.length_N d.
Proof.
  intros (_ & _ & _ & HL & _ & Ht & _) Hr. unfold ring_dist.
  rewrite mod_wrap by lia. repeat destruct (decide _); lia.
Qed.

Lemma ring_dist_range d r :
  wf_data d -> 0 <= r < Data.length_N d -> 0 <= ring_dist d r < Data.length_N d.
Proof.
  intros Hwf Hr. destruct Hwf as (_ & _ & _ & HL & _). unfold ring_dist.
  apply Z.mod_pos_bound. lia.
Qed.

Lemma ring_dist_next d r :
  wf_data d -> 0 <= r < Data.length_N d -> r <> Data.tail_N d ->
  0 <= ring_next d r < Data.length_N d
  /\ ring_dist d (ring_next d r) = ring_dist d r - 1.
Proof.
  intros Hwf Hr Hne. pose proof Hwf as (_ & _ & _ & HL & _ & Ht & _).
  assert (Hn : 0 <= ring_next d r < Data.length_N d).
  { unfold ring_next. destruct (decide _); lia. }
  split; [done|]. rewrite !ring_dist_cases by done.
  unfold ring_next in *. repeat destruct (decide _); lia.
Qed.

(** *** Readers *)

Lemma plotDataGet_tail pl dN :
  plotDataGet pl dN (Data.tail_N (aget (data pl) dN))
  = (pl, None, Data.tail_N (aget (data pl) dN)).
Proof. unfold plotDataGet. by rewrite decide_False by (intros ?; done). Qed.

Lemma plotDataGet_ring pl dN r :
  let d := aget (data pl) dN in
  wf_plot pl dN -> 0 <= r < Data.length_N d -> r <> Data.tail_N d ->
  plotDataGet pl dN r
  = (pl,
     Some (InChunk (Z.shiftr r (Data.chunk_SHIFT d)),
           row_width d * Z.land r (Data.chunk_MASK d)),
     ring_next d r).
Proof.
  intros d (Hlz & Hsub & HdN & Hwf) Hr Hne. unfold plotDataGet. fold d.
  rewrite decide_True by done. rewrite decide_False by lia. fold d.
  by rewrite (wf_raw_ptr d Hwf r Hr).
Qed.

Lemma plotDataRows_ring fuel pl dN r id_N :
  let d := aget (data pl) dN in
  wf_plot pl dN -> 0 <= r < Data.length_N d ->
  ring_dist d r < Z.of_nat fuel ->
  plotDataRows fuel pl dN r id_N
  = Some (ring_rows d r (Z.to_nat (ring_dist d r)) id_N).
Proof.
  intros d Hwf. pose proof Hwf as (_ & _ & _ & Hd).
  pose proof Hd as (_ & _ & _ & HL & _).
  revert r id_N. induction fuel as [|fuel IH]; intros r id_N Hr Hfuel.
  { pose proof (ring_dist_range d r Hd Hr). lia. }
  cbn [plotDataRows]. destruct (decide (r = Data.tail_N d)) as [->|Hne].
  - fold d. rewrite plotDataGet_tail.
    replace (ring_dist d (Data.tail_N d)) with 0; [done|].
    unfold ring_dist. by rewrite Z.sub_diag, Z.mod_0_l by lia.
  - rewrite plotDataGet_ring by done. fold d.
    destruct (ring_dist_next d r Hd Hr Hne) as [Hn En].
    pose proof (ring_dist_range d r Hd Hr) as Hrange.
    pose proof (ring_dist_range d _ Hd Hn) as Hrange'.
    rewrite IH by (done || lia). cbn [mbind option_bind].
    f_equal. replace (Z.to_nat (ring_dist d r))
      with (S (Z.to_nat (ring_dist d (ring_next d r)))) by lia.
    unfold ring_rows. cbn [seq map]. f_equal.
    + f_equal; [lia|]. rewrite Z.add_0_r, Z.mod_small by lia. done.
    + rewrite <- seq_shift, map_map. apply map_ext. intros i.
      f_equal; [lia|]. f_equal. f_equal.
      rewrite ring_next_mod by done.
      rewrite Zplus_mod_idemp_l. f_equal. lia.
Qed.

(** *** Writers *)

Lemma ring_step_refl dN pl : ring_step dN pl pl.
Proof. by split_and!. Qed.

Lemma ring_step_trans dN pl1 pl2 pl3 :
  ring_step dN pl1 pl2 -> ring_step dN pl2 pl3 -> ring_step dN pl1 pl3.
Proof.
  intros (E1 & E2 & E3) (F1 & F2 & F3). split_and!; [congruence..|].
  intros dM HdM. by rewrite F3, E3.
Qed.

Lemma ring_step_same dN pl pl' :
  data pl' = data pl -> lz4_compress pl' = lz4_compress pl -> ring_step dN pl pl'.
Proof. intros E1 E2. split_and!; [done|by rewrite E1|]. intros dM _. by rewrite E1. Qed.

Lemma ring_step_upd_data dN f pl : ring_step dN pl (upd_data dN f pl).
Proof.
  split_and!; [done|apply aupd_length|]. intros dM HdM.
  cbn. by rewrite aget_aupd_ne.
Qed.

Lemma wf_plot_same pl pl' dN :
  data pl' = data pl -> lz4_compress pl' = lz4_compress pl ->
  wf_plot pl dN -> wf_plot pl' dN.
Proof. intros E1 E2 (? & ? & ? & ?). unfold wf_plot. by rewrite E1, E2. Qed.

(** The invalidation both writers start with leaves the datasets alone. *)
Lemma wipe_memo_same pl dN kN :
  let pl' :=
    if decide (rcache_wipe_data_N pl <> dN \/ rcache_wipe_chunk_N pl <> kN) then
      set_rcache_wipe_chunk_N kN
        (set_rcache_wipe_data_N dN (plotDataRangeCacheWipe pl dN kN))
    else pl in
  data pl' = data pl /\ lz4_compress pl' = lz4_compress pl.
Proof.
  cbv zeta. destruct (decide _); [|done].
  rewrite plotDataRangeCacheWipe_only. done.
Qed.

Lemma wf_data_hdr d d' :
  wf_data d -> Data.raw d' = Data.raw d -> Data.chunk_SHIFT d' = Data.chunk_SHIFT d ->
  Data.chunk_MASK d' = Data.chunk_MASK d -> Data.column_N d' = Data.column_N d ->
  Data.length_N d' = Data.length_N d ->
  0 <= Data.head_N d' < Data.length_N d -> 0 <= Data.tail_N d' < Data.length_N d ->
  wf_data d'.
Proof.
  intros (? & ? & ? & ? & ? & ? & Hall) Er Es Em Ec El Hh Ht.
  unfold wf_data. rewrite Es, Em, Ec, El.
  split; [done|]. split; [done|]. split; [done|]. split; [done|].
  split; [done|]. split; [done|].
  rewrite forallb_forall in *. intros k Hk. specialize (Hall k Hk).
  unfold chunk_ok, row_width in *. by rewrite Er, Ec, Es.
Qed.


Lemma row_set_ring pl dN t c v :
  let d := aget (data pl) dN in
  let pl' :=
    row_set pl dN
      (InChunk (Z.shiftr t (Data.chunk_SHIFT d)),
       row_width d * Z.land t (Data.chunk_MASK d)) c v in
  let d' := aget (data pl') dN in
  wf_plot pl dN -> 0 <= t < Data.length_N d -> 0 <= c < row_width d ->
  wf_plot pl' dN /\ ring_step dN pl pl' /\ hdr d' = hdr d
  /\ pl' = set_data (data pl') pl
  /\ forall r' c', 0 <= r' < Data.length_N d -> 0 <= c' < row_width d ->
       cell d' r' c' = if decide (r' = t /\ c' = c) then v else cell d r' c'.
Proof.
  intros d pl' d' (Hlz & Hsub & HdN & Hwf) Ht Hc.
  assert (Ed : d' = buf_store d (InChunk (Z.shiftr t (Data.chunk_SHIFT d)))
                 (row_width d * Z.land t (Data.chunk_MASK d) + c) v).
  { unfold d', pl', row_set. cbn. by rewrite aget_aupd_eq. }
  split; [|split; [|split; [|split]]].
  - split; [done|]. split; [done|]. split.
    + unfold pl', row_set. cbn. by rewrite aupd_length.
    + fold d'. rewrite Ed. by apply wf_buf_store.
  - apply ring_step_upd_data.
  - rewrite Ed. apply hdr_buf_store.
  - done.
  - intros r' c' Hr' Hc'. rewrite Ed. by apply cell_buf_store.
Qed.

Lemma hdr_fields d d' :
  hdr d' = hdr d ->
  Data.column_N d' = Data.column_N d /\ Data.length_N d' = Data.length_N d
  /\ Data.head_N d' = Data.head_N d /\ Data.tail_N d' = Data.tail_N d
  /\ Data.id_N d' = Data.id_N d /\ Data.sub_N d' = Data.sub_N d
  /\ Data.chunk_SHIFT d' = Data.chunk_SHIFT d /\ Data.chunk_MASK d' = Data.chunk_MASK d
  /\ Data.sub d' = Data.sub d /\ row_width d' = row_width d.
Proof.
  unfold hdr, row_width. intros [= -> -> -> -> -> -> -> -> _ ->]. done.
Qed.

Lemma row_copy_ring pl dN t row cN :
  let d := aget (data pl) dN in
  let pl' :=
    row_copy pl dN
      (InChunk (Z.shiftr t (Data.chunk_SHIFT d)),
       row_width d * Z.land t (Data.chunk_MASK d)) row cN in
  let d' := aget (data pl') dN in
  wf_plot pl dN -> 0 <= t < Data.length_N d -> cN <= row_width d ->
  wf_plot pl' dN /\ ring_step dN pl pl' /\ hdr d' = hdr d
  /\ pl' = set_data (data pl') pl
  /\ forall r' c', 0 <= r' < Data.length_N d -> 0 <= c' < row_width d ->
       cell d' r' c'
       = if decide (r' = t /\ c' < cN) then aget row c' else cell d r' c'.
Proof.
  intros d pl' d' Hwf Ht HcN.
  assert (Hgen : forall l pl0,
    wf_plot pl0 dN -> hdr (aget (data pl0) dN) = hdr d ->
    Forall (fun c => 0 <= c < row_width d) l ->
    let pl1 :=
      foldl (fun s N =>
               row_set s dN
                 (InChunk (Z.shiftr t (Data.chunk_SHIFT d)),
                  row_width d * Z.land t (Data.chunk_MASK d)) N (aget row N)) pl0 l in
    wf_plot pl1 dN /\ ring_step dN pl0 pl1
    /\ hdr (aget (data pl1) dN) = hdr d
    /\ pl1 = set_data (data pl1) pl0
    /\ forall r' c', 0 <= r' < Data.length_N d -> 0 <= c' < row_width d ->
         cell (aget (data pl1) dN) r' c'
         = if decide (r' = t /\ c' ∈ l) then aget row c'
           else cell (aget (data pl0) dN) r' c').
  { induction l as [|c l IH]; intros pl0 Hwf0 Hh0 Hl; cbn [foldl].
    - split; [done|]. split; [apply ring_step_refl|]. split; [done|].
      split; [by destruct pl0|]. intros r' c' _ _.
      rewrite decide_False; [done|]. intros [_ Hin]. by apply elem_of_nil in Hin.
    - apply Forall_cons in Hl as [Hc Hl].
      destruct (hdr_fields _ _ Hh0) as (Ec & EL & _ & _ & _ & _ & Es & Em & _ & EW).
      pose proof (row_set_ring pl0 dN t c (aget row c)) as Hstep.
      cbv zeta in Hstep. rewrite Es, Em, EW, EL in Hstep.
      destruct (Hstep Hwf0 Ht Hc) as (Hwf1 & Hrs & Hh1 & Epl & Hcell).
      set (pl1 := row_set pl0 dN _ c (aget row c)) in *.
      destruct (IH pl1 Hwf1 ltac:(by rewrite Hh1) Hl)
        as (Hwf2 & Hrs2 & Hh2 & Epl2 & Hcell2).
      split; [done|]. split; [by eapply ring_step_trans|]. split; [done|].
      split; [rewrite Epl2 at 1; rewrite Epl; by destruct pl0|].
      intros r' c' Hr' Hc'. rewrite Hcell2, Hcell by done.
      destruct (decide (r' = t /\ c' ∈ l)) as [[-> Hin]|Hnin].
      + rewrite decide_True; [done|]. split; [done|]. apply elem_of_cons; by right.
      + destruct (decide (r' = t /\ c' = c)) as [[-> ->]|Hne].
        * rewrite decide_True; [done|]. split; [done|]. apply elem_of_cons; by left.
        * rewrite decide_False; [done|]. intros [-> Hin].
          apply elem_of_cons in Hin as [->|Hin]; tauto. }
  destruct (Hgen (seqZ 0 (cN - 0)) pl Hwf eq_refl) as (H1 & H2 & H3 & H4 & H5).
  { apply Forall_seqZ. intros c Hc. lia. }
  split; [done|]. split; [done|]. split; [done|]. split; [done|].
  intros r' c' Hr' Hc'. unfold d', pl', row_copy, for_range. rewrite H5 by done.
  destruct (decide (r' = t /\ c' < cN)) as [[-> Hlt]|Hn].
  - rewrite decide_True; [done|]. split; [done|]. apply elem_of_seqZ. lia.
  - rewrite decide_False; [done|]. intros [-> Hin]. apply elem_of_seqZ in Hin.
    apply Hn. split; [done|lia].
Qed.

Lemma plotDataInsert_ring pl dN row :
  let d := aget (data pl) dN in
  let pl' := plotDataInsert pl dN row in
  let d' := aget (data pl') dN in
  let full := bool_decide (ring_next d (Data.tail_N d) = Data.head_N d) in
  wf_plot pl dN ->
  wf_plot pl' dN /\ ring_step dN pl pl'
  /\ Data.column_N d' = Data.column_N d /\ Data.length_N d' = Data.length_N d
  /\ Data.chunk_SHIFT d' = Data.chunk_SHIFT d /\ Data.chunk_MASK d' = Data.chunk_MASK d
  /\ Data.sub d' = Data.sub d
  /\ Data.tail_N d' = ring_next d (Data.tail_N d)
  /\ Data.head_N d' = (if full then ring_next d (Data.head_N d) else Data.head_N d)
  /\ Data.id_N d' = (if full then Data.id_N d + 1 else Data.id_N d)
  /\ Data.sub_N d'
     = (if full then
          if decide (Data.sub_N d = ring_next d (Data.tail_N d))
          then ring_next d (Data.head_N d) else Data.sub_N d
        else Data.sub_N d)
  /\ forall r c, 0 <= r < Data.length_N d -> 0 <= c < row_width d ->
       cell d' r c
       = if decide (r = Data.tail_N d /\ c < Data.column_N d) then aget row c
         else cell d r c.
Proof.
  intros d pl' d' full Hwf. pose proof Hwf as (Hlz & Hsub & HdN & Hd).
  fold d in Hd. pose proof Hd as (Hs & Hm & Hc & HL & Hh & Ht & _).
  unfold d', pl', plotDataInsert. clear d' pl'. fold d.
  rewrite (decide_False (P := lz4_compress pl <> 0)) by lia.
  pose proof (wipe_memo_same pl dN (Z.shiftr (Data.tail_N d) (Data.chunk_SHIFT d)))
    as Hw. cbv zeta in Hw.
  set (pl1 := if decide (rcache_wipe_data_N pl <> dN \/ _) then _ else pl) in *.
  destruct Hw as [Ed1 Elz1].
  assert (Hwf1 : wf_plot pl1 dN) by (by apply (wf_plot_same pl)).
  clearbody pl1.
  rewrite Ed1. fold d. rewrite (wf_raw_ptr d Hd (Data.tail_N d) Ht).
  pose proof (row_copy_ring pl1 dN (Data.tail_N d) row (Data.column_N d)) as Hrc.
  cbv zeta in Hrc. rewrite Ed1 in Hrc. fold d in Hrc.
  destruct (Hrc Hwf1 Ht ltac:(unfold row_width; lia))
    as (Hwf2 & Hrs2 & Hh2 & Epl2 & Hcell2). clear Hrc.
  change (Data.column_N d + PLOT_SUBTRACT) with (row_width d).
  set (pl2 := row_copy pl1 dN _ row (Data.column_N d)) in *.
  set (d2 := aget (data pl2) dN) in *.
  destruct (hdr_fields _ _ Hh2) as (Ec2 & EL2 & Eh2 & Et2 & Ei2 & Esn2 & Es2 & Em2 & Esub2 & EW2).
  assert (HdN2 : 0 <= dN < Z.of_nat (length (data pl2))) by apply Hwf2.
  fold (ring_next d (Data.tail_N d)). fold (ring_next d (Data.head_N d)).
  assert (Hnt : 0 <= ring_next d (Data.tail_N d) < Data.length_N d).
  { unfold ring_next. destruct (decide (_ < _)); lia. }
  assert (Hnh : 0 <= ring_next d (Data.head_N d) < Data.length_N d).
  { unfold ring_next. destruct (decide (_ < _)); lia. }
  unfold full. destruct (decide (Data.head_N d = ring_next d (Data.tail_N d))) as [Ef|Ef].
  - rewrite bool_decide_eq_true_2 by done.
    cbn [data upd_data set_data].
    rewrite !aget_aupd_eq by (rewrite ?aupd_length; lia).
    cbn [Data.sub_N Data.set_head_N Data.set_id_N Data.set_sub_N Data.set_tail_N
         Data.column_N Data.length_N Data.chunk_SHIFT Data.chunk_MASK Data.sub
         Data.tail_N Data.head_N Data.id_N].
    fold d2. rewrite Ec2, EL2, Es2, Em2, Esub2, Ei2, Esn2.
    split.
    { destruct Hwf2 as (Hlz2 & _ & _ & Hd2).
      split; [exact Hlz2|]. split; [done|].
      split; [cbn [data upd_data set_data]; rewrite !aupd_length; lia|].
      cbn [data upd_data set_data].
      rewrite !aget_aupd_eq by (rewrite ?aupd_length; lia).
      eapply (wf_data_hdr d2); [exact Hd2|done..|cbn; fold d2; lia|cbn; fold d2; lia]. }
    split.
    { eapply ring_step_trans; [by apply ring_step_same|].
      eapply ring_step_trans; [exact Hrs2|].
      do 3 (eapply ring_step_trans; [|apply ring_step_upd_data]).
      apply ring_step_upd_data. }
    by split_and!.
  - rewrite bool_decide_eq_false_2 by done.
    cbn [data upd_data set_data].
    rewrite !aget_aupd_eq by (rewrite ?aupd_length; lia).
    cbn [Data.sub_N Data.set_head_N Data.set_id_N Data.set_sub_N Data.set_tail_N
         Data.column_N Data.length_N Data.chunk_SHIFT Data.chunk_MASK Data.sub
         Data.tail_N Data.head_N Data.id_N].
    fold d2. rewrite Ec2, EL2, Es2, Em2, Esub2, Ei2, Esn2, Eh2.
    split.
    { destruct Hwf2 as (Hlz2 & _ & _ & Hd2).
      split; [exact Hlz2|]. split; [done|].
      split; [cbn [data upd_data set_data]; rewrite !aupd_length; lia|].
      cbn [data upd_data set_data].
      rewrite !aget_aupd_eq by (rewrite ?aupd_length; lia).
      eapply (wf_data_hdr d2); [exact Hd2|done..|cbn; fold d2; lia|cbn; fold d2; lia]. }
    split.
    { eapply ring_step_trans; [by apply ring_step_same|].
      eapply ring_step_trans; [exact Hrs2|].
      apply ring_step_upd_data. }
    by split_and!.
Qed.

(** *** The valid rows *)

Lemma ring_pos (L h t i : Z) :
  0 <= h < L -> 0 <= t < L -> 0 <= i < L ->
  (h + i) mod L = t <-> i = (t - h) mod L.
Proof.
  intros Hh Ht Hi. rewrite !mod_wrap by lia. repeat destruct (decide _); lia.
Qed.

Lemma aget_map_seqZ {A} `{Inhabited A} (f : Z -> A) (n c : Z) :
  0 <= c < n -> aget (map f (seqZ 0 n)) c = f c.
Proof.
  intros Hc. unfold aget. rewrite decide_True by lia.
  apply list_lookup_total_correct.
  change (map f (seqZ 0 n)) with (f <$> seqZ 0 n).
  rewrite list_lookup_fmap. rewrite lookup_seqZ_lt by lia. cbn. f_equal. f_equal. lia.
Qed.

Lemma ring_rows_length d r n id_N : length (ring_rows d r n id_N) = n.
Proof. unfold ring_rows. by rewrite length_map, length_seq. Qed.

Lemma ring_rows_ids d r n id_N :
  map fst (ring_rows d r n id_N) = seqZ id_N (Z.of_nat n).
Proof.
  unfold ring_rows, seqZ. rewrite map_map, Nat2Z.id. apply map_ext.
  intros i. cbn. lia.
Qed.

Lemma ring_rows_S d r n id_N :
  ring_rows d r (S n) id_N
  = ring_rows d r n id_N
    ++ [(id_N + Z.of_nat n,
         map (cell d ((r + Z.of_nat n) mod Data.length_N d)) (seqZ 0 (row_width d)))].
Proof. unfold ring_rows. by rewrite seq_S, map_app. Qed.

Lemma ring_rows_drop d r n id_N :
  2 <= Data.length_N d -> 0 <= r < Data.length_N d ->
  drop 1 (ring_rows d r (S n) id_N) = ring_rows d (ring_next d r) n (id_N + 1).
Proof.
  intros HL Hr. unfold ring_rows. cbn [seq map drop].
  rewrite <- seq_shift, map_map. apply map_ext. intros i.
  f_equal; [lia|]. f_equal. f_equal. rewrite ring_next_mod by done.
  rewrite Zplus_mod_idemp_l. f_equal. lia.
Qed.

(** Rows that are the same cell by cell. *)
Lemma ring_rows_ext d d' r n id_N :
  Data.length_N d' = Data.length_N d -> row_width d' = row_width d ->
  (forall i c, 0 <= i < Z.of_nat n -> 0 <= c < row_width d ->
     cell d' ((r + i) mod Data.length_N d) c = cell d ((r + i) mod Data.length_N d) c) ->
  ring_rows d' r n id_N = ring_rows d r n id_N.
Proof.
  intros EL EW Hc. unfold ring_rows. rewrite EL, EW.
  apply map_ext_in. intros i Hi. apply in_seq in Hi. f_equal.
  apply map_ext_in. intros c Hin. apply list_elem_of_In, elem_of_seqZ in Hin.
  apply Hc; lia.
Qed.

Lemma valid_rows_ring fuel pl dN :
  let d := aget (data pl) dN in
  wf_plot pl dN -> Data.length_N d <= Z.of_nat fuel ->
  valid_rows fuel pl dN
  = Some (ring_rows d (Data.head_N d) (Z.to_nat (ring_dist d (Data.head_N d)))
            (Data.id_N d)).
Proof.
  intros d Hwf Hfuel. unfold valid_rows. fold d.
  pose proof Hwf as (_ & _ & _ & Hd). fold d in Hd.
  pose proof Hd as (_ & _ & _ & _ & Hh & _).
  pose proof (ring_dist_range d _ Hd Hh).
  apply plotDataRows_ring; [done|done|]. fold d. lia.
Qed.

(** X7.  Reading a ring in plain memory from [head_N] with plotDataGet
    comes to an end within [length_N] rows.  It yields as many rows as
    plotDataSpaceLeft leaves out of [length_N], at most [length_N - 1]; they
    carry the logical ids from [id_N] on, one after the other, and every row
    has all its [column_N + PLOT_SUBTRACT] cells. *)
Theorem valid_rows_count (pl : plot_t) (dN : Z) (fuel : nat) :
  let d := aget (data pl) dN in
  wf_plot pl dN -> Data.length_N d <= Z.of_nat fuel ->
  exists rows,
    valid_rows fuel pl dN = Some rows
    /\ Z.of_nat (length rows) = Data.length_N d - plotDataSpaceLeft pl dN
    /\ Z.of_nat (length rows) <= Data.length_N d - 1
    /\ map fst rows = seqZ (Data.id_N d) (Z.of_nat (length rows))
    /\ Forall (fun row => Z.of_nat (length (snd row)) = row_width d) rows.
Proof.
  intros d Hwf Hfuel. eexists. split; [by apply valid_rows_ring|]. fold d.
  pose proof Hwf as (_ & Hsub & _ & Hd). fold d in Hd.
  pose proof Hd as (_ & _ & Hc & HL & Hh & Ht & _).
  pose proof (ring_dist_range d _ Hd Hh) as Hr.
  rewrite ring_rows_length, ring_rows_ids.
  split; [|split; [|split; [done|]]].
  - unfold plotDataSpaceLeft. fold d. rewrite ring_dist_cases in * by done.
    repeat destruct (decide _); lia.
  - lia.
  - unfold ring_rows. apply Forall_forall. intros row Hin.
    apply list_elem_of_In, in_map_iff in Hin as (i & <- & _). cbn.
    rewrite length_map, length_seqZ. unfold row_width. lia.
Qed.

(** X8.  plotDataInsert on a ring in plain memory appends the row, with the
    logical id after the last one, and keeps the rows that were there, cell
    by cell; when the ring already held [length_N - 1] rows, and only then,
    the oldest row goes.  The columns of the dataset take the values given;
    the ring stays well formed. *)
Theorem ring_insert (pl : plot_t) (dN : Z) (row : list fval_t) (fuel : nat) :
  let d := aget (data pl) dN in
  let pl' := plotDataInsert pl dN row in
  wf_plot pl dN -> Data.length_N d <= Z.of_nat fuel ->
  exists rows cells,
    valid_rows fuel pl dN = Some rows
    /\ valid_rows fuel pl' dN
       = Some ((if decide (Z.of_nat (length rows) = Data.length_N d - 1)
                then drop 1 rows else rows)
               ++ [(Data.id_N d + Z.of_nat (length rows), cells)])
    /\ Z.of_nat (length cells) = row_width d
    /\ (forall c, 0 <= c < Data.column_N d -> aget cells c = aget row c)
    /\ wf_plot pl' dN.
Proof.
  intros d pl' Hwf Hfuel.
  pose proof Hwf as (_ & Hsub & _ & Hd). fold d in Hd.
  pose proof Hd as (_ & _ & Hc & HL & Hh & Ht & _).
  destruct (plotDataInsert_ring pl dN row Hwf)
    as (Hwf' & _ & Ec & EL & Es & Em & _ & Et' & Eh' & Ei' & _ & Hcell).
  fold d pl' in Hwf', Ec, EL, Es, Em, Et', Eh', Ei', Hcell.
  set (d' := aget (data pl') dN) in *.
  assert (EW : row_width d' = row_width d) by (unfold row_width; by rewrite Ec).
  set (n := Z.to_nat (ring_dist d (Data.head_N d))).
  pose proof (ring_dist_range d _ Hd Hh) as Hn.

  pose proof (ring_dist_cases d _ Hd Hh) as Hdist.
  exists (ring_rows d (Data.head_N d) n (Data.id_N d)),
         (map (cell d' (Data.tail_N d)) (seqZ 0 (row_width d))).
  split; [by apply valid_rows_ring|].
  assert (En : Z.of_nat n = ring_dist d (Data.head_N d)) by (unfold n; lia).
  clearbody n.
  assert (Hlast : (Data.head_N d + Z.of_nat n) mod Data.length_N d = Data.tail_N d).
  { apply ring_pos; [done|done|lia|]. by rewrite En. }
  assert (Hkeep : forall i c, 0 <= i < Z.of_nat n -> 0 <= c < row_width d ->
            cell d' ((Data.head_N d + i) mod Data.length_N d) c
            = cell d ((Data.head_N d + i) mod Data.length_N d) c).
  { intros i c Hi Hc'. rewrite Hcell by (done || apply Z.mod_pos_bound; lia).
    rewrite decide_False; [done|]. intros [Ep _].
    apply ring_pos in Ep; [|done|done|lia]. fold (ring_dist d (Data.head_N d)) in Ep. lia. }
  split; [|split; [|split; [|done]]].
  - rewrite valid_rows_ring by (done || fold pl' d'; lia). fold pl' d'.
    rewrite ring_rows_length. f_equal.
    assert (Hd' : wf_data d') by apply Hwf'.
    assert (Hh' : 0 <= Data.head_N d' < Data.length_N d') by apply Hd'.
    pose proof (ring_dist_cases d' _ Hd' Hh') as Hdist'.
    rewrite Et', EL in Hdist'.
    assert (Efull : Z.of_nat n = Data.length_N d - 1
                    <-> ring_next d (Data.tail_N d) = Data.head_N d).
    { unfold ring_next. repeat destruct (decide _); lia. }
    destruct (decide (Z.of_nat n = Data.length_N d - 1)) as [Ef|Hnf].
    + rewrite bool_decide_eq_true_2 in * by (by apply Efull).
      replace (Z.to_nat (ring_dist d' (Data.head_N d'))) with n
        by (rewrite Hdist', Eh'; unfold ring_next; repeat destruct (decide _); lia).
      rewrite Eh', Ei'.
      destruct n as [|m]; [lia|].
      rewrite ring_rows_drop by done. rewrite ring_rows_S.
      rewrite EL, EW.
      assert (Hnh : ring_next d (Data.head_N d)
                    = (Data.head_N d + 1) mod Data.length_N d)
        by (by apply ring_next_mod).
      f_equal.
      * apply ring_rows_ext; [done|done|]. intros i c Hi Hc'.
        rewrite Hnh, Zplus_mod_idemp_l, <- Z.add_assoc. apply Hkeep; lia.
      * f_equal. f_equal; [lia|]. f_equal. f_equal.
        rewrite <- Hlast, Hnh, Zplus_mod_idemp_l. f_equal. lia.
    + rewrite bool_decide_eq_false_2 in * by (by rewrite <- Efull).
      replace (Z.to_nat (ring_dist d' (Data.head_N d'))) with (S n)
        by (rewrite Hdist', Eh'; unfold ring_next; repeat destruct (decide _); lia).
      rewrite Eh', Ei'.
      rewrite ring_rows_S, EL, EW. f_equal.
      * by apply ring_rows_ext.
      * by rewrite Hlast.
  - rewrite length_map, length_seqZ. unfold row_width. lia.
  - intros c Hc'. rewrite aget_map_seqZ by (unfold row_width; lia).
    rewrite Hcell by (done || unfold row_width; lia).
    rewrite decide_True; [done|]. split; [done|lia].
Qed.

(** *** Cursors *)

Lemma ring_off_cases d r :
  wf_data d -> 0 <= r < Data.length_N d ->
  ring_off d r
  = if decide (r - Data.head_N d < 0) then r - Data.head_N d + Data.length_N d
    else r - Data.head_N d.
Proof.
  intros (_ & _ & _ & HL & Hh & _) Hr. unfold ring_off.
  rewrite mod_wrap by lia. repeat destruct (decide _); lia.
Qed.

(** plotDataSkip on the integers: where the cursor comes to rest. *)
Lemma plotDataSkip_offset (pl : plot_t) (dN rN id_N sk_N : Z) :
  let d := aget (data pl) dN in
  let rN' := fst (plotDataSkip pl dN rN id_N sk_N) in
  let id_N' := snd (plotDataSkip pl dN rN id_N sk_N) in
  wf_data d -> 0 <= rN < Data.length_N d ->
  0 <= rN' < Data.length_N d
  /\ ring_off d rN'
     = Z.min (ring_off d (Data.tail_N d)) (Z.max 0 (ring_off d rN + sk_N))
  /\ id_N' - id_N = ring_off d rN' - ring_off d rN.
Proof.
  intros d rN' id_N' Hd Hr. pose proof Hd as (_ & _ & _ & HL & Hh & Ht & _).
  pose proof (ring_off_cases d rN Hd Hr) as Eo.
  pose proof (ring_off_cases d _ Hd Ht) as Et.
  assert (Hr' : 0 <= rN' < Data.length_N d).
  { unfold rN', plotDataSkip. fold d. cbn [fst]. repeat destruct (decide _); lia. }
  split; [done|].
  rewrite (ring_off_cases d rN' Hd Hr'), Eo, Et.
  unfold rN', id_N', plotDataSkip. fold d. cbn [fst snd].
  repeat destruct (decide _); lia.
Qed.

(** X9.  plotDataSkip moves a cursor by [sk_N] rows, forwards or backwards,
    but never past the first or the last valid row, as long as the sums it
    forms stay within the range of [int]: the cursor comes to rest inside
    the ring at the offset from [head_N] asked for, clamped to the valid
    span, and the logical id moves by as many rows as the cursor did and
    stays within [int]. *)
Theorem skip_stays_in_span (pl : plot_t) (dN rN id_N sk_N : Z) :
  let d := aget (data pl) dN in
  let rN' := fst (plotDataSkip pl dN rN id_N sk_N) in
  let id_N' := snd (plotDataSkip pl dN rN id_N sk_N) in
  wf_data d -> 0 <= rN < Data.length_N d ->
  - 2 ^ 31 <= sk_N -> ring_off d rN + sk_N < 2 ^ 31 ->
  - 2 ^ 31 <= id_N - ring_off d rN ->
  id_N + (ring_off d (Data.tail_N d) - ring_off d rN) < 2 ^ 31 ->
  0 <= rN' < Data.length_N d
  /\ ring_off d rN'
     = Z.min (ring_off d (Data.tail_N d)) (Z.max 0 (ring_off d rN + sk_N))
  /\ id_N' - id_N = ring_off d rN' - ring_off d rN
  /\ - 2 ^ 31 <= id_N' < 2 ^ 31.
Proof.
  intros d rN' id_N' Hd Hr Hlo Hhi Hid1 Hid2.
  destruct (plotDataSkip_offset pl dN rN id_N sk_N Hd Hr) as (H1 & H2 & H3).
  fold d rN' id_N' in H1, H2, H3.
  split; [done|]. split; [done|]. split; [done|].
  pose proof Hd as (_ & _ & _ & HL & _).
  assert (H0 : 0 <= ring_off d (Data.tail_N d)).
  { unfold ring_off. apply Z.mod_pos_bound. lia. }
  lia.
Qed.

(** X10.  plotDataChunkSkip, from a cursor inside the valid span, comes to
    rest on [tail_N] or on the first row of a chunk, at least one row on
    unless the cursor is at [tail_N] already, and it keeps the logical id in
    step. *)
Theorem chunk_skip_lands_on_boundary (pl : plot_t) (dN rN id_N : Z) :
  let d := aget (data pl) dN in
  let rN' := fst (plotDataChunkSkip pl dN rN id_N) in
  let id_N' := snd (plotDataChunkSkip pl dN rN id_N) in
  wf_data d -> 0 <= rN < Data.length_N d ->
  ring_off d rN <= ring_off d (Data.tail_N d) ->
  (rN' = Data.tail_N d \/ Z.land rN' (Data.chunk_MASK d) = 0)
  /\ 0 <= rN' < Data.length_N d
  /\ id_N' - id_N = ring_off d rN' - ring_off d rN
  /\ (rN <> Data.tail_N d -> id_N < id_N').
Proof.
  intros d rN' id_N' Hd Hr Hspan.
  pose proof Hd as (Hs & Hm & _ & HL & Hh & Ht & _).
  assert (Hl : forall r, Z.land r (Data.chunk_MASK d) = r mod 2 ^ Data.chunk_SHIFT d)
    by (intros r; rewrite Hm; by apply land_mod).
  set (P := 2 ^ Data.chunk_SHIFT d) in *.
  assert (HP : 0 < P) by (by apply Z.pow_pos_nonneg).
  pose proof (Hl rN) as Hland.
  pose proof (Z.mod_pos_bound rN P HP) as Hmod.
  set (skip := if decide (Data.length_N d - rN < P - rN mod P)
               then Data.length_N d - rN else P - rN mod P).
  assert (Hskip : 1 <= skip <= Data.length_N d - rN)
    by (unfold skip; destruct (decide _); lia).
  assert (Ecs : plotDataChunkSkip pl dN rN id_N = plotDataSkip pl dN rN id_N skip).
  { unfold plotDataChunkSkip. fold d P. by rewrite Hland. }
  destruct (plotDataSkip_offset pl dN rN id_N skip Hd Hr) as (Hr' & Eoff & Eid).
  unfold rN', id_N'. rewrite Ecs. fold d in Hr', Eoff, Eid.
  set (r1 := fst (plotDataSkip pl dN rN id_N skip)) in *.
  set (i1 := snd (plotDataSkip pl dN rN id_N skip)) in *.
  clearbody r1 i1.
  pose proof (ring_off_cases d rN Hd Hr) as Eo.
  pose proof (ring_off_cases d _ Hd Ht) as Et.
  pose proof (ring_off_cases d r1 Hd Hr') as Eo1.
  split; [|split; [done|split; [done|]]].
  - destruct (decide (ring_off d rN + skip <= ring_off d (Data.tail_N d))) as [Hin|Hout].
    + right. rewrite Hl.
      assert (E1 : r1 = if decide (rN + skip < Data.length_N d) then rN + skip else 0).
      { repeat destruct (decide _); lia. }
      rewrite E1. destruct (decide (rN + skip < _)); [|done].
      unfold skip in *. destruct (decide (_ < P - _)); [lia|].
      pose proof (Z.div_mod rN P ltac:(lia)) as Hdm.
      replace (rN + (P - rN mod P)) with ((rN / P + 1) * P) by nia.
      apply Z.mod_mul. lia.
    + left. repeat destruct (decide _); lia.
  - intros Hne. repeat destruct (decide _); lia.
Qed.

(** ** Derived columns *)

Lemma plotDataWrite_tail pl dN :
  plotDataWrite pl dN (Data.tail_N (aget (data pl) dN))
  = (pl, None, Data.tail_N (aget (data pl) dN)).
Proof. unfold plotDataWrite. by rewrite decide_False by (intros ?; done). Qed.

Lemma plotDataWrite_ring pl dN r :
  let d := aget (data pl) dN in
  wf_plot pl dN -> 0 <= r < Data.length_N d -> r <> Data.tail_N d ->
  exists pl1,
    plotDataWrite pl dN r
    = (pl1,
       Some (InChunk (Z.shiftr r (Data.chunk_SHIFT d)),
             row_width d * Z.land r (Data.chunk_MASK d)),
       ring_next d r)
    /\ data pl1 = data pl /\ lz4_compress pl1 = lz4_compress pl.
Proof.
  intros d (Hlz & Hsub & HdN & Hwf) Hr Hne. fold d in Hwf.
  unfold plotDataWrite. fold d.
  rewrite decide_True by done.
  rewrite (decide_False (P := lz4_compress pl <> 0)) by lia.
  pose proof (wipe_memo_same pl dN (Z.shiftr r (Data.chunk_SHIFT d))) as Hw.
  cbv zeta in Hw.
  set (pl1 := if decide (rcache_wipe_data_N pl <> dN \/ _) then _ else pl) in *.
  destruct Hw as [Ed1 Elz1]. clearbody pl1.
  exists pl1. rewrite Ed1. fold d. rewrite (wf_raw_ptr d Hwf r Hr).
  done.
Qed.

Lemma ring_column_S d c r n id_N :
  2 <= Data.length_N d -> 0 <= r < Data.length_N d ->
  ring_column d c r (S n) id_N
  = (if decide (c < 0) then fval_of_int id_N else cell d r c)
    :: ring_column d c (ring_next d r) n (id_N + 1).
Proof.
  intros HL Hr. unfold ring_column. cbn [seq map]. f_equal.
  - rewrite !Z.add_0_r, Z.mod_small by lia. done.
  - rewrite <- seq_shift, map_map. apply map_ext. intros i.
    destruct (decide (c < 0)); [f_equal; lia|]. f_equal.
    rewrite ring_next_mod by done. rewrite Zplus_mod_idemp_l. f_equal. lia.
Qed.

Lemma ring_column_ext d d' c r n id_N :
  Data.length_N d' = Data.length_N d ->
  (forall i, 0 <= c -> 0 <= i < Z.of_nat n ->
     cell d' ((r + i) mod Data.length_N d) c = cell d ((r + i) mod Data.length_N d) c) ->
  ring_column d' c r n id_N = ring_column d c r n id_N.
Proof.
  intros EL Hc. unfold ring_column. rewrite EL.
  apply map_ext_in. intros i Hi. apply in_seq in Hi.
  destruct (decide (c < 0)); [done|]. apply Hc; lia.
Qed.

Section rows.

Context {St : Type}.
Variables (dN cN c1 : Z).
Variable out : fval_t -> St -> fval_t.
Variable next : fval_t -> St -> St.
Variable step : plot_t -> rowptr -> Z -> St -> plot_t * St.

Hypothesis Hstep : forall pl row id_N st,
  step pl row id_N st
  = (row_set pl dN row cN (out (row_val pl dN row id_N c1) st),
     next (row_val pl dN row id_N c1) st).

(** The loop over the rows from [r] to [tail_N]: it stores, row by row, what
    [scan_rows] computes from column [c1], and touches nothing else. *)
Lemma plotDataSubtract_rows_scan fuel pl r id_N st :
  let d := aget (data pl) dN in
  let n := Z.to_nat (ring_dist d r) in
  let ys := scan_rows out next st (ring_column d c1 r n id_N) in
  wf_plot pl dN -> 0 <= r < Data.length_N d -> ring_dist d r < Z.of_nat fuel ->
  0 <= cN < row_width d -> c1 < row_width d -> c1 <> cN ->
  exists pl',
    plotDataSubtract_rows fuel step pl dN r id_N st = Some (pl', snd ys)
    /\ wf_plot pl' dN /\ ring_step dN pl pl'
    /\ hdr (aget (data pl') dN) = hdr d
    /\ (forall r' c', 0 <= r' < Data.length_N d -> 0 <= c' < row_width d ->
          c' <> cN -> cell (aget (data pl') dN) r' c' = cell d r' c')
    /\ (forall r', 0 <= r' < Data.length_N d ->
          (forall i, 0 <= i < Z.of_nat n -> (r + i) mod Data.length_N d <> r') ->
          cell (aget (data pl') dN) r' cN = cell d r' cN)
    /\ ring_column (aget (data pl') dN) cN r n id_N = fst ys.
Proof.
  revert pl r id_N st. induction fuel as [|fuel IH]; intros pl r id_N st d n ys
    Hwf Hr Hfuel HcN Hc1 Hne.
  { pose proof Hwf as (_ & _ & _ & Hd). fold d in Hd.
    pose proof (ring_dist_range d r Hd Hr). lia. }
  pose proof Hwf as (Hlz & Hsub & HdN & Hd). fold d in Hd.
  pose proof Hd as (_ & _ & Hc & HL & Hh & Ht & _).
  cbn [plotDataSubtract_rows].
  destruct (decide (r = Data.tail_N d)) as [->|Hnt].
  - fold d. rewrite plotDataWrite_tail.
    assert (En : n = O).
    { unfold n, ring_dist. by rewrite Z.sub_diag, Z.mod_0_l by lia. }
    unfold ys. rewrite En. cbn. exists pl.
    split; [done|]. split; [done|]. split; [apply ring_step_refl|].
    split; [done|]. split; [done|]. split; done.
  - destruct (plotDataWrite_ring pl dN r Hwf Hr Hnt) as (pl1 & -> & Ed1 & Elz1).
    fold d. rewrite Hstep.
    assert (Hwf1 : wf_plot pl1 dN) by (by apply (wf_plot_same pl)).
    set (row := (InChunk _, _)).
    set (x := row_val pl1 dN row id_N c1).
    assert (Ex : x = if decide (c1 < 0) then fval_of_int id_N else cell d r c1).
    { unfold x, row_val. destruct (decide (c1 < 0)); [done|].
      unfold row_get, row, cell. cbn [fst snd]. by rewrite Ed1. }
    pose proof (row_set_ring pl1 dN r cN (out x st)) as Hrs. cbv zeta in Hrs.
    rewrite Ed1 in Hrs. fold d row in Hrs.
    destruct (Hrs Hwf1 Hr HcN) as (Hwf2 & Hstep2 & Hh2 & _ & Hcell2). clear Hrs.
    set (pl2 := row_set pl1 dN row cN (out x st)) in *.
    set (d2 := aget (data pl2) dN) in *.
    destruct (hdr_fields _ _ Hh2) as (Ec2 & EL2 & Eh2 & Et2 & _ & _ & _ & _ & _ & EW2).
    destruct (ring_dist_next d r Hd Hr Hnt) as [Hnr Edist].
    pose proof (ring_dist_range d r Hd Hr) as Hrange.
    pose proof (ring_dist_range d _ Hd Hnr) as Hrange'.
    assert (Edist2 : ring_dist d2 (ring_next d r) = ring_dist d r - 1).
    { unfold ring_dist in *. by rewrite Et2, EL2. }
    specialize (IH pl2 (ring_next d r) (id_N + 1) (next x st)).
    cbv zeta in IH. fold d2 in IH. rewrite EL2, EW2, Edist2 in IH.
    destruct (IH Hwf2 Hnr ltac:(lia) HcN Hc1 Hne)
      as (pl' & Erun & Hwf' & Hstep' & Hh' & Hother & Hrest & Hcol).
    clear IH.
    assert (Enext : ring_next d r = (r + 1) mod Data.length_N d)
      by (by apply ring_next_mod).
    assert (En : n = S (Z.to_nat (ring_dist d r - 1))) by (unfold n; lia).
    set (m := Z.to_nat (ring_dist d r - 1)) in *.
    assert (Ecol1 : ring_column d2 c1 (ring_next d r) m (id_N + 1)
                    = ring_column d c1 (ring_next d r) m (id_N + 1)).
    { apply ring_column_ext; [done|]. intros i Hc0 Hi.
      rewrite Hcell2 by (try apply Z.mod_pos_bound; lia).
      rewrite decide_False; [done|]. tauto. }
    exists pl'. unfold ys. rewrite En, ring_column_S by done.
    clearbody pl2 x. subst x.
    cbn [scan_rows]. rewrite <- Ecol1.
    destruct (scan_rows out next (next _ st) _) as [ys' st'] eqn:Escan.
    cbn [fst snd] in *.
    split; [done|]. split; [done|].
    split; [eapply ring_step_trans; [by apply ring_step_same|];
            by eapply ring_step_trans|].
    split; [by rewrite Hh'|].
    split; [|split].
    + intros r' c' Hr' Hc' Hnc. rewrite Hother, Hcell2 by done.
      rewrite decide_False; [done|]. tauto.
    + intros r' Hr' Hnv. rewrite Hrest.
      * rewrite Hcell2 by done. rewrite decide_False; [done|].
        intros [-> _]. apply (Hnv 0); [lia|].
        rewrite Z.add_0_r. apply Z.mod_small. lia.
      * done.
      * intros i Hi. rewrite Enext, Zplus_mod_idemp_l, <- Z.add_assoc.
        apply Hnv. lia.
    + rewrite ring_column_S by (rewrite ?(proj1 (proj2 (hdr_fields _ _ Hh'))); lia).
      rewrite decide_False by lia. f_equal.
      * rewrite Hrest.
        -- rewrite Hcell2 by done. by rewrite decide_True.
        -- done.
        -- intros i Hi. rewrite Enext, Zplus_mod_idemp_l, <- Z.add_assoc. intros Ep.
           apply ring_pos in Ep; [|lia..].
           rewrite Z.sub_diag, Z.mod_0_l in Ep by lia. lia.
      * assert (EL' : Data.length_N (aget (data pl') dN) = Data.length_N d)
          by (destruct (hdr_fields _ _ Hh') as (_ & -> & _); done).
        unfold ring_next. rewrite EL'. exact Hcol.
Qed.

End rows.

(** *** SUBTRACT_TIME_UNWRAP on values *)


Lemma flt_Some (x y : Q) : flt (Some x) (Some y) = true <-> (x < y)%Q.
Proof.
  unfold flt, fcmp. rewrite Qlt_alt. by destruct (x ?= y)%Q.
Qed.

Lemma fle_Some (x y : Q) : fle (Some x) (Some y) = true <-> (x <= y)%Q.
Proof.
  unfold fle, fcmp. rewrite Qle_alt. destruct (x ?= y)%Q; split; congruence.
Qed.




(** *** Operations over the valid rows *)

Lemma column_ring_rows d c r n id_N :
  0 <= c < row_width d ->
  column c (ring_rows d r n id_N) = ring_column d c r n id_N.
Proof.
  intros Hc. unfold column, ring_rows, ring_column. rewrite map_map.
  apply map_ext. intros i. cbn [snd]. rewrite decide_False by lia.
  by rewrite aget_map_seqZ.
Qed.

Lemma input_column_ring_rows d c r n id_N :
  c < row_width d ->
  input_column c (ring_rows d r n id_N) = ring_column d c r n id_N.
Proof.
  intros Hc. unfold input_column. destruct (decide (c < 0)) as [Hn|Hn].
  - unfold ring_rows, ring_column. rewrite map_map. apply map_ext. intros i.
    cbn [fst]. by rewrite decide_True.
  - apply (column_ring_rows d c r n id_N). lia.
Qed.

Lemma ring_rows_ids_eq d d' r r' n id_N :
  map fst (ring_rows d r n id_N) = map fst (ring_rows d' r' n id_N).
Proof. by rewrite !ring_rows_ids. Qed.



Section rows_valid.

Context {St : Type}.
Variables (dN cN c1 : Z).
Variable out : fval_t -> St -> fval_t.
Variable next : fval_t -> St -> St.
Variable step : plot_t -> rowptr -> Z -> St -> plot_t * St.

Hypothesis Hstep : forall pl row id_N st,
  step pl row id_N st
  = (row_set pl dN row cN (out (row_val pl dN row id_N c1) st),
     next (row_val pl dN row id_N c1) st).

(** The loop run from [head_N], told in terms of the valid rows. *)
Lemma plotDataSubtract_rows_valid fuel pl st :
  let d := aget (data pl) dN in
  let rows := ring_rows d (Data.head_N d) (Z.to_nat (ring_dist d (Data.head_N d)))
                (Data.id_N d) in
  let ys := scan_rows out next st (input_column c1 rows) in
  wf_plot pl dN -> Data.length_N d <= Z.of_nat fuel ->
  0 <= cN < row_width d -> c1 < row_width d -> c1 <> cN ->
  exists pl' rows',
    plotDataSubtract_rows fuel step pl dN (Data.head_N d) (Data.id_N d) st
    = Some (pl', snd ys)
    /\ wf_plot pl' dN /\ ring_step dN pl pl'
    /\ hdr (aget (data pl') dN) = hdr d
    /\ valid_rows fuel pl' dN = Some rows'
    /\ map fst rows' = map fst rows
    /\ column cN rows' = fst ys
    /\ (forall c, 0 <= c < row_width d -> c <> cN -> column c rows' = column c rows).
Proof.
  intros d rows ys Hwf Hfuel HcN Hc1 Hne.
  pose proof Hwf as (_ & _ & _ & Hd). fold d in Hd.
  pose proof Hd as (_ & _ & _ & HL & Hh & _).
  pose proof (ring_dist_range d _ Hd Hh) as Hn.
  destruct (plotDataSubtract_rows_scan dN cN c1 out next step Hstep fuel pl
              (Data.head_N d) (Data.id_N d) st Hwf Hh ltac:(fold d; lia) HcN Hc1 Hne)
    as (pl' & Erun & Hwf' & Hrs & Hh' & Hother & _ & Hcol).
  fold d in Erun, Hh', Hother, Hcol.
  set (d' := aget (data pl') dN) in *.
  set (n := Z.to_nat (ring_dist d (Data.head_N d))) in *.
  destruct (hdr_fields d d' Hh') as (Ec' & EL' & Eh' & Et' & Ei' & _ & _ & _ & _ & EW').
  exists pl', (ring_rows d' (Data.head_N d) n (Data.id_N d)).
  unfold ys, rows. rewrite input_column_ring_rows by done.
  split; [exact Erun|]. split; [done|]. split; [done|]. split; [done|].
  split; [|split; [|split]].
  - rewrite valid_rows_ring by (done || fold d'; lia). fold d'.
    rewrite Eh', Ei'. unfold n, ring_dist. by rewrite Et', EL'.
  - apply ring_rows_ids_eq.
  - rewrite column_ring_rows by (rewrite EW'; done). exact Hcol.
  - intros c Hc Hnc. rewrite !column_ring_rows by (rewrite ?EW'; done).
    apply ring_column_ext; [done|]. intros i _ Hi.
    apply Hother; [apply Z.mod_pos_bound; lia|done|done].
Qed.

End rows_valid.

Lemma scan_rows_stateless {St} (out : fval_t -> St -> fval_t) (st : St)
  (xs : list fval_t) :
  scan_rows out (fun _ st => st) st xs = (map (fun x => out x st) xs, st).
Proof.
  induction xs as [|x xs IH]; [done|]. cbn [scan_rows map]. by rewrite IH.
Qed.

(** plotDataSubtract for one slot, [sN >= 0], runs the slot from [head_N]. *)
Lemma plotDataSubtract_one fuel pl dN sN :
  0 <= dN < PLOT_DATASET_MAX -> 0 <= sN < PLOT_SUBTRACT ->
  plotDataSubtract fuel pl dN sN
  = plotDataSubtract_slot fuel pl dN sN (Data.head_N (aget (data pl) dN)).
Proof.
  intros HdN HsN. unfold plotDataSubtract.
  rewrite decide_False by lia. rewrite decide_False by lia.
  rewrite decide_False by lia. cbn [plotDataSubtract_slots].
  by destruct (plotDataSubtract_slot _ _ _ _ _).
Qed.

(** X11.  plotDataSubtract for a SUBTRACT_SCALE slot fills the column of the
    slot, over all valid rows, with [x * scale + offset] of the input
    column (the logical id for an input column below zero); it leaves every
    other column, the ids and the shape of the ring as they are. *)
Theorem scale_slot_column (pl : plot_t) (dN sN c1 : Z) (scale offset : double)
  (fuel : nat) :
  let d := aget (data pl) dN in
  let cN := Data.column_N d + sN in
  wf_plot pl dN -> 0 <= dN < PLOT_DATASET_MAX -> 0 <= sN < PLOT_SUBTRACT ->
  aget (Data.sub d) sN = SUBTRACT_SCALE c1 scale offset ->
  c1 < row_width d -> c1 <> cN -> Data.length_N d <= Z.of_nat fuel ->
  exists pl' rows rows',
    plotDataSubtract fuel pl dN sN = Some pl'
    /\ valid_rows fuel pl dN = Some rows
    /\ valid_rows fuel pl' dN = Some rows'
    /\ map fst rows' = map fst rows
    /\ column cN rows' = map (fun x => (x * scale + offset)%F) (input_column c1 rows)
    /\ (forall c, 0 <= c < row_width d -> c <> cN -> column c rows' = column c rows)
    /\ wf_plot pl' dN.
Proof.
  intros d cN Hwf HdN HsN Eslot Hc1 Hne Hfuel.
  pose proof Hwf as (_ & Hsub & _ & Hd). fold d in Hd.
  pose proof Hd as (_ & _ & Hc & _).
  assert (HcN : 0 <= cN < row_width d) by (unfold cN, row_width; lia).
  rewrite plotDataSubtract_one by done. unfold plotDataSubtract_slot. fold d.
  rewrite Eslot. rewrite Z.sub_diag, decide_False, Z.add_0_r by lia.
  rewrite (Z.add_comm sN (Data.column_N d)). fold cN.
  match goal with |- context [plotDataSubtract_rows fuel ?f pl dN _ _ tt] =>
    set (step := f) end.
  destruct (plotDataSubtract_rows_valid dN cN c1
              (fun x (_ : unit) => (x * scale + offset)%F) (fun _ st => st) step
              ltac:(intros; reflexivity) fuel pl tt Hwf Hfuel HcN Hc1 Hne)
    as (pl' & rows' & Erun & Hwf' & _ & _ & Ev' & Eids & Ecol & Hother).
  fold d in Erun, Ev', Eids, Ecol, Hother.
  rewrite scan_rows_stateless in Erun, Ecol. cbn [fst snd] in Erun, Ecol.
  exists pl', (ring_rows d (Data.head_N d) (Z.to_nat (ring_dist d (Data.head_N d)))
                 (Data.id_N d)), rows'.
  rewrite Erun. cbn [mbind option_bind fst].
  split; [done|]. split; [by apply valid_rows_ring|]. by split_and!.
Qed.



(** ** The sweep of the derived slots *)

Lemma filter_length_le {A} (P Q : A -> Prop) `{!forall x, Decision (P x)}
  `{!forall x, Decision (Q x)} (l : list A) :
  (forall x, x ∈ l -> Q x -> P x) ->
  (length (filter Q l) <= length (filter P l))%nat.
Proof.
  induction l as [|y l IH]; intros Himp; [done|].
  assert (IH' := IH (fun x Hx => Himp x (proj2 (elem_of_cons _ _ _) (or_intror Hx)))).
  destruct (decide (Q y)) as [HQ|HQ].
  - rewrite (filter_cons_True Q) by done.
    rewrite (filter_cons_True P) by (apply Himp; [apply elem_of_cons; by left|done]).
    cbn. lia.
  - rewrite (filter_cons_False Q) by done.
    destruct (decide (P y)).
    + rewrite (filter_cons_True P) by done. cbn. lia.
    + by rewrite (filter_cons_False P) by done.
Qed.

Lemma filter_length_lt' {A} (P Q : A -> Prop) `{!forall x, Decision (P x)}
  `{!forall x, Decision (Q x)} (l : list A) (x : A) :
  (forall y, y ∈ l -> Q y -> P y) -> x ∈ l -> P x -> ~ Q x ->
  (length (filter Q l) < length (filter P l))%nat.
Proof.
  induction l as [|y l IH]; intros Himp Hin HP HQ; [by apply elem_of_nil in Hin|].
  assert (Himp' : forall z, z ∈ l -> Q z -> P z)
    by (intros z Hz; apply Himp; apply elem_of_cons; by right).
  apply elem_of_cons in Hin as [<-|Hin].
  - rewrite (filter_cons_False Q), (filter_cons_True P) by done.
    pose proof (filter_length_le P Q l Himp'). cbn. lia.
  - specialize (IH Himp' Hin HP HQ).
    destruct (decide (Q y)) as [HQy|HQy].
    + rewrite (filter_cons_True Q) by done.
      rewrite (filter_cons_True P) by (apply Himp; [apply elem_of_cons; by left|done]).
      cbn. lia.
    + rewrite (filter_cons_False Q) by done.
      destruct (decide (P y)).
      * rewrite (filter_cons_True P) by done. cbn. lia.
      * by rewrite (filter_cons_False P) by done.
Qed.

Lemma aupd_aupd {A} `{Inhabited A} (l : list A) (i : Z) (f g : A -> A) :
  aupd (aupd l i f) i g = aupd l i (fun x => g (f x)).
Proof.
  destruct (decide (0 <= i < Z.of_nat (length l))) as [Hi|Hi].
  - unfold aupd at 1. rewrite aget_aupd_eq by done. unfold aupd, aset.
    rewrite !decide_True by lia. apply list_insert_insert_eq.
  - unfold aupd. by rewrite !aset_oob by (rewrite ?aset_length; done).
Qed.

Lemma aupd_id {A} `{Inhabited A} (l : list A) (i : Z) (f : A -> A) :
  f (aget l i) = aget l i -> aupd l i f = l.
Proof.
  intros E. unfold aupd. rewrite E. unfold aset, aget.
  destruct (decide (0 <= i)); [|done].
  destruct (decide (Z.to_nat i < length l)%nat) as [Hi|Hi].
  - apply list_insert_id. by apply list_lookup_lookup_total_lt.
  - apply list_insert_ge. lia.
Qed.

Section sweep.

Variable dN : Z.

Let slot (pl : plot_t) (sN : Z) : subtract_t :=
  aget (Data.sub (aget (data pl) dN)) sN.

(** [pl'] is [pl] with other derived slots for dataset [dN]. *)
Let resub (pl pl' : plot_t) : Prop :=
  exists subs, pl' = upd_data dN (Data.set_sub subs) pl.

Lemma resub_refl pl : resub pl pl.
Proof.
  exists (Data.sub (aget (data pl) dN)). unfold upd_data.
  rewrite aupd_id by (by destruct (aget (data pl) dN)). by destruct pl.
Qed.

Lemma resub_set_sub pl pl' sN s :
  resub pl pl' -> resub pl (set_sub dN sN s pl').
Proof.
  intros [subs ->]. exists (aset subs sN s). unfold set_sub, upd_data. cbn.
  by rewrite aupd_aupd.
Qed.

Lemma slot_set_free pl sN sM :
  is_free (slot pl sN) = false ->
  slot (set_sub dN sN SUBTRACT_FREE pl) sM
  = if decide (sM = sN) then SUBTRACT_FREE else slot pl sM.
Proof.
  intros Hlive. unfold slot in *.
  assert (HdN : 0 <= dN < Z.of_nat (length (data pl))).
  { destruct (decide (0 <= dN < Z.of_nat (length (data pl)))); [done|].
    rewrite (aget_default (data pl)) in Hlive by done. cbn in Hlive.
    by rewrite aget_default in Hlive by (cbn; lia). }
  assert (HsN : 0 <= sN < Z.of_nat (length (Data.sub (aget (data pl) dN)))).
  { apply aget_in_range. intros E. by rewrite E in Hlive. }
  unfold set_sub. cbn. rewrite aget_aupd_eq by done. cbn.
  rewrite aget_aset by done. by destruct (decide (sN = sM)), (decide (sM = sN)).
Qed.

Lemma live_slots_free pl sN :
  0 <= sN < PLOT_SUBTRACT -> is_free (slot pl sN) = false ->
  (length (live_slots (set_sub dN sN SUBTRACT_FREE pl) dN)
   < length (live_slots pl dN))%nat.
Proof.
  intros HsN Hlive. unfold live_slots.
  apply (filter_length_lt' _ _ _ sN).
  - intros sM _. fold (slot (set_sub dN sN SUBTRACT_FREE pl) sM) (slot pl sM).
    rewrite slot_set_free by done. by destruct (decide (sM = sN)).
  - apply elem_of_seqZ. lia.
  - done.
  - fold (slot (set_sub dN sN SUBTRACT_FREE pl) sN).
    rewrite slot_set_free by done. by rewrite decide_True.
Qed.

(** One pass: it frees slots and nothing else; when it frees none, every
    slot in use is linked. *)
Lemma plotSubtractGarbage_pass_spec pl :
  0 <= PLOT_SUBTRACT ->
  let pl' := fst (plotSubtractGarbage_pass pl dN) in
  let N := snd (plotSubtractGarbage_pass pl dN) in
  resub pl pl' /\ 0 <= N
  /\ (forall sN, slot pl' sN = SUBTRACT_FREE \/ slot pl' sN = slot pl sN)
  /\ (N = 0 ->
      pl' = pl
      /\ forall sN, 0 <= sN < PLOT_SUBTRACT ->
           is_free (slot pl sN) = true
           \/ plotCheckColumnLinked pl dN
                (sN + Data.column_N (aget (data pl) dN)) <> 0)
  /\ (N <> 0 ->
      (length (live_slots pl' dN) < length (live_slots pl dN))%nat).
Proof.
  intros HK. unfold plotSubtractGarbage_pass, for_range.
  rewrite Z.sub_0_r.
  set (body := fun (s : plot_t * Z) (N : Z) => _).
  assert (Hgen : forall l st,
    (forall sN, sN ∈ l -> 0 <= sN < PLOT_SUBTRACT) ->
    let pl0 := fst st in let N0 := snd st in
    resub pl pl0 -> 0 <= N0 ->
    (forall sN, slot pl0 sN = SUBTRACT_FREE \/ slot pl0 sN = slot pl sN) ->
    (length (live_slots pl0 dN) <= length (live_slots pl dN))%nat ->
    (N0 = 0 -> pl0 = pl) ->
    (N0 <> 0 -> (length (live_slots pl0 dN) < length (live_slots pl dN))%nat) ->
    let pl' := fst (foldl body st l) in
    let N := snd (foldl body st l) in
    resub pl pl' /\ 0 <= N
    /\ (forall sN, slot pl' sN = SUBTRACT_FREE \/ slot pl' sN = slot pl sN)
    /\ (N = 0 ->
        pl' = pl /\ N0 = 0
        /\ forall sN, sN ∈ l ->
             is_free (slot pl sN) = true
             \/ plotCheckColumnLinked pl dN
                  (sN + Data.column_N (aget (data pl) dN)) <> 0)
    /\ (N <> 0 ->
        (length (live_slots pl' dN) < length (live_slots pl dN))%nat)).
  { induction l as [|sN l IH]; intros [pl0 N0] Hl; cbn [fst snd foldl];
      intros Hre HN Hsl Hle H0 Hn0.
    - split; [done|]. split; [done|]. split; [done|]. split; [|done].
      intros E. split; [by apply H0|]. split; [done|].
      intros sN Hin. by apply elem_of_nil in Hin.
    - assert (HsN : 0 <= sN < PLOT_SUBTRACT) by (apply Hl, elem_of_cons; by left).
      assert (Hl' : forall sM, sM ∈ l -> 0 <= sM < PLOT_SUBTRACT)
        by (intros sM HsM; apply Hl, elem_of_cons; by right).
      assert (Eb : body (pl0, N0) sN
                   = if is_free (slot pl0 sN) then (pl0, N0)
                     else if decide (plotCheckColumnLinked pl0 dN
                                       (sN + Data.column_N (aget (data pl0) dN)) = 0)
                          then (set_sub dN sN SUBTRACT_FREE pl0, N0 + 1)
                          else (pl0, N0)) by reflexivity.
      rewrite Eb. clear Eb.
      destruct (is_free (slot pl0 sN)) eqn:Efree.
      + destruct (IH (pl0, N0) Hl' Hre HN Hsl Hle H0 Hn0)
          as (R1 & R2 & R3 & R4 & R5).
        split; [done|]. split; [done|]. split; [done|]. split; [|done].
        intros E. destruct (R4 E) as (E1 & E2 & E3). cbn [fst snd] in *.
        split; [done|]. split; [done|].
        intros sM HsM. apply elem_of_cons in HsM as [->|HsM]; [|by apply E3].
        left. by rewrite <- (H0 E2).
      + destruct (decide (plotCheckColumnLinked pl0 dN _ = 0)) as [Eu|Eu].
        * pose proof (live_slots_free pl0 sN HsN Efree) as Hlt.
          destruct (IH (set_sub dN sN SUBTRACT_FREE pl0, N0 + 1) Hl')
            as (R1 & R2 & R3 & R4 & R5); cbn [fst snd].
          -- by apply resub_set_sub.
          -- lia.
          -- intros sM. rewrite slot_set_free by done.
             destruct (decide (sM = sN)); [by left|apply Hsl].
          -- lia.
          -- lia.
          -- intros _. lia.
          -- split; [done|]. split; [done|]. split; [done|]. split; [|done].
             intros E. destruct (R4 E) as (_ & E2 & _). cbn [snd] in E2. lia.
        * destruct (IH (pl0, N0) Hl' Hre HN Hsl Hle H0 Hn0)
            as (R1 & R2 & R3 & R4 & R5).
          split; [done|]. split; [done|]. split; [done|]. split; [|done].
          intros E. destruct (R4 E) as (E1 & E2 & E3). cbn [fst snd] in *.
          split; [done|]. split; [done|].
          intros sM HsM. apply elem_of_cons in HsM as [->|HsM]; [|by apply E3].
          right. by rewrite <- (H0 E2). }
  destruct (Hgen (seqZ 0 PLOT_SUBTRACT) (pl, 0)) as (R1 & R2 & R3 & R4 & R5);
    cbn [fst snd]; try done.
  - intros sN HsN. apply elem_of_seqZ in HsN. lia.
  - apply resub_refl.
  - intros sN. by right.
  - split; [done|]. split; [done|]. split; [done|]. split; [|done].
    intros E. destruct (R4 E) as (E1 & _ & E3). split; [done|].
    intros sN HsN. apply E3, elem_of_seqZ. lia.
Qed.

End sweep.

Lemma is_free_true s : is_free s = true -> s = SUBTRACT_FREE.
Proof. by destruct s. Qed.

(** X13.  The sweep of plotSubtractGarbage comes to an end within
    [PLOT_SUBTRACT + 1] passes.  It changes the derived slots of the dataset
    and nothing else; a slot is freed or left as it was, and every slot it
    leaves in use is one plotCheckColumnLinked reports as linked in the
    state it returns. *)
Theorem garbage_sweep (pl : plot_t) (dN : Z) (fuel : nat) :
  0 <= PLOT_SUBTRACT -> PLOT_SUBTRACT < Z.of_nat fuel ->
  exists pl' subs,
    plotSubtractGarbage fuel pl dN = Some pl'
    /\ pl' = upd_data dN (Data.set_sub subs) pl
    /\ forall sN, 0 <= sN < PLOT_SUBTRACT ->
         let s' := aget (Data.sub (aget (data pl') dN)) sN in
         s' = SUBTRACT_FREE
         \/ (s' = aget (Data.sub (aget (data pl) dN)) sN
             /\ plotCheckColumnLinked pl' dN
                  (sN + Data.column_N (aget (data pl') dN)) = 1).
Proof.
  intros HK Hfuel.
  assert (Hlive : (length (live_slots pl dN) < fuel)%nat).
  { unfold live_slots. pose proof (length_filter
      (fun sN => is_free (aget (Data.sub (aget (data pl) dN)) sN) = false)
      (seqZ 0 PLOT_SUBTRACT)) as Hle.
    rewrite length_seqZ in Hle. lia. }
  clear Hfuel. revert pl Hlive.
  induction fuel as [|fuel IH]; intros pl Hlive; [lia|].
  cbn [plotSubtractGarbage].
  pose proof (plotSubtractGarbage_pass_spec dN pl HK) as Hpass.
  cbv zeta in Hpass.
  destruct (plotSubtractGarbage_pass pl dN) as [pl1 N]. cbn [fst snd] in Hpass.
  destruct Hpass as ([subs1 E1] & HN & Hsl & H0 & Hn0).
  destruct (decide (N <> 0)) as [Hne|He].
  - destruct (IH pl1 ltac:(specialize (Hn0 Hne); lia)) as (pl' & subs' & Erun & E' & Hs').
    exists pl', subs'. split; [done|]. split.
    + rewrite E', E1. unfold upd_data. cbn. by rewrite aupd_aupd.
    + intros sN HsN. destruct (Hs' sN HsN) as [Ef|[Es El]]; [by left|].
      destruct (Hsl sN) as [Ef1|Es1].
      * left. cbv zeta in Es. by rewrite Es.
      * right. split; [|done]. cbv zeta in Es. by rewrite Es.
  - assert (EN : N = 0) by lia. destruct (H0 EN) as [-> Hall].
    exists pl, subs1. split; [done|]. split; [done|].
    intros sN HsN. destruct (Hall sN HsN) as [Hf|Hl].
    + left. by apply is_free_true.
    + right. split; [done|]. unfold plotCheckColumnLinked in *.
      by destruct (decide _).
Qed.

(** ** Range cache: dropping the entries of a dataset *)

Lemma first_index_ext (p q : Z -> bool) (from : Z) (cnt : nat) :
  (forall k, from <= k < from + Z.of_nat cnt -> p k = q k) ->
  first_index p from cnt = first_index q from cnt.
Proof.
  revert from. induction cnt as [|cnt IH]; intros from Hpq; cbn; [done|].
  rewrite <- (Hpq from) by lia. destruct (p from); [done|].
  apply IH. intros k Hk. apply Hpq. lia.
Qed.

Lemma first_index_none (p : Z -> bool) (from : Z) (cnt : nat) :
  (forall k, from <= k < from + Z.of_nat cnt -> p k = false) ->
  first_index p from cnt = -1.
Proof.
  revert from. induction cnt as [|cnt IH]; intros from Hp; cbn; [done|].
  rewrite Hp by lia. apply IH. intros k Hk. apply Hp. lia.
Qed.

(** A loop over [N] whose body changes entry [N] of an array of the state,
    and that entry only. *)
Lemma for_range_entry {A} `{Inhabited A} (proj : plot_t -> list A)
    (body : Z -> plot_t -> plot_t) (g : A -> A) (from to : Z) (pl : plot_t) (N : Z) :
  (forall s n, aget (proj (body n s)) N
     = if decide (n = N) then g (aget (proj s) N) else aget (proj s) N) ->
  aget (proj (for_range from to body pl)) N
  = if decide (from <= N < to) then g (aget (proj pl) N) else aget (proj pl) N.
Proof.
  intros Hone. unfold for_range.
  assert (HN : from <= N < to <-> N ∈ seqZ from (to - from)).
  { rewrite elem_of_seqZ. lia. }
  revert HN. generalize (NoDup_seqZ from (to - from)).
  generalize (seqZ from (to - from)). intros ns Hnd HN.
  assert (Hout : forall ns s, N ∉ ns ->
            aget (proj (foldl (fun s n => body n s) s ns)) N = aget (proj s) N).
  { clear -Hone. intros ns. induction ns as [|n ns IH]; intros s Hn; cbn; [done|].
    apply not_elem_of_cons in Hn as [Hne Hn].
    rewrite IH by done. rewrite Hone. by rewrite decide_False by congruence. }
  revert pl HN. induction ns as [|n ns IH]; intros pl HN; cbn.
  - rewrite decide_False; [done|]. intros Hin.
    apply HN in Hin. by apply elem_of_nil in Hin.
  - apply NoDup_cons in Hnd as [Hn Hnd].
    destruct (decide (n = N)) as [->|Hne].
    + rewrite Hout by done. rewrite Hone. rewrite decide_True by done.
      rewrite decide_True; [done|]. apply HN, elem_of_cons. by left.
    + rewrite IH; [|done|].
      * rewrite Hone. by rewrite (decide_False (P := n = N)) by done.
      * rewrite HN, elem_of_cons. split; [|by right]. intros [?|?]; [congruence|done].
Qed.

Lemma plotDataRangeCacheClean_entry pl dN N :
  aget (rcache (plotDataRangeCacheClean pl dN)) N
  = let rc := aget (rcache pl) N in
    if decide (0 <= N < PLOT_RCACHE_SIZE /\ RCache.data_N rc = dN)
    then RCache.set_busy 0 rc else rc.
Proof.
  unfold plotDataRangeCacheClean.
  rewrite (for_range_entry rcache _
             (fun rc => if decide (RCache.data_N rc = dN)
                        then RCache.set_busy 0 rc else rc)).
  - cbn. repeat destruct (decide _); tauto || done.
  - intros s n. destruct (decide (n = N)) as [->|Hne].
    + destruct (decide _) as [Hd|Hd]; [|done]. cbn.
      destruct (decide (0 <= N < Z.of_nat (length (rcache s)))).
      * by rewrite aget_aupd_eq.
      * rewrite !aget_default; [done|by rewrite ?aupd_length..].
    + destruct (decide _); [|done]. cbn. by apply aget_aupd_ne.
Qed.

(** X14.  plotDataRangeCacheClean forgets the dataset: afterwards the lookup
    of plotDataRangeCacheGetNode finds no entry for any column of dataset
    [dN], and it finds for the columns of every other dataset the entry it
    found before. *)
Theorem range_clean_forgets (pl : plot_t) (dN : Z) :
  (forall cN, plotDataRangeCacheGetNode (plotDataRangeCacheClean pl dN) dN cN = -1)
  /\ (forall dM cN, dM <> dN ->
        plotDataRangeCacheGetNode (plotDataRangeCacheClean pl dN) dM cN
        = plotDataRangeCacheGetNode pl dM cN).
Proof.
  split.
  - intros cN. unfold plotDataRangeCacheGetNode. apply first_index_none.
    intros k Hk. cbn beta zeta. rewrite plotDataRangeCacheClean_entry. cbn zeta.
    apply bool_decide_eq_false.
    destruct (decide _) as [[_ Hd]|Hno]; cbn; [tauto|].
    intros (_ & Hd & _). apply Hno. split; [lia|done].
  - intros dM cN Hne. unfold plotDataRangeCacheGetNode. apply first_index_ext.
    intros k Hk. cbn beta zeta. rewrite plotDataRangeCacheClean_entry. cbn zeta.
    destruct (decide _) as [[_ Hd]|Hno]; [|done]. cbn.
    apply bool_decide_ext. split; intros (_ & Hd' & _); congruence.
Qed.

(** ** Range cache: what a fetch leaves behind *)

Lemma first_index_found (p : Z -> bool) (from : Z) (cnt : nat) (r : Z) :
  from <= r < from + Z.of_nat cnt -> p r = true ->
  (forall k, from <= k < r -> p k = false) ->
  first_index p from cnt = r.
Proof.
  revert from. induction cnt as [|cnt IH]; intros from Hr Hp Hlt; cbn; [lia|].
  destruct (decide (from = r)) as [->|Hne]; [by rewrite Hp|].
  rewrite Hlt by lia. apply IH; [lia|done|]. intros k Hk. apply Hlt. lia.
Qed.

Lemma rchunk_step_refl xN pl : rchunk_step xN pl pl.
Proof. by repeat split. Qed.

Lemma rchunk_step_trans xN pl1 pl2 pl3 :
  rchunk_step xN pl1 pl2 -> rchunk_step xN pl2 pl3 -> rchunk_step xN pl1 pl3.
Proof.
  intros (A1 & A2 & A3 & A4 & A5 & A6 & A7) (B1 & B2 & B3 & B4 & B5 & B6 & B7).
  repeat split; try congruence.
  intros N HN. by rewrite B3, A3.
Qed.

Lemma rchunk_step_storage xN pl pl' : storage_step pl pl' -> rchunk_step xN pl pl'.
Proof.
  intros [E _]. rewrite E. by repeat split.
Qed.

Lemma rchunk_step_set_chunk xN (f : RCache.t -> list RChunk.t) pl :
  rchunk_step xN pl (upd_rcache xN (fun rc => RCache.set_chunk (f rc) rc) pl).
Proof.
  unfold rchunk_step. cbn. split; [done|]. split; [apply aupd_length|].
  split; [intros N HN; by apply aget_aupd_ne|].
  split_and!.
  - by apply (aget_aupd_proj _ _ _ _ RCache.busy).
  - by apply (aget_aupd_proj _ _ _ _ RCache.data_N).
  - by apply (aget_aupd_proj _ _ _ _ RCache.column_N).
  - by apply (aget_aupd_proj _ _ _ _ RCache.cached).
Qed.

Lemma plotDataGet_storage pl dN rN pl' row rN' :
  plotDataGet pl dN rN = (pl', row, rN') -> storage_step pl pl'.
Proof.
  unfold plotDataGet. pose proof (plotDataChunkFetch_storage pl dN
    (Z.shiftr rN (Data.chunk_SHIFT (aget (data pl) dN)))).
  repeat (destruct (decide _) || destruct (raw_ptr _ _));
    intros [= <- <- <-]; storage_step.
Qed.

Lemma plotDataRangeCacheFetch_rows_storage fuel pl dN cN kN st pl' st' :
  plotDataRangeCacheFetch_rows fuel pl dN cN kN st = Some (pl', st') ->
  storage_step pl pl'.
Proof.
  revert pl st. induction fuel as [|fuel IH]; intros pl st; cbn; [done|].
  destruct (decide _); [intros [= <- <-]; apply storage_step_refl|].
  destruct (plotDataGet pl dN (f_rN st)) as [[pl1 row] rN1] eqn:EG.
  apply plotDataGet_storage in EG.
  destruct row as [row|]; [|intros [= <- <-]; done].
  destruct (if fp_isfinite _ then _ else _) as [[fin lo] hi].
  intros E. apply IH in E. eapply storage_step_trans; eauto.
Qed.

Lemma plotDataRangeCacheFetch_chunks_step fuel pl dN cN xN st pl' st' :
  plotDataRangeCacheFetch_chunks fuel pl dN cN xN st = Some (pl', st') ->
  rchunk_step xN pl pl'.
Proof.
  revert pl st. induction fuel as [|fuel IH]; intros pl st; [done|].
  cbn [plotDataRangeCacheFetch_chunks].
  set (kN := plotDataChunkN pl dN (f_rN st)).
  destruct (if decide (RChunk.computed _ <> 0) then _ else _) as [job st1].
  destruct (decide (job <> 0)) as [Hj|Hj].
  - destruct (plotDataRangeCacheFetch_rows (S fuel) pl dN cN kN st1)
      as [[pl1 st2]|] eqn:ER; cbn [mbind option_bind]; [|done].
    apply plotDataRangeCacheFetch_rows_storage in ER.
    apply (rchunk_step_storage xN) in ER.
    set (pl2 := upd_rcache xN _ pl1).
    assert (H2 : rchunk_step xN pl pl2).
    { eapply rchunk_step_trans; [exact ER|].
      apply (rchunk_step_set_chunk xN (fun rc => aupd (RCache.chunk rc) kN _)). }
    set (pl3 := if decide (f_finite st2 <> 0) then _ else pl2).
    assert (H3 : rchunk_step xN pl pl3).
    { subst pl3. destruct (decide _); [|done].
      eapply rchunk_step_trans; [exact H2|].
      apply (rchunk_step_set_chunk xN (fun rc => aupd (RCache.chunk rc) kN _)). }
    clearbody pl3. clear H2 pl2 ER.
    destruct (decide (f_rN _ = _)).
    + intros [= <- <-]. done.
    + intros E. apply IH in E. eapply rchunk_step_trans; eauto.
  - destruct (plotDataChunkSkip pl dN (f_rN st1) (f_id_N st1)) as [rN1 id1].
    cbn [mbind option_bind].
    destruct (decide (f_rN _ = _)).
    + intros [= <- <-]. apply rchunk_step_refl.
    + intros E. by apply IH in E.
Qed.

Lemma rchunk_step_for_range xN (f : Z -> RCache.t -> list RChunk.t) from to pl :
  rchunk_step xN pl
    (for_range from to
       (fun N pl => upd_rcache xN (fun rc => RCache.set_chunk (f N rc) rc) pl) pl).
Proof.
  unfold for_range. generalize (seqZ from (to - from)). intros l. revert pl.
  induction l as [|N l IH]; intros pl; cbn; [apply rchunk_step_refl|].
  eapply rchunk_step_trans; [|apply IH].
  apply (rchunk_step_set_chunk xN (f N)).
Qed.

(** The entry a fetch that went through the rows leaves at [xN]. *)
Lemma plotDataRangeCacheFetch_miss fuel pl dN cN xN pl' :
  plotDataRangeCacheFetch fuel pl dN cN = Some (xN, pl') ->
  let xN0 := plotDataRangeCacheGetNode pl dN cN in
  ~ (xN0 >= 0 /\ RCache.cached (aget (rcache pl) xN0) <> 0) ->
  xN = (if decide (xN0 >= 0) then xN0 else rcache_ID pl)
  /\ exists pl1 lo hi,
       rchunk_step xN pl (set_rcache_ID (rcache_ID pl) pl1)
       /\ pl' = set_rcache_wipe_chunk_N (-1) (set_rcache_wipe_data_N (-1)
                  (upd_rcache xN (fun rc =>
                     RCache.set_fmax hi (RCache.set_fmin lo (RCache.set_cached 1
                       (RCache.set_column_N cN (RCache.set_data_N dN
                          (RCache.set_busy 1 rc)))))) pl1))
       /\ rcache_ID pl1
          = (if decide (xN0 >= 0) then rcache_ID pl
             else if decide (rcache_ID pl < PLOT_RCACHE_SIZE - 1)
                  then rcache_ID pl + 1 else 0).
Proof.
  intros E xN0 Hmiss. unfold plotDataRangeCacheFetch in E. fold xN0 in E.
  rewrite decide_False in E by done.
  destruct (decide (xN0 >= 0)) as [Hx|Hx].
  - destruct (plotDataRangeCacheFetch_chunks _ _ _ _ _ _) as [[pl1 st1]|] eqn:EC;
      cbn [mbind option_bind] in E; [|done].
    injection E as <- <-. split; [done|].
    apply plotDataRangeCacheFetch_chunks_step in EC.
    exists pl1, (f_fmin st1), (f_fmax st1). split; [|split; [done|]].
    + destruct EC as (A1 & A2 & A3 & A4 & A5 & A6 & A7).
      unfold rchunk_step. cbn. done.
    + by destruct EC as (A1 & _).
  - set (pl0 := for_range _ _ _ _) in E.
    destruct (plotDataRangeCacheFetch_chunks _ _ _ _ _ _) as [[pl1 st1]|] eqn:EC;
      cbn [mbind option_bind] in E; [|done].
    injection E as <- <-. split; [done|].
    apply plotDataRangeCacheFetch_chunks_step in EC.
    pose proof (rchunk_step_for_range (rcache_ID pl)
                  (fun N rc => aupd (RCache.chunk rc) N (RChunk.set_computed 0))
                  0 PLOT_CHUNK_MAX
                  (set_rcache_ID
                     (if decide (rcache_ID pl < PLOT_RCACHE_SIZE - 1)
                      then rcache_ID pl + 1 else 0) pl)) as H0.
    fold pl0 in H0.
    exists pl1, (f_fmin st1), (f_fmax st1). split; [|split; [done|]].
    + destruct EC as (A1 & A2 & A3 & A4 & A5 & A6 & A7).
      destruct H0 as (B1 & B2 & B3 & B4 & B5 & B6 & B7).
      unfold rchunk_step. cbn.
      split; [done|]. split; [rewrite A2; exact B2|].
      split; [intros N HN; rewrite A3 by done; by apply B3|].
      rewrite A4, A5, A6, A7. done.
    + destruct EC as (A1 & _). destruct H0 as (B1 & _). rewrite A1. exact B1.
Qed.

(** X15.  Once plotDataRangeCacheFetch has returned entry [xN] for a column,
    the lookup finds that entry, the entry is marked as cached, and a
    further fetch of the column returns [xN] at once and leaves the engine
    as it is. *)
Theorem range_fetch_registers (pl : plot_t) (dN cN : Z) (fuel : nat)
    (xN : Z) (pl' : plot_t) :
  0 <= rcache_ID pl < PLOT_RCACHE_SIZE ->
  PLOT_RCACHE_SIZE <= Z.of_nat (length (rcache pl)) ->
  plotDataRangeCacheFetch fuel pl dN cN = Some (xN, pl') ->
  0 <= xN < PLOT_RCACHE_SIZE
  /\ plotDataRangeCacheGetNode pl' dN cN = xN
  /\ RCache.cached (aget (rcache pl') xN) <> 0
  /\ (forall fuel', plotDataRangeCacheFetch fuel' pl' dN cN = Some (xN, pl'))
  /\ 0 <= rcache_ID pl' < PLOT_RCACHE_SIZE
  /\ length (rcache pl') = length (rcache pl).
Proof.
  intros HID Hlen E.
  assert (Hgoal : 0 <= xN < PLOT_RCACHE_SIZE
            /\ plotDataRangeCacheGetNode pl' dN cN = xN
            /\ RCache.cached (aget (rcache pl') xN) <> 0
            /\ 0 <= rcache_ID pl' < PLOT_RCACHE_SIZE
            /\ length (rcache pl') = length (rcache pl)).
  { pose proof (first_index_spec
      (fun N => bool_decide (RCache.busy (aget (rcache pl) N) <> 0
                  /\ RCache.data_N (aget (rcache pl) N) = dN
                  /\ RCache.column_N (aget (rcache pl) N) = cN))
      0 (Z.to_nat PLOT_RCACHE_SIZE) ltac:(done)) as Hspec.
    cbn zeta in Hspec.
    change (first_index _ 0 (Z.to_nat PLOT_RCACHE_SIZE))
      with (plotDataRangeCacheGetNode pl dN cN) in Hspec.
    destruct (decide (plotDataRangeCacheGetNode pl dN cN >= 0
                      /\ RCache.cached (aget (rcache pl)
                           (plotDataRangeCacheGetNode pl dN cN)) <> 0))
      as [[Hx Hc]|Hmiss].
    - unfold plotDataRangeCacheFetch in E. rewrite decide_True in E by done.
      injection E as <- <-.
      destruct Hspec as [[E1 _]|(Hr & _ & _)]; [lia|].
      split; [lia|]. split; [done|]. split; [done|]. split; [done|]. done.
    - destruct (plotDataRangeCacheFetch_miss _ _ _ _ _ _ E Hmiss)
        as (ExN & pl1 & lo & hi & Hstep & -> & EID).
      destruct Hstep as (_ & L1 & O1 & B1 & D1 & C1 & _). cbn in L1, O1, B1, D1, C1.
      assert (HxN : 0 <= xN < PLOT_RCACHE_SIZE).
      { rewrite ExN. destruct (decide _); [|lia].
        destruct Hspec as [[E1 _]|(Hr & _ & _)]; lia. }
      assert (Hbefore : forall k, 0 <= k < xN ->
                bool_decide (RCache.busy (aget (rcache pl) k) <> 0
                  /\ RCache.data_N (aget (rcache pl) k) = dN
                  /\ RCache.column_N (aget (rcache pl) k) = cN) = false).
      { intros k Hk. destruct Hspec as [[E1 Hall]|(Hr & _ & Hall)].
        - apply Hall. lia.
        - apply Hall. rewrite ExN in Hk. destruct (decide _); lia. }
      assert (Hin : 0 <= xN < Z.of_nat (length (rcache pl1))) by lia.
      split; [done|]. split; [|split; [|split]].
      + unfold plotDataRangeCacheGetNode. apply first_index_found; [lia| |].
        * cbn. rewrite aget_aupd_eq by done. cbn. by apply bool_decide_eq_true.
        * intros k Hk. cbn. rewrite aget_aupd_ne by lia. rewrite O1 by lia.
          by apply Hbefore.
      + cbn. rewrite aget_aupd_eq by done. done.
      + cbn. rewrite EID. repeat destruct (decide _); lia.
      + cbn. rewrite aupd_length. done. }
  destruct Hgoal as (H1 & H2 & H3 & H4 & H5).
  split; [done|]. split; [done|]. split; [done|]. split; [|done].
  intros fuel'. unfold plotDataRangeCacheFetch. rewrite H2.
  rewrite decide_True; [done|]. split; [lia|done].
Qed.

(** ** Range cache: the range of a column fetched for the first time *)

Lemma fgt_Some (x y : Q) : fgt (Some x) (Some y) = true <-> (y < x)%Q.
Proof.
  unfold fgt, fcmp. rewrite Qgt_alt. by destruct (x ?= y)%Q.
Qed.

Lemma flt_Some_false (x y : Q) : flt (Some x) (Some y) = false <-> (y <= x)%Q.
Proof.
  rewrite <- not_true_iff_false, flt_Some. split; [apply Qnot_lt_le|apply Qle_not_lt].
Qed.

Lemma fgt_Some_false (x y : Q) : fgt (Some x) (Some y) = false <-> (x <= y)%Q.
Proof.
  rewrite <- not_true_iff_false, fgt_Some. split; [apply Qnot_lt_le|apply Qle_not_lt].
Qed.

Ltac fcmp_Q :=
  repeat match goal with
  | H : flt (Some _) (Some _) = true |- _ => apply flt_Some in H
  | H : flt (Some _) (Some _) = false |- _ => apply flt_Some_false in H
  | H : fgt (Some _) (Some _) = true |- _ => apply fgt_Some in H
  | H : fgt (Some _) (Some _) = false |- _ => apply fgt_Some_false in H
  end.

Lemma summarises_ext val (S S' : Z -> Prop) fin lo hi :
  (forall m, S' m <-> S m) -> summarises val S fin lo hi -> summarises val S' fin lo hi.
Proof.
  intros HS. unfold summarises. destruct (decide _).
  - intros Hn m Hm. apply Hn. by apply HS.
  - intros (ml & mh & l & u & H1 & H2 & H3 & H4 & H5 & H6 & H7).
    exists ml, mh, l, u. split_and!; try done; try by apply HS.
    intros m y Hm. apply H7. by apply HS.
Qed.

Lemma summarises_none val (S : Z -> Prop) lo hi lo' hi' :
  summarises val S 0 lo hi -> summarises val S 0 lo' hi'.
Proof. done. Qed.

Lemma summarises_empty val (S : Z -> Prop) fin lo hi :
  (forall m, ~ S m) -> summarises val S fin lo hi -> fin = 0.
Proof.
  intros HS. unfold summarises. destruct (decide _); [done|].
  intros (ml & _ & _ & _ & H1 & _). by apply HS in H1.
Qed.

(** One more row in the inner loop. *)
Lemma summarises_add val (S S' : Z -> Prop) j fin lo hi :
  summarises val S fin lo hi -> (forall m, S' m <-> S m \/ m = j) ->
  let '(fin', lo', hi') :=
    if fp_isfinite (val j) then
      if decide (fin <> 0) then
        (fin, if (val j <? lo)%F then val j else lo,
         if (val j >? hi)%F then val j else hi)
      else (1, val j, val j)
    else (fin, lo, hi) in
  summarises val S' fin' lo' hi'.
Proof.
  intros Hs HS. destruct (val j) as [x|] eqn:Ej; cbn [fp_isfinite].
  - destruct (decide (fin <> 0)) as [Hf|Hf].
    + unfold summarises in *. rewrite decide_False in Hs |- * by done.
      destruct Hs as (ml & mh & l & u & H1 & H2 & H3 & H4 & -> & -> & H7).
      destruct (Some x <? Some l)%F eqn:E1; destruct (Some x >? Some u)%F eqn:E2;
        fcmp_Q;
        [exists j, j, x, x|exists j, mh, x, u|exists ml, j, l, x|exists ml, mh, l, u];
        (split_and!; try done; try (apply HS; tauto));
        intros m y Hm Ey; apply HS in Hm as [Hm| ->];
        try (rewrite Ej in Ey; injection Ey as <-);
        try (pose proof (H7 m y Hm Ey));
        pose proof (H7 ml l H1 H3); pose proof (H7 mh u H2 H4); lra.
    + assert (fin = 0) as -> by lia. unfold summarises in *. cbn in Hs |- *.
      exists j, j, x, x. split_and!; try done; try (apply HS; tauto).
      intros m y Hm Ey. apply HS in Hm as [Hm| ->].
      * rewrite (Hs m Hm) in Ey. done.
      * rewrite Ej in Ey. injection Ey as <-. lra.
  - unfold summarises in *. destruct (decide _).
    + intros m Hm. apply HS in Hm as [Hm| ->]; [by apply Hs|done].
    + destruct Hs as (ml & mh & l & u & H1 & H2 & H3 & H4 & H5 & H6 & H7).
      exists ml, mh, l, u. split_and!; try done; try (apply HS; tauto).
      intros m y Hm Ey. apply HS in Hm as [Hm| ->]; [by apply (H7 m)|congruence].
Qed.

(** The bounds of a chunk folded into those kept across the chunks. *)
Lemma summarises_merge val (S1 S2 S' : Z -> Prop) started fmin fmax finite cmin cmax :
  summarises val S1 started fmin fmax -> summarises val S2 finite cmin cmax ->
  (forall m, S' m <-> S1 m \/ S2 m) ->
  let '(started', fmin', fmax') :=
    if decide (finite <> 0) then
      if decide (started <> 0) then
        (started, if (cmin <? fmin)%F then cmin else fmin,
         if (cmax >? fmax)%F then cmax else fmax)
      else (1, cmin, cmax)
    else (started, fmin, fmax) in
  summarises val S' started' fmin' fmax'
  /\ (started' = 0 -> started = 0 /\ fmin' = fmin /\ fmax' = fmax).
Proof.
  intros H1 H2 HS. destruct (decide (finite <> 0)) as [Hf|Hf].
  - unfold summarises in H2. rewrite decide_False in H2 by done.
    destruct H2 as (cl & chh & l2 & u2 & C1 & C2 & C3 & C4 & -> & -> & C7).
    destruct (decide (started <> 0)) as [Hs|Hs].
    + split; [|done].
      unfold summarises in H1 |- *. rewrite decide_False in H1 |- * by done.
      destruct H1 as (ml & mh & l & u & A1 & A2 & A3 & A4 & -> & -> & A7).
      destruct (Some l2 <? Some l)%F eqn:E1; destruct (Some u2 >? Some u)%F eqn:E2;
        fcmp_Q;
        [exists cl, chh, l2, u2|exists cl, mh, l2, u|exists ml, chh, l, u2
        |exists ml, mh, l, u];
        (split_and!; try done; try (apply HS; tauto));
        intros m y Hm Ey; apply HS in Hm as [Hm|Hm];
        try (pose proof (A7 m y Hm Ey)); try (pose proof (C7 m y Hm Ey));
        pose proof (A7 ml l A1 A3); pose proof (A7 mh u A2 A4);
        pose proof (C7 cl l2 C1 C3); pose proof (C7 chh u2 C2 C4); lra.
    + assert (started = 0) as -> by lia. split; [|done].
      unfold summarises in H1 |- *. cbn in H1 |- *.
      exists cl, chh, l2, u2. split_and!; try done; try (apply HS; tauto).
      intros m y Hm Ey. apply HS in Hm as [Hm|Hm]; [|by apply (C7 m)].
      rewrite (H1 m Hm) in Ey. done.
  - assert (finite = 0) as -> by lia. split; [|done].
    unfold summarises in H1, H2 |- *. cbn in H2. destruct (decide _).
    + intros m Hm. apply HS in Hm as [Hm|Hm]; [by apply H1|by apply H2].
    + destruct H1 as (ml & mh & l & u & A1 & A2 & A3 & A4 & A5 & A6 & A7).
      exists ml, mh, l, u. split_and!; try done; try (apply HS; tauto).
      intros m y Hm Ey. apply HS in Hm as [Hm|Hm]; [by apply (A7 m)|].
      rewrite (H2 m Hm) in Ey. done.
Qed.

Section fetch.

Variables (pl0 : plot_t) (dN cN xN : Z).
Hypothesis Hwf : wf_plot pl0 dN.

Let d := aget (data pl0) dN.
Let n := ring_dist d (Data.head_N d).
Let rix (i : Z) : Z := (Data.head_N d + i) mod Data.length_N d.
Let chk (i : Z) : Z := Z.shiftr (rix i) (Data.chunk_SHIFT d).
Let val (i : Z) : fval_t :=
  if decide (cN < 0) then fval_of_int (Data.id_N d + i) else cell d (rix i) cN.

Lemma fetch_wf : wf_data d.
Proof. apply Hwf. Qed.

Lemma fetch_n_range : 0 <= n < Data.length_N d.
Proof.
  pose proof fetch_wf as Hd. pose proof Hd as (_ & _ & _ & _ & Hh & _).
  by apply ring_dist_range.
Qed.

Lemma fetch_rix_range i : 0 <= rix i < Data.length_N d.
Proof.
  pose proof fetch_wf as (_ & _ & _ & HL & _).
  apply Z.mod_pos_bound. lia.
Qed.

Lemma fetch_rix_tail i : 0 <= i <= n -> rix i = Data.tail_N d <-> i = n.
Proof.
  intros Hi. pose proof fetch_n_range as Hn.
  pose proof fetch_wf as (_ & _ & _ & HL & Hh & Ht & _).
  apply ring_pos; done || lia.
Qed.

Lemma fetch_rix_next i : ring_next d (rix i) = rix (i + 1).
Proof.
  pose proof fetch_wf as (_ & _ & _ & HL & _).
  rewrite ring_next_mod by (done || apply fetch_rix_range).
  unfold rix. rewrite Zplus_mod_idemp_l. f_equal. lia.
Qed.

Lemma fetch_get pl i :
  data pl = data pl0 -> lz4_compress pl = lz4_compress pl0 -> 0 <= i < n ->
  exists row, plotDataGet pl dN (rix i) = (pl, Some row, rix (i + 1))
    /\ row_val pl dN row (Data.id_N d + i) cN = val i.
Proof.
  intros Ed Elz Hi.
  assert (Hwf' : wf_plot pl dN) by (by apply (wf_plot_same pl0)).
  assert (Hne : rix i <> Data.tail_N d) by (rewrite fetch_rix_tail; lia).
  pose proof (plotDataGet_ring pl dN (rix i) Hwf') as HG. cbv zeta in HG.
  rewrite Ed in HG. fold d in HG.
  rewrite HG by (done || apply fetch_rix_range).
  eexists. split; [by rewrite fetch_rix_next|].
  unfold row_val, val, row_get, cell. rewrite Ed. fold d. done.
Qed.

Lemma fetch_rows_ring fuel pl kN st i (S : Z -> Prop) :
  data pl = data pl0 -> lz4_compress pl = lz4_compress pl0 ->
  0 <= i <= n -> f_rN st = rix i -> f_id_N st = Data.id_N d + i ->
  n - i < Z.of_nat fuel ->
  summarises val S (f_finite st) (f_ymin st) (f_ymax st) ->
  exists j st',
    i <= j <= n
    /\ plotDataRangeCacheFetch_rows fuel pl dN cN kN st = Some (pl, st')
    /\ f_rN st' = rix j /\ f_id_N st' = Data.id_N d + j
    /\ f_fmin st' = f_fmin st /\ f_fmax st' = f_fmax st
    /\ f_started st' = f_started st
    /\ (forall m, i <= m < j -> chk m = kN) /\ (j = n \/ chk j <> kN)
    /\ summarises val (fun m => S m \/ i <= m < j)
         (f_finite st') (f_ymin st') (f_ymax st').
Proof.
  intros Ed Elz. revert st i S.
  induction fuel as [|fuel IH]; intros st i S Hi Hr Hid Hfuel Hs; [lia|].
  cbn [plotDataRangeCacheFetch_rows]. unfold plotDataChunkN.
  rewrite Hr, Ed. fold d. change (Z.shiftr (rix i) (Data.chunk_SHIFT d)) with (chk i).
  destruct (decide (kN <> chk i)) as [Hk|Hk].
  { exists i, st. split; [lia|]. do 6 (split; [done|]).
    split; [intros; lia|]. split; [right; congruence|].
    eapply summarises_ext; [|exact Hs]. intros m. split; [intros [?|?]; [done|lia]|tauto]. }
  apply dec_stable in Hk.
  destruct (decide (i = n)) as [->|Hne].
  { assert (Et : rix n = Data.tail_N (aget (data pl) dN)).
    { rewrite Ed. fold d. by apply fetch_rix_tail. }
    rewrite Et, plotDataGet_tail.
    exists n, st. split; [lia|]. do 6 (split; [done|]).
    split; [intros; lia|]. split; [by left|].
    eapply summarises_ext; [|exact Hs]. intros m. split; [intros [?|?]; [done|lia]|tauto]. }
  destruct (fetch_get pl i Ed Elz ltac:(lia)) as (row & -> & Ev).
  rewrite Hid, Ev.
  pose proof (summarises_add val S (fun m => S m \/ m = i) i _ _ _ Hs
                ltac:(intros; reflexivity)) as Hadd.
  destruct (if fp_isfinite (val i) then _ else _) as [[fin' lo'] hi'].
  set (st1 := {| f_rN := rix (i + 1) |}).
  destruct (IH st1 (i + 1) _ ltac:(lia) eq_refl ltac:(cbn; lia) ltac:(lia) Hadd)
    as (j & st' & Hj & -> & E1 & E2 & E3 & E4 & E5 & Hall & Hlast & Hs').
  exists j, st'. split; [lia|]. do 6 (split; [done|]). split; [|split; [done|]].
  - intros m Hm. destruct (decide (m = i)) as [->|]; [done|]. apply Hall. lia.
  - eapply summarises_ext; [|exact Hs']. intros m. cbn. split.
    + intros [?|?]; [tauto|]. destruct (decide (m = i)); [tauto|]. right. lia.
    + intros [[?|?]|?]; [tauto|right; lia|right; lia].
Qed.

(** A chunk met again after other chunks is the one the ring wraps in: it
    holds [tail_N]. *)
Lemma fetch_chunk_again m i :
  0 <= m < i -> i < n -> chk m = chk i -> chk (i - 1) <> chk i ->
  chk i = Z.shiftr (Data.tail_N d) (Data.chunk_SHIFT d).
Proof.
  intros Hm Hi Em Hne. pose proof fetch_n_range as Hn.
  pose proof fetch_wf as (Hs & _ & _ & HL & Hh & Ht & _).
  assert (Et : Data.tail_N d = rix n) by (symmetry; apply fetch_rix_tail; lia).
  rewrite Et. unfold chk, rix in *. rewrite !shiftr_div in * by done.
  assert (HP : 0 < 2 ^ Data.chunk_SHIFT d) by (apply Z.pow_pos_nonneg; lia).
  revert Em Hne. rewrite !mod_wrap by lia.
  set (P := 2 ^ Data.chunk_SHIFT d) in *. set (h := Data.head_N d) in *.
  set (l := Data.length_N d) in *. clearbody P h l. clear Et val chk rix.
  set (a := if decide (h + m < 0) then _ else _).
  set (b := if decide (h + (i - 1) < 0) then _ else _).
  set (c := if decide (h + i < 0) then _ else _).
  set (t := if decide (h + n < 0) then _ else _).
  intros Em Hne.
  pose proof (Z.div_le_mono a b P HP) as M1.
  pose proof (Z.div_le_mono b c P HP) as M2.
  pose proof (Z.div_le_mono c t P HP) as M3.
  pose proof (Z.div_le_mono t a P HP) as M4.
  revert Em Hne M1 M2 M3 M4.
  generalize (a / P) (b / P) (c / P) (t / P). intros qa qb qc qt.
  subst a b c t. repeat destruct (decide _); lia.
Qed.

Lemma fetch_chk_range i :
  0 <= chk i <= Z.shiftr (Data.length_N d - 1) (Data.chunk_SHIFT d).
Proof.
  pose proof (fetch_rix_range i) as Hr.
  pose proof fetch_wf as (Hs & _).
  unfold chk. rewrite !shiftr_div by done.
  assert (HP : 0 < 2 ^ Data.chunk_SHIFT d) by (apply Z.pow_pos_nonneg; lia).
  split; [apply Z.div_pos; lia|apply Z.div_le_mono; lia].
Qed.

Let chunk_of (pl : plot_t) (k : Z) : RChunk.t :=
  aget (RCache.chunk (aget (rcache pl) xN)) k.

(** The record of chunk [k] after the rows of the chunk have been gone
    through. *)
Lemma fetch_mark pl k f lo hi :
  0 <= xN < Z.of_nat (length (rcache pl)) ->
  0 <= k < Z.of_nat (length (RCache.chunk (aget (rcache pl) xN))) ->
  let pl2 :=
    upd_rcache xN (fun rc =>
      RCache.set_chunk
        (aupd (RCache.chunk rc) k
           (fun ch => RChunk.set_finite f (RChunk.set_computed 1 ch))) rc) pl in
  let pl3 :=
    if decide (f <> 0) then
      upd_rcache xN (fun rc =>
        RCache.set_chunk
          (aupd (RCache.chunk rc) k
             (fun ch => RChunk.set_fmax hi (RChunk.set_fmin lo ch))) rc) pl2
    else pl2 in
  data pl3 = data pl /\ lz4_compress pl3 = lz4_compress pl
  /\ length (rcache pl3) = length (rcache pl)
  /\ length (RCache.chunk (aget (rcache pl3) xN))
     = length (RCache.chunk (aget (rcache pl) xN))
  /\ RChunk.computed (chunk_of pl3 k) = 1
  /\ RChunk.finite (chunk_of pl3 k) = f
  /\ (f <> 0 -> RChunk.fmin (chunk_of pl3 k) = lo /\ RChunk.fmax (chunk_of pl3 k) = hi)
  /\ forall k', k' <> k -> chunk_of pl3 k' = chunk_of pl k'.
Proof.
  intros HxN Hk pl2 pl3.
  assert (E2 : aget (rcache pl2) xN
               = RCache.set_chunk
                   (aupd (RCache.chunk (aget (rcache pl) xN)) k
                      (fun ch => RChunk.set_finite f (RChunk.set_computed 1 ch)))
                   (aget (rcache pl) xN)).
  { unfold pl2. cbn. by rewrite aget_aupd_eq. }
  assert (L2 : length (rcache pl2) = length (rcache pl)).
  { unfold pl2. cbn. by rewrite aupd_length. }
  unfold chunk_of, pl3. destruct (decide (f <> 0)) as [Hf|Hf].
  - cbn [rcache upd_rcache set_rcache data lz4_compress].
    rewrite aupd_length, aget_aupd_eq by lia. rewrite E2.
    cbn [RCache.chunk RCache.set_chunk].
    rewrite !aupd_length. rewrite !aget_aupd_eq by (rewrite ?aupd_length; lia).
    split_and!; try done.
    intros k' Hk'. by rewrite !aget_aupd_ne.
  - rewrite E2, L2. cbn [RCache.chunk RCache.set_chunk].
    rewrite !aupd_length. rewrite !aget_aupd_eq by (rewrite ?aupd_length; lia).
    split_and!; try done.
    intros k' Hk'. by rewrite !aget_aupd_ne.
Qed.

(** What holds each time the outer loop starts over, [i] rows on from
    [head_N]. *)
Let Inv (pl : plot_t) (st : fetch_t) (i : Z) : Prop :=
  data pl = data pl0 /\ lz4_compress pl = lz4_compress pl0
  /\ 0 <= i <= n /\ (i = n -> n = 0)
  /\ f_rN st = rix i /\ f_id_N st = Data.id_N d + i
  /\ summarises val (fun m => 0 <= m < i) (f_started st) (f_fmin st) (f_fmax st)
  /\ (f_started st = 0 -> f_fmin st = fval_of_int 0 /\ f_fmax st = fval_of_int 0)
  /\ (0 < i -> chk (i - 1) <> chk i)
  /\ 0 <= xN < Z.of_nat (length (rcache pl))
  /\ Z.shiftr (Data.length_N d - 1) (Data.chunk_SHIFT d)
     < Z.of_nat (length (RCache.chunk (aget (rcache pl) xN)))
  /\ forall k, 0 <= k <= Z.shiftr (Data.length_N d - 1) (Data.chunk_SHIFT d) ->
       if decide (RChunk.computed (chunk_of pl k) <> 0) then
         (exists m, 0 <= m < i /\ chk m = k)
         /\ summarises val (fun m => 0 <= m < i /\ chk m = k)
              (RChunk.finite (chunk_of pl k))
              (RChunk.fmin (chunk_of pl k)) (RChunk.fmax (chunk_of pl k))
       else forall m, 0 <= m < i -> chk m <> k.

Lemma fetch_chunks_ring fuel pl st i :
  Inv pl st i -> n - i < Z.of_nat fuel ->
  exists pl' st',
    plotDataRangeCacheFetch_chunks fuel pl dN cN xN st = Some (pl', st')
    /\ data pl' = data pl0
    /\ summarises val (fun m => 0 <= m < n) (f_started st') (f_fmin st') (f_fmax st')
    /\ (f_started st' = 0 ->
        f_fmin st' = fval_of_int 0 /\ f_fmax st' = fval_of_int 0).
Proof.
  revert pl st i. induction fuel as [|fuel IH]; intros pl st i HI Hfuel.
  { destruct HI as (_ & _ & Hi & _). lia. }
  destruct HI as (Ed & Elz & Hi & Hin & Hr & Hid & Hagg & Hz & Hprev & HxN & Hlen & Hch).
  cbn [plotDataRangeCacheFetch_chunks]. unfold plotDataChunkN.
  rewrite Hr, Ed. fold d. change (Z.shiftr (rix i) (Data.chunk_SHIFT d)) with (chk i).
  set (k := chk i). pose proof (fetch_chk_range i) as Hk. fold k in Hk.
  fold (chunk_of pl k). pose proof (Hch k Hk) as Hchk.
  destruct (if decide (RChunk.computed (chunk_of pl k) <> 0) then _ else _)
    as [job st1] eqn:EJ.
  assert (Hst1 : job = 1 /\ f_rN st1 = rix i /\ f_id_N st1 = Data.id_N d + i
            /\ f_fmin st1 = f_fmin st /\ f_fmax st1 = f_fmax st
            /\ f_started st1 = f_started st
            /\ summarises val (fun m => 0 <= m < i /\ chk m = k)
                 (f_finite st1) (f_ymin st1) (f_ymax st1)).
  { destruct (decide (RChunk.computed (chunk_of pl k) <> 0)) as [Hc|Hc].
    - destruct Hchk as [(m & Hm & Em) Hsum].
      assert (Ek : k = Z.shiftr (Data.tail_N d) (Data.chunk_SHIFT d)).
      { apply (fetch_chunk_again m i); [lia|lia|done|apply Hprev; lia]. }
      rewrite decide_True in EJ by done. injection EJ as <- <-. cbn. done.
    - injection EJ as <- <-. cbn. split_and!; try done.
      intros m [Hm Em]. by apply Hchk in Hm. }
  destruct Hst1 as (-> & Hr1 & Hid1 & F1 & F2 & F3 & Hs1). clear EJ.
  rewrite decide_True by done.
  destruct (fetch_rows_ring (S fuel) pl k st1 i _ Ed Elz Hi Hr1 Hid1 ltac:(lia) Hs1)
    as (j & st2 & Hj & -> & Hr2 & Hid2 & G1 & G2 & G3 & Hall & Hlast & Hs2).
  cbn [mbind option_bind].
  pose proof (fetch_mark pl k (f_finite st2) (f_ymin st2) (f_ymax st2) HxN
                ltac:(lia)) as HM.
  cbv zeta in HM.
  set (pl3 := if decide (f_finite st2 <> 0) then _ else _) in *.
  destruct HM as (Ed3 & Elz3 & L3 & LC3 & C3 & Fin3 & MM3 & Oth3). clearbody pl3.
  fold (chunk_of pl3 k).
  assert (HsK : summarises val (fun m => 0 <= m < j /\ chk m = k)
                  (RChunk.finite (chunk_of pl3 k))
                  (RChunk.fmin (chunk_of pl3 k)) (RChunk.fmax (chunk_of pl3 k))).
  { assert (Hset : forall m, 0 <= m < j /\ chk m = k
                     <-> (0 <= m < i /\ chk m = k) \/ i <= m < j).
    { intros m. split.
      - intros [Hm Em]. destruct (decide (m < i)); [left|right]; (done || lia).
      - intros [[Hm Em]|Hm]; (split; [lia|done || by apply Hall]). }
    rewrite Fin3. destruct (decide (f_finite st2 = 0)) as [E0|E0].
    - rewrite E0 in Hs2 |- *.
      apply (summarises_none _ _ (f_ymin st2) (f_ymax st2)).
      exact (summarises_ext _ _ _ _ _ _ Hset Hs2).
    - destruct (MM3 E0) as [-> ->].
      exact (summarises_ext _ _ _ _ _ _ Hset Hs2). }
  assert (Hagg2 : summarises val (fun m => 0 <= m < i)
                    (f_started st2) (f_fmin st2) (f_fmax st2)).
  { by rewrite G1, G2, G3, F1, F2, F3. }
  pose proof (summarises_merge val _ _ (fun m => 0 <= m < j) _ _ _ _ _ _ Hagg2 HsK)
    as HMg.
  set (st3 := if decide (RChunk.finite (chunk_of pl3 k) <> 0) then _ else st2).
  assert (H3 : f_rN st3 = rix j /\ f_id_N st3 = Data.id_N d + j
               /\ summarises val (fun m => 0 <= m < j)
                    (f_started st3) (f_fmin st3) (f_fmax st3)
               /\ (f_started st3 = 0 ->
                   f_fmin st3 = fval_of_int 0 /\ f_fmax st3 = fval_of_int 0)).
  { assert (Hset : forall m, 0 <= m < j
                     <-> 0 <= m < i \/ (0 <= m < j /\ chk m = k)).
    { intros m. split.
      - intros Hm. destruct (decide (m < i)); [left; lia|right].
        split; [done|]. apply Hall. lia.
      - intros [Hm|[Hm _]]; lia. }
    specialize (HMg Hset). subst st3.
    destruct (decide (RChunk.finite (chunk_of pl3 k) <> 0));
      [destruct (decide (f_started st2 <> 0))|]; cbn;
      destruct HMg as [HA HB]; (split; [done|]); (split; [done|]);
      (split; [done|]); intros E0; destruct (HB E0) as (E1 & E2 & E3);
      try done.
    rewrite G3, F3 in E0. destruct (Hz E0) as [Z1 Z2].
    by rewrite G1, G2, F1, F2. }
  clearbody st3. destruct H3 as (Hr3 & Hid3 & Hagg3 & Hz3).
  rewrite Hr3, Ed3, Ed. fold d.
  destruct (decide (rix j = Data.tail_N d)) as [Et|Et].
  - apply fetch_rix_tail in Et; [|lia]. subst j.
    exists pl3, st3. split; [done|]. split; [congruence|]. done.
  - assert (Hjn : j <> n).
    { intros ->. apply Et. by apply (proj2 (fetch_rix_tail n ltac:(lia))). }
    assert (Hkj : chk j <> k) by (destruct Hlast; done).
    assert (Hij : i < j).
    { destruct (decide (i = j)) as [<-|]; [done|lia]. }
    apply (IH pl3 st3 j); [|lia].
    unfold Inv. split; [congruence|]. split; [congruence|].
    split; [lia|]. split; [done|]. split; [done|]. split; [done|].
    split; [done|]. split; [done|].
    split; [intros _; rewrite (Hall (j - 1)) by lia; congruence|].
    split; [lia|]. split; [lia|].
    intros k' Hk'. destruct (decide (k' = k)) as [->|Hne].
    + rewrite C3. rewrite decide_True by done. split; [|done].
      exists i. split; [lia|done].
    + rewrite (Oth3 k' Hne). specialize (Hch k' Hk').
      destruct (decide (RChunk.computed (chunk_of pl k') <> 0)).
      * destruct Hch as [(m & Hm & Em) Hsum]. split; [exists m; split; [lia|done]|].
        eapply summarises_ext; [|exact Hsum]. intros m'. split.
        -- intros [Hm' Em']. split; [|done].
           destruct (decide (m' < i)); [lia|]. rewrite Hall in Em' by lia. congruence.
        -- intros [Hm' Em']. split; [lia|done].
      * intros m Hm. destruct (decide (m < i)); [apply Hch; lia|].
        rewrite Hall by lia. congruence.
Qed.

Lemma fetch_column_elem v :
  v ∈ ring_column d cN (Data.head_N d) (Z.to_nat n) (Data.id_N d)
  <-> exists m, 0 <= m < n /\ v = val m.
Proof.
  pose proof fetch_n_range as Hn. unfold ring_column.
  change (map ?f ?l) with (f <$> l). rewrite list_elem_of_fmap. split.
  - intros (i & -> & Hi). apply elem_of_seq in Hi.
    exists (Z.of_nat i). split; [lia|done].
  - intros (m & Hm & ->). exists (Z.to_nat m). split.
    + unfold val, rix. by rewrite Z2Nat.id by lia.
    + apply elem_of_seq. lia.
Qed.

Lemma fetch_is_range started lo hi :
  summarises val (fun m => 0 <= m < n) started lo hi ->
  (started = 0 -> lo = fval_of_int 0 /\ hi = fval_of_int 0) ->
  is_range lo hi (ring_column d cN (Data.head_N d) (Z.to_nat n) (Data.id_N d)).
Proof.
  intros Hs Hz. unfold summarises in Hs.
  assert (Hin : forall v, v ∈ finite_values
                   (ring_column d cN (Data.head_N d) (Z.to_nat n) (Data.id_N d))
                 <-> exists m y, 0 <= m < n /\ val m = Some y /\ v = Some y).
  { intros v. unfold finite_values. rewrite list_elem_of_filter, fetch_column_elem.
    split.
    - intros [Hf (m & Hm & ->)]. destruct (val m) as [y|] eqn:Ev; [|done].
      by exists m, y.
    - intros (m & y & Hm & Ev & ->). split; [done|]. exists m. by rewrite Ev. }
  destruct (decide (started = 0)) as [E0|E0].
  - split; [intros _; by apply Hz|]. intros Hne.
    destruct (finite_values _) as [|v vs] eqn:Ef; [done|].
    assert (Hv : v ∈ v :: vs) by (apply elem_of_cons; by left).
    apply Hin in Hv as (m & y & Hm & Ev & ->). rewrite (Hs m Hm) in Ev. done.
  - destruct Hs as (ml & mh & l & u & H1 & H2 & H3 & H4 & -> & -> & H7). split.
    + intros Ee. assert (Hv : Some l ∈ finite_values
        (ring_column d cN (Data.head_N d) (Z.to_nat n) (Data.id_N d))).
      { apply Hin. by exists ml, l. }
      rewrite Ee in Hv. by apply elem_of_nil in Hv.
    + intros _. split; (split; [apply Hin; eauto|]).
      * intros v Hv. apply Hin in Hv as (m & y & Hm & Ev & ->).
        apply fle_Some. by apply (H7 m y).
      * intros v Hv. apply Hin in Hv as (m & y & Hm & Ev & ->).
        apply fle_Some. by apply (H7 m y).
Qed.

(** The outer loop started at [head_N] on an entry with no chunk computed. *)
Lemma fetch_fresh_ring fuel pl :
  data pl = data pl0 -> lz4_compress pl = lz4_compress pl0 ->
  0 <= xN < Z.of_nat (length (rcache pl)) ->
  Z.shiftr (Data.length_N d - 1) (Data.chunk_SHIFT d)
    < Z.of_nat (length (RCache.chunk (aget (rcache pl) xN))) ->
  (forall k, 0 <= k <= Z.shiftr (Data.length_N d - 1) (Data.chunk_SHIFT d) ->
     RChunk.computed (chunk_of pl k) = 0) ->
  Data.length_N d <= Z.of_nat fuel ->
  exists pl' st',
    plotDataRangeCacheFetch_chunks fuel pl dN cN xN
      {| f_rN := Data.head_N d; f_id_N := Data.id_N d;
         f_fmin := fval_of_int 0; f_fmax := fval_of_int 0; f_started := 0;
         f_finite := 0; f_ymin := FP_NAN; f_ymax := FP_NAN |}
    = Some (pl', st')
    /\ data pl' = data pl0
    /\ is_range (f_fmin st') (f_fmax st')
         (ring_column d cN (Data.head_N d) (Z.to_nat n) (Data.id_N d)).
Proof.
  intros Ed Elz HxN Hlen Hc Hfuel. pose proof fetch_n_range as Hn.
  pose proof fetch_wf as (_ & _ & _ & HL & Hh & _).
  destruct (fetch_chunks_ring fuel pl
              {| f_rN := Data.head_N d; f_id_N := Data.id_N d;
                 f_fmin := fval_of_int 0; f_fmax := fval_of_int 0; f_started := 0;
                 f_finite := 0; f_ymin := FP_NAN; f_ymax := FP_NAN |} 0)
    as (pl' & st' & E & Ed' & Hs & Hz); [|lia|].
  - unfold Inv. cbn [f_rN f_id_N f_fmin f_fmax f_started].
    split; [done|]. split; [done|]. split; [lia|]. split; [done|].
    split; [unfold rix; by rewrite Z.add_0_r, Z.mod_small|].
    split; [lia|].
    split; [unfold summarises; cbn; intros m Hm; lia|].
    split; [by intros _; split|].
    split; [intros ?; lia|]. split; [done|]. split; [done|].
    intros k Hk. rewrite (Hc k Hk). rewrite decide_False by lia.
    intros m Hm. lia.
  - exists pl', st'. split; [done|]. split; [done|].
    by apply (fetch_is_range (f_started st')).
Qed.

(** *** The loops come to an end on any state of the range cache *)

Lemma fetch_rix_off i : 0 <= i < Data.length_N d -> ring_off d (rix i) = i.
Proof.
  intros Hi. unfold ring_off, rix.
  rewrite Zminus_mod_idemp_l.
  replace (Data.head_N d + i - Data.head_N d) with i by lia.
  by apply Z.mod_small.
Qed.

Lemma fetch_off_rix r : 0 <= r < Data.length_N d -> rix (ring_off d r) = r.
Proof.
  intros Hr. unfold ring_off, rix.
  rewrite Zplus_mod_idemp_r.
  replace (Data.head_N d + (r - Data.head_N d)) with r by lia.
  by apply Z.mod_small.
Qed.

Lemma fetch_rows_returns fuel pl kN st i :
  data pl = data pl0 -> lz4_compress pl = lz4_compress pl0 ->
  0 <= i <= n -> f_rN st = rix i -> f_id_N st = Data.id_N d + i ->
  n - i < Z.of_nat fuel ->
  exists j st',
    i <= j <= n
    /\ plotDataRangeCacheFetch_rows fuel pl dN cN kN st = Some (pl, st')
    /\ f_rN st' = rix j /\ f_id_N st' = Data.id_N d + j
    /\ (forall m, i <= m < j -> chk m = kN) /\ (j = n \/ chk j <> kN).
Proof.
  intros Ed Elz. revert st i.
  induction fuel as [|fuel IH]; intros st i Hi Hr Hid Hfuel; [lia|].
  cbn [plotDataRangeCacheFetch_rows]. unfold plotDataChunkN.
  rewrite Hr, Ed. fold d. change (Z.shiftr (rix i) (Data.chunk_SHIFT d)) with (chk i).
  destruct (decide (kN <> chk i)) as [Hk|Hk].
  { exists i, st. split; [lia|]. do 3 (split; [done|]).
    split; [intros; lia|]. right; congruence. }
  apply dec_stable in Hk.
  destruct (decide (i = n)) as [->|Hne].
  { assert (Et : rix n = Data.tail_N (aget (data pl) dN)).
    { rewrite Ed. fold d. by apply fetch_rix_tail. }
    rewrite Et, plotDataGet_tail.
    exists n, st. split; [lia|]. do 3 (split; [done|]).
    split; [intros; lia|]. by left. }
  destruct (fetch_get pl i Ed Elz ltac:(lia)) as (row & -> & Ev).
  destruct (if fp_isfinite _ then _ else _) as [[fin' lo'] hi'].
  set (st1 := {| f_rN := rix (i + 1) |}).
  destruct (IH st1 (i + 1) ltac:(lia) eq_refl ltac:(cbn; lia) ltac:(lia))
    as (j & st' & Hj & -> & E1 & E2 & Hall & Hlast).
  exists j, st'. split; [lia|]. do 3 (split; [done|]). split; [|done].
  intros m Hm. destruct (decide (m = i)) as [->|]; [done|]. apply Hall. lia.
Qed.

Lemma fetch_chunk_skip pl i :
  data pl = data pl0 -> 0 <= i <= n ->
  exists j,
    i <= j <= n /\ (i < n -> i < j)
    /\ plotDataChunkSkip pl dN (rix i) (Data.id_N d + i) = (rix j, Data.id_N d + j).
Proof.
  intros Ed Hi. pose proof fetch_n_range as Hn. pose proof fetch_wf as Hd.
  pose proof Hd as (Hs & Hmask & _ & HL & Hh & Ht & _).
  pose proof (fetch_rix_range i) as Hr.
  unfold plotDataChunkSkip. rewrite Ed. fold d.
  set (sk := if decide (_ < _) then _ else _).
  assert (Hsk : 1 <= sk).
  { subst sk. rewrite Hmask, land_mod by done.
    assert (HP : 0 < 2 ^ Data.chunk_SHIFT d) by (apply Z.pow_pos_nonneg; lia).
    pose proof (Z.mod_pos_bound (rix i) _ HP) as Hm. revert Hr Hm.
    generalize (rix i). intros r Hr Hm. revert Hm.
    generalize (r mod 2 ^ Data.chunk_SHIFT d). generalize (2 ^ Data.chunk_SHIFT d).
    intros P q Hq. destruct (decide (Data.length_N d - r < P - q)); lia. }
  clearbody sk.
  pose proof (plotDataSkip_offset pl dN (rix i) (Data.id_N d + i) sk) as HS.
  cbv zeta in HS. rewrite Ed in HS. fold d in HS.
  destruct (HS Hd Hr) as (Hr' & Ho & Hid). clear HS.
  rewrite fetch_rix_off in Ho, Hid by lia.
  change (ring_off d (Data.tail_N d)) with n in Ho.
  destruct (plotDataSkip pl dN (rix i) (Data.id_N d + i) sk) as [rN' id'].
  cbn [fst snd] in *.
  exists (ring_off d rN'). split; [lia|]. split; [lia|].
  rewrite fetch_off_rix by done. f_equal. lia.
Qed.

Lemma fetch_chunks_returns fuel pl st i :
  data pl = data pl0 -> lz4_compress pl = lz4_compress pl0 ->
  0 <= i <= n -> (i = n -> n = 0) ->
  f_rN st = rix i -> f_id_N st = Data.id_N d + i ->
  n - i < Z.of_nat fuel ->
  exists pl' st',
    plotDataRangeCacheFetch_chunks fuel pl dN cN xN st = Some (pl', st')
    /\ data pl' = data pl0.
Proof.
  revert pl st i. induction fuel as [|fuel IH]; intros pl st i Ed Elz Hi Hin Hr Hid Hfuel;
    [lia|].
  cbn [plotDataRangeCacheFetch_chunks]. unfold plotDataChunkN.
  rewrite Hr, Ed. fold d. change (Z.shiftr (rix i) (Data.chunk_SHIFT d)) with (chk i).
  set (k := chk i).
  destruct (if decide (RChunk.computed _ <> 0) then _ else _) as [job st1] eqn:EJ.
  assert (Hst1 : f_rN st1 = rix i /\ f_id_N st1 = Data.id_N d + i).
  { revert EJ. destruct (decide (RChunk.computed _ <> 0));
      [destruct (decide (k = _))|]; by intros [= <- <-]. }
  destruct Hst1 as [Hr1 Hid1]. clear EJ.
  match goal with |- context [if decide (job <> 0) then ?A else ?B] =>
    assert (Hstep : exists pl3 st3 j,
      i <= j <= n /\ (j = n \/ i < j)
      /\ (if decide (job <> 0) then A else B) = Some (pl3, st3)
      /\ data pl3 = data pl0 /\ lz4_compress pl3 = lz4_compress pl0
      /\ f_rN st3 = rix j /\ f_id_N st3 = Data.id_N d + j) end.
  { destruct (decide (job <> 0)).
    - destruct (fetch_rows_returns (S fuel) pl k st1 i Ed Elz Hi Hr1 Hid1 ltac:(lia))
        as (j & st2 & Hj & -> & Hr2 & Hid2 & Hall & Hlast).
      cbn [mbind option_bind].
      eexists _, st2, j. split; [done|]. split.
      { destruct Hlast as [?|Hk]; [by left|right].
        destruct (decide (i = j)) as [<-|]; [done|lia]. }
      split; [reflexivity|].
      split; [destruct (decide (f_finite st2 <> 0)); exact Ed|].
      split; [destruct (decide (f_finite st2 <> 0)); exact Elz|]. done.
    - rewrite Hr1, Hid1.
      destruct (fetch_chunk_skip pl i Ed Hi) as (j & Hj & Hlt & ->).
      eexists pl, _, j. split; [done|]. split; [lia|].
      split; [reflexivity|]. done. }
  destruct Hstep as (pl3 & st3 & j & Hj & Hadv & -> & Ed3 & Elz3 & Hr3 & Hid3).
  cbn [mbind option_bind].
  set (st4 := if decide (RChunk.finite _ <> 0) then _ else st3).
  assert (H4 : f_rN st4 = rix j /\ f_id_N st4 = Data.id_N d + j).
  { subst st4. destruct (decide (RChunk.finite _ <> 0)); [|done].
    by destruct (decide (f_started st3 <> 0)). }
  destruct H4 as [Hr4 Hid4]. clearbody st4.
  rewrite Hr4, Ed3. fold d.
  destruct (decide (rix j = Data.tail_N d)) as [Et|Et]; [by eexists _, _|].
  assert (Hjn : j <> n).
  { intros ->. apply Et. by apply (proj2 (fetch_rix_tail n ltac:(lia))). }
  apply (IH pl3 st4 j); try done; lia.
Qed.

End fetch.

Lemma fetch_reset xN pl :
  let pl1 :=
    for_range 0 PLOT_CHUNK_MAX
      (fun N pl =>
         upd_rcache xN (fun rc =>
           RCache.set_chunk (aupd (RCache.chunk rc) N (RChunk.set_computed 0)) rc) pl)
      pl in
  data pl1 = data pl /\ lz4_compress pl1 = lz4_compress pl
  /\ length (rcache pl1) = length (rcache pl)
  /\ length (RCache.chunk (aget (rcache pl1) xN))
     = length (RCache.chunk (aget (rcache pl) xN))
  /\ forall k, 0 <= k < PLOT_CHUNK_MAX ->
       RChunk.computed (aget (RCache.chunk (aget (rcache pl1) xN)) k) = 0.
Proof.
  cbv zeta. split_and!.
  - unfold for_range. generalize (seqZ 0 (PLOT_CHUNK_MAX - 0)). intros l.
    revert pl. induction l as [|N l IH]; intros pl; cbn; [done|]. by rewrite IH.
  - unfold for_range. generalize (seqZ 0 (PLOT_CHUNK_MAX - 0)). intros l.
    revert pl. induction l as [|N l IH]; intros pl; cbn; [done|]. by rewrite IH.
  - unfold for_range. generalize (seqZ 0 (PLOT_CHUNK_MAX - 0)). intros l.
    revert pl. induction l as [|N l IH]; intros pl; cbn; [done|].
    rewrite IH. cbn. apply aupd_length.
  - unfold for_range. generalize (seqZ 0 (PLOT_CHUNK_MAX - 0)). intros l.
    revert pl. induction l as [|N l IH]; intros pl; cbn; [done|].
    rewrite IH. cbn.
    destruct (decide (0 <= xN < Z.of_nat (length (rcache pl)))).
    + rewrite aget_aupd_eq by done. cbn. apply aupd_length.
    + rewrite !aget_default; [done|by rewrite ?aupd_length..].
  - intros k Hk.
    rewrite (for_range_entry (fun pl => RCache.chunk (aget (rcache pl) xN)) _
               (RChunk.set_computed 0)).
    + rewrite decide_True by lia. done.
    + intros s N. cbn.
      destruct (decide (0 <= xN < Z.of_nat (length (rcache s)))).
      * rewrite aget_aupd_eq by done. cbn.
        destruct (decide (N = k)) as [->|Hne]; [|by rewrite aget_aupd_ne].
        destruct (decide (0 <= k < Z.of_nat (length (RCache.chunk (aget (rcache s) xN))))).
        -- by rewrite aget_aupd_eq.
        -- rewrite !aget_default; [done|by rewrite ?aupd_length..].
      * rewrite (aget_default (aupd _ _ _)) by (by rewrite aupd_length).
        rewrite (aget_default (rcache s)) by done. cbn.
        destruct (decide (N = k)); by rewrite !aget_default by (cbn; lia).
Qed.

(** X16.  The first fetch of a column of a ring in plain memory: when the
    range cache holds no entry for the column, plotDataRangeCacheFetch
    comes to an end, takes the entry [rcache_ID] and leaves in it the least
    and the greatest of the finite values the column has in the valid rows,
    or [0, 0] when it has none; the datasets are left as they are. *)
Theorem range_fetch_fresh (pl : plot_t) (dN cN : Z) (fuel : nat) :
  let d := aget (data pl) dN in
  wf_plot pl dN ->
  plotDataRangeCacheGetNode pl dN cN = -1 ->
  0 <= rcache_ID pl < Z.of_nat (length (rcache pl)) ->
  Z.shiftr (Data.length_N d - 1) (Data.chunk_SHIFT d) < PLOT_CHUNK_MAX ->
  PLOT_CHUNK_MAX
    <= Z.of_nat (length (RCache.chunk (aget (rcache pl) (rcache_ID pl)))) ->
  cN < row_width d ->
  Data.length_N d <= Z.of_nat fuel ->
  exists pl' rows,
    plotDataRangeCacheFetch fuel pl dN cN = Some (rcache_ID pl, pl')
    /\ valid_rows fuel pl dN = Some rows
    /\ data pl' = data pl
    /\ is_range (RCache.fmin (aget (rcache pl') (rcache_ID pl)))
         (RCache.fmax (aget (rcache pl') (rcache_ID pl)))
         (input_column cN rows).
Proof.
  intros d Hwf Hmiss HID Hmax Hlen HcN Hfuel.
  set (xN := rcache_ID pl) in *.
  set (plI := set_rcache_ID
                (if decide (rcache_ID pl < PLOT_RCACHE_SIZE - 1)
                 then rcache_ID pl + 1 else 0) pl).
  pose proof (fetch_reset xN plI) as HR. cbv zeta in HR.
  set (pl1 := for_range 0 PLOT_CHUNK_MAX _ plI) in HR.
  destruct HR as (R1 & R2 & R3 & R4 & R5).
  assert (R1' : data pl1 = data pl) by exact R1.
  assert (R3' : length (rcache pl1) = length (rcache pl)) by exact R3.
  destruct (fetch_fresh_ring pl dN cN xN Hwf fuel pl1) as (pl2 & st2 & E & Ed2 & Hrange).
  { done. }
  { exact R2. }
  { rewrite R3. exact HID. }
  { rewrite R4. fold d. cbn. fold xN. lia. }
  { intros k Hk. apply R5. fold d in Hk. lia. }
  { done. }
  pose proof (plotDataRangeCacheFetch_chunks_step _ _ _ _ _ _ _ _ E) as (_ & L2 & _).
  eexists _, _. split; [|split; [|split]].
  - unfold plotDataRangeCacheFetch. rewrite Hmiss.
    rewrite decide_False by lia. rewrite decide_False by lia.
    change (for_range 0 PLOT_CHUNK_MAX _ _) with pl1. rewrite R1'.
    match goal with
    | |- context [plotDataRangeCacheFetch_chunks ?a ?b ?c ?d0 ?e ?f] =>
      match type of E with
      | ?lhs = _ => change (plotDataRangeCacheFetch_chunks a b c d0 e f) with lhs
      end
    end.
    rewrite E. cbn [mbind option_bind]. reflexivity.
  - by apply valid_rows_ring.
  - cbn. congruence.
  - cbn [rcache set_rcache_wipe_chunk_N set_rcache_wipe_data_N upd_rcache set_rcache].
    rewrite aget_aupd_eq by lia. cbn [RCache.fmin RCache.fmax RCache.set_fmax
      RCache.set_fmin]. fold d.
    rewrite input_column_ring_rows by done. exact Hrange.
Qed.

(** ** Range cache: the fetch comes to an end *)

Lemma plotDataRangeCacheFetch_returns fuel pl dN cN :
  wf_plot pl dN ->
  Data.length_N (aget (data pl) dN) <= Z.of_nat fuel ->
  exists xN pl', plotDataRangeCacheFetch fuel pl dN cN = Some (xN, pl').
Proof.
  intros Hwf Hfuel. pose proof Hwf as (_ & _ & _ & Hd).
  pose proof Hd as (_ & _ & _ & HL & Hh & _).
  pose proof (ring_dist_range _ _ Hd Hh) as Hn.
  unfold plotDataRangeCacheFetch.
  destruct (decide (_ >= 0 /\ _)); [by eexists _, _|].
  set (xN0 := plotDataRangeCacheGetNode pl dN cN).
  assert (Hgo : forall xN pl1, data pl1 = data pl -> lz4_compress pl1 = lz4_compress pl ->
    exists pl2 st2,
      plotDataRangeCacheFetch_chunks fuel pl1 dN cN xN
        {| f_rN := Data.head_N (aget (data pl1) dN);
           f_id_N := Data.id_N (aget (data pl1) dN);
           f_fmin := fval_of_int 0; f_fmax := fval_of_int 0; f_started := 0;
           f_finite := 0; f_ymin := FP_NAN; f_ymax := FP_NAN |} = Some (pl2, st2)).
  { intros xN pl1 Ed Elz. rewrite Ed.
    destruct (fetch_chunks_returns pl dN cN xN Hwf fuel pl1
                {| f_rN := Data.head_N (aget (data pl) dN);
                   f_id_N := Data.id_N (aget (data pl) dN);
                   f_fmin := fval_of_int 0; f_fmax := fval_of_int 0; f_started := 0;
                   f_finite := 0; f_ymin := FP_NAN; f_ymax := FP_NAN |} 0)
      as (pl2 & st2 & E & _); try done; try lia.
    - cbn. by rewrite Z.add_0_r, Z.mod_small.
    - cbn. lia.
    - by exists pl2, st2. }
  destruct (decide (xN0 >= 0)).
  - destruct (Hgo xN0 pl eq_refl eq_refl) as (pl2 & st2 & ->).
    cbn [mbind option_bind]. by eexists _, _.
  - pose proof (fetch_reset (rcache_ID pl)
                  (set_rcache_ID
                     (if decide (rcache_ID pl < PLOT_RCACHE_SIZE - 1)
                      then rcache_ID pl + 1 else 0) pl)) as HR.
    cbv zeta in HR. destruct HR as (R1 & R2 & _).
    match goal with |- context [plotDataRangeCacheFetch_chunks fuel ?p _ _ ?x _] =>
      destruct (Hgo x p R1 R2) as (pl2 & st2 & ->) end.
    cbn [mbind option_bind]. by eexists _, _.
Qed.

(** A column of a dataset whose chunk has just been wiped is never found
    cached. *)
Lemma wiped_not_cached pl dN kN cN :
  wiped pl dN kN ->
  ~ (plotDataRangeCacheGetNode pl dN cN >= 0
     /\ RCache.cached (aget (rcache pl) (plotDataRangeCacheGetNode pl dN cN)) <> 0).
Proof.
  intros Hw [Hx Hc]. apply Hc. unfold plotDataRangeCacheGetNode in *.
  match goal with |- context [first_index ?p 0 ?c] =>
    pose proof (first_index_spec p 0 c ltac:(lia)) as Hfi;
    cbv zeta in Hfi; set (xN := first_index p 0 c) in * end.
  destruct Hfi as [[E _]|(Hr & Hp & _)]; [lia|].
  apply bool_decide_eq_true in Hp as (Hb & Hd & _).
  apply (Hw xN); [lia|done..].
Qed.

Lemma plotDataRangeCacheFetch_memo fuel pl dN cN xN pl' :
  plotDataRangeCacheFetch fuel pl dN cN = Some (xN, pl') ->
  if decide (plotDataRangeCacheGetNode pl dN cN >= 0
             /\ RCache.cached (aget (rcache pl) (plotDataRangeCacheGetNode pl dN cN)) <> 0)
  then pl' = pl
  else wipe_memo pl' = (-1, -1).
Proof.
  unfold plotDataRangeCacheFetch.
  destruct (decide (_ >= 0 /\ _)); [by intros [= <- <-]|].
  destruct (decide (_ >= 0)).
  - destruct (plotDataRangeCacheFetch_chunks _ _ _ _ _ _) as [[pl2 st]|]; [|done].
    cbn. by intros [= <- <-].
  - destruct (plotDataRangeCacheFetch_chunks _ _ _ _ _ _) as [[pl2 st]|]; [|done].
    cbn. by intros [= <- <-].
Qed.

(** C3.  With the memo in its invariant (the chunk it names is wiped), a
    plotDataInsert into dataset [dN], or a plotDataWrite of a row of it,
    sets the memo to the dataset and the chunk touched and leaves every
    live range-cache entry of [dN] with [computed = 0] for that chunk and
    with [cached = 0], keeping the invariant.  The wipe is done once per
    streak: when the memo names another dataset or chunk, the range cache
    after the call is the one before it with plotDataRangeCacheWipe applied
    to every entry; when the memo already names the chunk, the range cache
    is not touched.  A chunk once wiped stays wiped under further inserts
    and writes.  plotDataRangeCacheFetch returns the state unchanged when it
    finds the column cached and resets the memo to [(-1, -1)] otherwise;
    after an insert or a write no column of [dN] is found cached, so the
    next fetch of any of them resets the memo, and on a ring in plain memory
    that fetch comes to an end once the fuel covers [length_N]. *)
Theorem rcache_wiped_on_write (pl : plot_t) (dN rN : Z) (row : list fval_t) :
  0 <= dN ->
  memo_inv pl ->
  let d := aget (data pl) dN in
  let kI := Z.shiftr (Data.tail_N d) (Data.chunk_SHIFT d) in
  let kW := Z.shiftr rN (Data.chunk_SHIFT d) in
  let plI := plotDataInsert pl dN row in
  let plW := (plotDataWrite pl dN rN).1.1 in
  (wipe_memo plI = (dN, kI) /\ wiped plI dN kI /\ memo_inv plI
   /\ (wipe_memo pl = (dN, kI) -> rcache plI = rcache pl)
   /\ (wipe_memo pl <> (dN, kI) ->
       forall N, aget (rcache plI) N = wipe_entry dN kI N (aget (rcache pl) N)))
  /\ (rN <> Data.tail_N d ->
      wipe_memo plW = (dN, kW) /\ wiped plW dN kW /\ memo_inv plW
      /\ (wipe_memo pl = (dN, kW) -> rcache plW = rcache pl)
      /\ (wipe_memo pl <> (dN, kW) ->
          forall N, aget (rcache plW) N = wipe_entry dN kW N (aget (rcache pl) N)))
  /\ (forall dM kM, wiped pl dM kM -> wiped plI dM kM /\ wiped plW dM kM)
  /\ (forall fuel cN xN pl',
        plotDataRangeCacheFetch fuel pl dN cN = Some (xN, pl') ->
        memo_inv pl'
        /\ if decide (plotDataRangeCacheGetNode pl dN cN >= 0
                      /\ RCache.cached
                           (aget (rcache pl) (plotDataRangeCacheGetNode pl dN cN)) <> 0)
           then pl' = pl
           else wipe_memo pl' = (-1, -1))
  /\ (forall fuel cN xN pl',
        plotDataRangeCacheFetch fuel plI dN cN = Some (xN, pl') ->
        wipe_memo pl' = (-1, -1))
  /\ (rN <> Data.tail_N d ->
      forall fuel cN xN pl',
        plotDataRangeCacheFetch fuel plW dN cN = Some (xN, pl') ->
        wipe_memo pl' = (-1, -1))
  /\ (wf_plot pl dN ->
      forall fuel cN, Data.length_N d <= Z.of_nat fuel ->
        (exists xN pl', plotDataRangeCacheFetch fuel plI dN cN = Some (xN, pl'))
        /\ (exists xN pl', plotDataRangeCacheFetch fuel plW dN cN = Some (xN, pl'))).
Proof.
  intros Hd Hinv d kI kW plI plW.
  assert (Hsame : forall pl' k, rcache pl' = rcache pl ->
            rcache_wipe_data_N pl = dN -> rcache_wipe_chunk_N pl = k ->
            wiped pl' dN k /\ forall dM kM, wiped pl dM kM -> wiped pl' dM kM).
  { intros pl' k E M M'. unfold wiped. rewrite E. split; [|done].
    unfold memo_inv in Hinv. rewrite M, M' in Hinv. by apply Hinv. }
  assert (Hgen : forall pl' k,
    rcache_wipe_data_N pl' = dN -> rcache_wipe_chunk_N pl' = k ->
    (if decide (rcache_wipe_data_N pl <> dN \/ rcache_wipe_chunk_N pl <> k)
     then forall N, aget (rcache pl') N = wipe_entry dN k N (aget (rcache pl) N)
     else rcache pl' = rcache pl) ->
    (wipe_memo pl' = (dN, k) /\ wiped pl' dN k /\ memo_inv pl'
     /\ (wipe_memo pl = (dN, k) -> rcache pl' = rcache pl)
     /\ (wipe_memo pl <> (dN, k) ->
         forall N, aget (rcache pl') N = wipe_entry dN k N (aget (rcache pl) N)))
    /\ forall dM kM, wiped pl dM kM -> wiped pl' dM kM).
  { intros pl' k M M' Hc.
    assert (Hw : wiped pl' dN k /\ forall dM kM, wiped pl dM kM -> wiped pl' dM kM).
    { destruct (decide _) as [Hm|Hm].
      - by apply wipe_entry_wiped.
      - apply Hsame; [done|lia..]. }
    destruct Hw as [Hw Hst]. split; [|done]. unfold wipe_memo. split_and!.
    - by rewrite M, M'.
    - done.
    - unfold memo_inv. by rewrite M, M'.
    - intros [= E E']. destruct (decide _) as [Hm|Hm]; [|done]. lia.
    - intros Hne. destruct (decide _) as [Hm|Hm]; [done|].
      exfalso. apply Hne. f_equal; lia. }
  pose proof (plotDataInsert_rcache pl dN row) as HI. cbv zeta in HI.
  fold d kI plI in HI. destruct HI as (MI & MI' & HI).
  assert (HW : rN <> Data.tail_N d ->
    rcache_wipe_data_N plW = dN /\ rcache_wipe_chunk_N plW = kW
    /\ if decide (rcache_wipe_data_N pl <> dN \/ rcache_wipe_chunk_N pl <> kW)
       then forall N, aget (rcache plW) N = wipe_entry dN kW N (aget (rcache pl) N)
       else rcache plW = rcache pl).
  { intros Hr. by apply plotDataWrite_rcache. }
  destruct (Hgen plI kI MI MI' HI) as [HgI HsI].
  split; [exact HgI|]. split; [|split; [|split; [|split; [|split]]]].
  - intros Hr. destruct (HW Hr) as (MW & MW' & HW'). by apply Hgen.
  - intros dM kM Hw. split; [by apply HsI|].
    destruct (decide (rN = Data.tail_N d)) as [Hr|Hr].
    + subst plW. unfold plotDataWrite. fold d. by rewrite decide_False by tauto.
    + destruct (HW Hr) as (MW & MW' & HW'). by apply (Hgen plW kW).
  - intros fuel cN xN pl' E. pose proof (plotDataRangeCacheFetch_memo _ _ _ _ _ _ E) as Hm.
    split; [|exact Hm]. revert Hm.
    destruct (decide (_ >= 0 /\ _)); [by intros ->|].
    intros [= Hm _]. intros Hneg. lia.
  - intros fuel cN xN pl' E. pose proof (plotDataRangeCacheFetch_memo _ _ _ _ _ _ E) as Hm.
    rewrite decide_False in Hm; [done|].
    apply (wiped_not_cached _ _ kI). by destruct HgI as (_ & Hw & _).
  - intros Hr fuel cN xN pl' E.
    pose proof (plotDataRangeCacheFetch_memo _ _ _ _ _ _ E) as Hm.
    rewrite decide_False in Hm; [done|].
    apply (wiped_not_cached _ _ kW).
    destruct (HW Hr) as (MW & MW' & HW').
    by destruct (Hgen plW kW MW MW' HW') as [(_ & Hw & _) _].
  - intros Hwf fuel cN Hfuel. split.
    + pose proof (plotDataInsert_ring pl dN row Hwf) as HR. cbv zeta in HR.
      destruct HR as (Hwf' & _ & _ & HL & _).
      apply plotDataRangeCacheFetch_returns; [done|]. unfold plI. rewrite HL.
      exact Hfuel.
    + assert (HdW : data plW = data pl /\ lz4_compress plW = lz4_compress pl).
      { destruct (decide (rN <> Data.tail_N d)) as [Hr|Hr].
        - subst plW. unfold plotDataWrite. fold d.
          rewrite decide_True by done.
          destruct Hwf as (Hlz & _).
          rewrite (decide_False (P := lz4_compress pl <> 0)) by lia.
          pose proof (wipe_memo_same pl dN (Z.shiftr rN (Data.chunk_SHIFT d))) as Hw.
          cbv zeta in Hw. fold kW in Hw.
          set (pl1 := if decide (rcache_wipe_data_N pl <> dN \/ _) then _ else pl) in *.
          destruct Hw as [Ed1 Elz1]. clearbody pl1.
          destruct (raw_ptr (aget (data pl1) dN) _); by cbn.
        - subst plW. unfold plotDataWrite. fold d. by rewrite decide_False by done. }
      destruct HdW as [EdW ElzW].
      apply plotDataRangeCacheFetch_returns; [by apply (wf_plot_same pl)|].
      rewrite EdW. exact Hfuel.
Qed.
End properties.

Section demo_properties.

#[local] Existing Instance demo_h.
#[local] Existing Instance demo_extern.

Lemma slave_axis_rescale_noop_witness :
  (plotAxisScaleManual demo_axes 1 (fval_of_int 0) (fval_of_int 5) = demo_axes
   /\ plotAxisScaleZoom demo_axes 1 10 (fval_of_int 2) = demo_axes
   /\ plotAxisScaleMove demo_axes 1 7 = demo_axes)
  /\ plotAxisScaleManual demo_axes 2 (fval_of_int 0) (fval_of_int 5) = demo_axes.
Proof.
  split.
  - apply (slave_axis_rescale_noop demo_axes 1 10 7 (fval_of_int 0) (fval_of_int 5)
             (fval_of_int 2)); [by vm_compute|]. by vm_compute.
  - apply (slave_axis_rescale_noop demo_axes 2 10 7 (fval_of_int 0) (fval_of_int 5)
             (fval_of_int 2)); [by vm_compute|]. by vm_compute.
Defined.


Lemma rcache_wiped_on_write_witness :
  let once := plotDataInsert demo_fetched 0 [Some 3%Q] in
  (0 <= 0 /\ memo_inv demo_fetched /\ wipe_memo demo_fetched <> (0, 1)
   /\ wf_plot demo_fetched 0)
  /\ (wipe_memo once = (0, 1) /\ wiped once 0 1 /\ memo_inv once
      /\ (forall N, aget (rcache once) N
                    = wipe_entry 0 1 N (aget (rcache demo_fetched) N))
      /\ exists xN pl',
           plotDataRangeCacheFetch 10 once 0 0 = Some (xN, pl')
           /\ wipe_memo pl' = (-1, -1))
  /\ (2 <> Data.tail_N (aget (data once) 0) /\ wipe_memo once = (0, 1))
  /\ rcache (plotDataWrite once 0 2).1.1 = rcache once.
Proof.
  intros once.
  assert (Hinv : memo_inv demo_fetched).
  { intros Hneg. exfalso. clear -Hneg. vm_compute in Hneg. by apply Hneg. }
  assert (Hne : wipe_memo demo_fetched <> (0, 1)) by (clear; by vm_compute).
  assert (Hwf : wf_plot demo_fetched 0) by (clear; repeat split; by vm_compute).
  assert (Ek : Z.shiftr (Data.tail_N (aget (data demo_fetched) 0))
                 (Data.chunk_SHIFT (aget (data demo_fetched) 0)) = 1)
    by (clear; by vm_compute).
  assert (El : Data.length_N (aget (data demo_fetched) 0) <= Z.of_nat 10)
    by (clear; by vm_compute).
  pose proof (rcache_wiped_on_write demo_fetched 0 1 [Some 3%Q] (Z.le_refl 0) Hinv) as H.
  cbv zeta in H. 
  rewrite Ek in H. 
  fold once in H.
  destruct H as ((Hm & Hw & Hi & _ & Hwipe) & _ & _ & _ & Hf & _ & Hret).
  split; [exact (conj (Z.le_refl 0) (conj Hinv (conj Hne Hwf)))|].
  split; [|split].
  - split; [exact Hm|]. split; [exact Hw|]. split; [exact Hi|]. split.
    + exact (Hwipe Hne).
    + destruct (Hret Hwf 10%nat 0 El) as [(xN & pl' & E) _].
      exists xN, pl'. split; [exact E|]. exact (Hf _ _ _ _ E).
  - split; [clear; by vm_compute|exact Hm].
  - assert (Hr : 2 <> Data.tail_N (aget (data once) 0)) by (clear; by vm_compute).
    assert (Ek2 : Z.shiftr 2 (Data.chunk_SHIFT (aget (data once) 0)) = 1)
      by (clear; by vm_compute).
    pose proof (rcache_wiped_on_write once 0 2 [Some 4%Q] (Z.le_refl 0) Hi) as H.
    cbv zeta in H. rewrite Ek2 in H. destruct H as (_ & H & _).
    destruct (H Hr) as (_ & _ & _ & Hskip & _).
    exact (Hskip Hm).
Defined.



Lemma valid_rows_count_witness :
  let d := aget (data demo_full) 0 in
  (wf_plot demo_full 0 /\ Data.length_N d <= Z.of_nat 4)
  /\ exists rows,
       valid_rows 4 demo_full 0 = Some rows
       /\ Z.of_nat (length rows) = Data.length_N d - plotDataSpaceLeft demo_full 0
       /\ Z.of_nat (length rows) <= Data.length_N d - 1
       /\ map fst rows = seqZ (Data.id_N d) (Z.of_nat (length rows))
       /\ Forall (fun row => Z.of_nat (length (snd row)) = row_width d) rows.
Proof.
  intros d.
  assert (H1 : wf_plot demo_full 0) by (repeat split; by vm_compute).
  assert (H2 : Data.length_N d <= Z.of_nat 4) by (by vm_compute).
  split; [exact (conj H1 H2)|].
  exact (valid_rows_count demo_full 0 4 H1 H2).
Defined.

Lemma ring_insert_witness :
  let d := aget (data demo_full) 0 in
  let pl' := plotDataInsert demo_full 0 [Some 4%Q] in
  (wf_plot demo_full 0 /\ Data.length_N d <= Z.of_nat 4)
  /\ exists rows cells,
       valid_rows 4 demo_full 0 = Some rows
       /\ valid_rows 4 pl' 0
          = Some ((if decide (Z.of_nat (length rows) = Data.length_N d - 1)
                   then drop 1 rows else rows)
                  ++ [(Data.id_N d + Z.of_nat (length rows), cells)])
       /\ Z.of_nat (length cells) = row_width d
       /\ (forall c, 0 <= c < Data.column_N d -> aget cells c = aget [Some 4%Q] c)
       /\ wf_plot pl' 0.
Proof.
  intros d pl'.
  assert (H1 : wf_plot demo_full 0) by (repeat split; by vm_compute).
  assert (H2 : Data.length_N d <= Z.of_nat 4) by (by vm_compute).
  split; [exact (conj H1 H2)|].
  exact (ring_insert demo_full 0 [Some 4%Q] 4 H1 H2).
Defined.

Lemma skip_stays_in_span_witness :
  let d := aget (data demo_full) 0 in
  let rN' := fst (plotDataSkip demo_full 0 2 2 (-5)) in
  let id_N' := snd (plotDataSkip demo_full 0 2 2 (-5)) in
  (wf_data d /\ 0 <= 2 < Data.length_N d
   /\ - 2 ^ 31 <= -5 /\ ring_off d 2 + -5 < 2 ^ 31
   /\ - 2 ^ 31 <= 2 - ring_off d 2
   /\ 2 + (ring_off d (Data.tail_N d) - ring_off d 2) < 2 ^ 31)
  /\ 0 <= rN' < Data.length_N d
  /\ ring_off d rN' = Z.min (ring_off d (Data.tail_N d)) (Z.max 0 (ring_off d 2 + -5))
  /\ id_N' - 2 = ring_off d rN' - ring_off d 2
  /\ - 2 ^ 31 <= id_N' < 2 ^ 31.
Proof.
  intros d rN' id_N'.
  assert (H1 : wf_data d) by (repeat split; by vm_compute).
  assert (H2 : 0 <= 2 < Data.length_N d) by (clear; by vm_compute).
  assert (H3 : - 2 ^ 31 <= -5) by (clear; by vm_compute).
  assert (H4 : ring_off d 2 + -5 < 2 ^ 31) by (clear; by vm_compute).
  assert (H5 : - 2 ^ 31 <= 2 - ring_off d 2) by (clear; by vm_compute).
  assert (H6 : 2 + (ring_off d (Data.tail_N d) - ring_off d 2) < 2 ^ 31)
    by (clear; by vm_compute).
  split; [exact (conj H1 (conj H2 (conj H3 (conj H4 (conj H5 H6)))))|].
  exact (skip_stays_in_span demo_full 0 2 2 (-5) H1 H2 H3 H4 H5 H6).
Defined.

Lemma chunk_skip_lands_on_boundary_witness :
  let d := aget (data demo_full) 0 in
  let rN' := fst (plotDataChunkSkip demo_full 0 1 1) in
  let id_N' := snd (plotDataChunkSkip demo_full 0 1 1) in
  (wf_data d /\ 0 <= 1 < Data.length_N d
   /\ ring_off d 1 <= ring_off d (Data.tail_N d))
  /\ (rN' = Data.tail_N d \/ Z.land rN' (Data.chunk_MASK d) = 0)
  /\ 0 <= rN' < Data.length_N d
  /\ id_N' - 1 = ring_off d rN' - ring_off d 1
  /\ (1 <> Data.tail_N d -> 1 < id_N').
Proof.
  intros d rN' id_N'.
  assert (H1 : wf_data d) by (repeat split; by vm_compute).
  assert (H2 : 0 <= 1 < Data.length_N d) by (by vm_compute).
  assert (H3 : ring_off d 1 <= ring_off d (Data.tail_N d)) by (by vm_compute).
  split; [exact (conj H1 (conj H2 H3))|].
  exact (chunk_skip_lands_on_boundary demo_full 0 1 1 H1 H2 H3).
Defined.

Lemma scale_slot_column_witness :
  let d := aget (data demo_scale) 0 in
  let cN := Data.column_N d + 1 in
  (wf_plot demo_scale 0 /\ 0 <= 0 < PLOT_DATASET_MAX /\ 0 <= 1 < PLOT_SUBTRACT
   /\ aget (Data.sub d) 1 = SUBTRACT_SCALE 0 (fval_of_int 2) (fval_of_int 1)
   /\ 0 < row_width d /\ 0 <> cN /\ Data.length_N d <= Z.of_nat 8)
  /\ exists pl' rows rows',
       plotDataSubtract 8 demo_scale 0 1 = Some pl'
       /\ valid_rows 8 demo_scale 0 = Some rows
       /\ valid_rows 8 pl' 0 = Some rows'
       /\ map fst rows' = map fst rows
       /\ column cN rows'
          = map (fun x => (x * fval_of_int 2 + fval_of_int 1)%F) (input_column 0 rows)
       /\ (forall c, 0 <= c < row_width d -> c <> cN -> column c rows' = column c rows)
       /\ wf_plot pl' 0.
Proof.
  intros d cN.
  assert (H1 : wf_plot demo_scale 0) by (repeat split; by vm_compute).
  assert (H2 : 0 <= 0 < PLOT_DATASET_MAX) by (by vm_compute).
  assert (H3 : 0 <= 1 < PLOT_SUBTRACT) by (by vm_compute).
  assert (H4 : aget (Data.sub d) 1 = SUBTRACT_SCALE 0 (fval_of_int 2) (fval_of_int 1))
    by (by vm_compute).
  assert (H5 : 0 < row_width d) by (by vm_compute).
  assert (H6 : 0 <> cN) by (by vm_compute).
  assert (H7 : Data.length_N d <= Z.of_nat 8) by (by vm_compute).
  split; [exact (conj H1 (conj H2 (conj H3 (conj H4 (conj H5 (conj H6 H7))))))|].
  exact (scale_slot_column demo_scale 0 1 0 (fval_of_int 2) (fval_of_int 1) 8
           H1 H2 H3 H4 H5 H6 H7).
Defined.


Lemma garbage_sweep_witness :
  (0 <= PLOT_SUBTRACT /\ PLOT_SUBTRACT < Z.of_nat 4)
  /\ exists pl' subs,
       plotSubtractGarbage 4 demo_slots 0 = Some pl'
       /\ pl' = upd_data 0 (Data.set_sub subs) demo_slots
       /\ forall sN, 0 <= sN < PLOT_SUBTRACT ->
            let s' := aget (Data.sub (aget (data pl') 0)) sN in
            s' = SUBTRACT_FREE
            \/ (s' = aget (Data.sub (aget (data demo_slots) 0)) sN
                /\ plotCheckColumnLinked pl' 0
                     (sN + Data.column_N (aget (data pl') 0)) = 1).
Proof.
  assert (H1 : 0 <= PLOT_SUBTRACT) by (by vm_compute).
  assert (H2 : PLOT_SUBTRACT < Z.of_nat 4) by (by vm_compute).
  split; [exact (conj H1 H2)|].
  exact (garbage_sweep demo_slots 0 4 H1 H2).
Defined.

Lemma range_fetch_registers_witness :
  (0 <= rcache_ID (insert_all demo_ring 0 [100; 1; 2]%Q) < PLOT_RCACHE_SIZE
   /\ PLOT_RCACHE_SIZE
      <= Z.of_nat (length (rcache (insert_all demo_ring 0 [100; 1; 2]%Q)))
   /\ plotDataRangeCacheFetch 10 (insert_all demo_ring 0 [100; 1; 2]%Q) 0 0
      = Some (0, demo_fetched))
  /\ (0 <= 0 < PLOT_RCACHE_SIZE
      /\ plotDataRangeCacheGetNode demo_fetched 0 0 = 0
      /\ RCache.cached (aget (rcache demo_fetched) 0) <> 0
      /\ (forall fuel', plotDataRangeCacheFetch fuel' demo_fetched 0 0
                        = Some (0, demo_fetched))
      /\ 0 <= rcache_ID demo_fetched < PLOT_RCACHE_SIZE
      /\ length (rcache demo_fetched)
         = length (rcache (insert_all demo_ring 0 [100; 1; 2]%Q))).
Proof.
  assert (H1 : 0 <= rcache_ID (insert_all demo_ring 0 [100; 1; 2]%Q) < PLOT_RCACHE_SIZE)
    by (by vm_compute).
  assert (H2 : PLOT_RCACHE_SIZE
               <= Z.of_nat (length (rcache (insert_all demo_ring 0 [100; 1; 2]%Q))))
    by (by vm_compute).
  assert (H3 : plotDataRangeCacheFetch 10 (insert_all demo_ring 0 [100; 1; 2]%Q) 0 0
               = Some (0, demo_fetched)) by (by vm_compute).
  split; [exact (conj H1 (conj H2 H3))|].
  exact (range_fetch_registers _ 0 0 10 0 demo_fetched H1 H2 H3).
Defined.

Lemma range_fetch_fresh_witness :
  (wf_plot demo_spun 0
   /\ plotDataRangeCacheGetNode demo_spun 0 0 = -1
   /\ 0 <= rcache_ID demo_spun < Z.of_nat (length (rcache demo_spun))
   /\ Z.shiftr (Data.length_N (aget (data demo_spun) 0) - 1)
        (Data.chunk_SHIFT (aget (data demo_spun) 0)) < PLOT_CHUNK_MAX
   /\ PLOT_CHUNK_MAX
      <= Z.of_nat (length (RCache.chunk (aget (rcache demo_spun) (rcache_ID demo_spun))))
   /\ 0 < row_width (aget (data demo_spun) 0)
   /\ Data.length_N (aget (data demo_spun) 0) <= Z.of_nat 10)
  /\ exists pl' rows,
       plotDataRangeCacheFetch 10 demo_spun 0 0 = Some (rcache_ID demo_spun, pl')
       /\ valid_rows 10 demo_spun 0 = Some rows
       /\ data pl' = data demo_spun
       /\ is_range (RCache.fmin (aget (rcache pl') (rcache_ID demo_spun)))
            (RCache.fmax (aget (rcache pl') (rcache_ID demo_spun)))
            (input_column 0 rows).
Proof.
  assert (H1 : wf_plot demo_spun 0) by (repeat split; by vm_compute).
  assert (H2 : plotDataRangeCacheGetNode demo_spun 0 0 = -1)
    by (clear; by vm_compute).
  assert (H3 : 0 <= rcache_ID demo_spun < Z.of_nat (length (rcache demo_spun)))
    by (clear; by vm_compute).
  assert (H4 : Z.shiftr (Data.length_N (aget (data demo_spun) 0) - 1)
                 (Data.chunk_SHIFT (aget (data demo_spun) 0)) < PLOT_CHUNK_MAX)
    by (clear; by vm_compute).
  assert (H5 : PLOT_CHUNK_MAX
               <= Z.of_nat (length (RCache.chunk
                                      (aget (rcache demo_spun) (rcache_ID demo_spun)))))
    by (clear; by vm_compute).
  assert (H6 : 0 < row_width (aget (data demo_spun) 0)) by (clear; by vm_compute).
  assert (H7 : Data.length_N (aget (data demo_spun) 0) <= Z.of_nat 10)
    by (clear; by vm_compute).
  split; [exact (conj H1 (conj H2 (conj H3 (conj H4 (conj H5 (conj H6 H7))))))|].
  exact (range_fetch_fresh demo_spun 0 0 10 H1 H2 H3 H4 H5 H6 H7).
Defined.

End demo_properties.
